(** * NESCO prepaid-meter helper: backend (app.py), Telegram dialogue (bot.py)
      and reply parser (ai_agent.py)

    A shallow embedding of the Flask backend, of the conversation handlers
    of the bot and of the extraction of the JSON block from a model's reply,
    followed by the properties of the balance engine, of the configuration
    store, of the dialogue state machine and of the dialogue run against the
    backend.

    Conventions of the embedding:
    - a Python [float] is a primitive binary64 float;
    - a [datetime] is the number of microseconds since the epoch, in [Z];
    - a Python [str] is a [string] whose characters are the code points
      U+0000 .. U+00FF;
    - the database is a record of tables (lists of rows, in insertion order)
      with the next value of each primary-key sequence;
    - a request runs in a [Session]: the rows as the SQLAlchemy session sees
      them, the objects added but not yet flushed, the last committed
      database, the number of clock reads so far and the log of the commits
      and of the calls to the scraper. *)

From Stdlib Require Import List ZArith NArith String Ascii Bool Floats Lia.
Import ListNotations.

Local Open Scope string_scope.
Local Open Scope Z_scope.

(* ================================================================== *)
(** ** Python built-ins used by the handlers *)

Module Py.

(** Exceptions raised by the built-ins below. *)
Inductive exn := ValueError | TypeError | OverflowError | IndexError | KeyError.

Inductive result (A : Type) :=
| Ret (a : A)
| Raise (e : exn).
Arguments Ret {A} a.
Arguments Raise {A} e.

(** [str.isspace] of one character (code points below 256). *)
Definition isspace_char (c : ascii) : bool :=
  let n := N_of_ascii c in
  (((9 <=? n) && (n <=? 13)) || ((28 <=? n) && (n <=? 32))
   || (n =? 133) || (n =? 160))%N.

(** [str.isdigit] of one character: the decimal digits and the
    superscripts U+00B2, U+00B3, U+00B9. *)
Definition isdigit_char (c : ascii) : bool :=
  let n := N_of_ascii c in
  (((48 <=? n) && (n <=? 57)) || (n =? 178) || (n =? 179) || (n =? 185))%N.

Fixpoint lstrip_with (sp : ascii -> bool) (s : string) : string :=
  match s with
  | EmptyString => EmptyString
  | String c s' => if sp c then lstrip_with sp s' else s
  end.

Fixpoint rstrip_with (sp : ascii -> bool) (s : string) : string :=
  match s with
  | EmptyString => EmptyString
  | String c s' =>
      match rstrip_with sp s' with
      | EmptyString => if sp c then EmptyString else String c EmptyString
      | r => String c r
      end
  end.

(** [s.strip()] *)
Definition strip (s : string) : string :=
  rstrip_with isspace_char (lstrip_with isspace_char s).

Fixpoint all_chars (p : ascii -> bool) (s : string) : bool :=
  match s with
  | EmptyString => true
  | String c s' => p c && all_chars p s'
  end.

(** [s.isdigit()]: at least one character, and all of them digits. *)
Definition isdigit (s : string) : bool :=
  match s with
  | EmptyString => false
  | _ => all_chars isdigit_char s
  end.

(** [s.split('.')[0]]: the text before the first dot. *)
Fixpoint split_dot_head (s : string) : string :=
  match s with
  | EmptyString => EmptyString
  | String c s' =>
      if Ascii.eqb c "." then EmptyString else String c (split_dot_head s')
  end.

Definition digit_val (c : ascii) : option Z :=
  let n := N_of_ascii c in
  if ((48 <=? n) && (n <=? 57))%N then Some (Z.of_N n - 48) else None.

(** Decimal digits, with single underscores allowed between two digits.
    [prev] tells whether the previous character was a digit. *)
Fixpoint int_digits (acc : Z) (prev : bool) (s : string) : option Z :=
  match s with
  | EmptyString => if prev then Some acc else None
  | String c s' =>
      match digit_val c with
      | Some d => int_digits (10 * acc + d) true s'
      | None =>
          if Ascii.eqb c "_" && prev then int_digits acc false s' else None
      end
  end.

(** The blanks [int(str)] skips on both sides. *)
Definition int_space (c : ascii) : bool :=
  let n := N_of_ascii c in
  (((9 <=? n) && (n <=? 13)) || (n =? 32) || (n =? 133) || (n =? 160))%N.

(** [int(s)] for a string [s]; [ValueError] when [s] is not a literal. *)
Definition int (s : string) : result Z :=
  let t := rstrip_with int_space (lstrip_with int_space s) in
  let r :=
    match t with
    | String "+" u => int_digits 0 false u
    | String "-" u => option_map Z.opp (int_digits 0 false u)
    | _ => int_digits 0 false t
    end in
  match r with
  | Some n => Ret n
  | None => Raise ValueError
  end.

(** [l[i]]: a negative index counts from the end of the list. *)
Definition index {A : Type} (l : list A) (i : Z) : result A :=
  let n := Z.of_nat (List.length l) in
  let j := if i <? 0 then i + n else i in
  if (j <? 0) || (n <=? j) then Raise IndexError
  else
    match nth_error l (Z.to_nat j) with
    | Some a => Ret a
    | None => Raise IndexError
    end.

(** A JSON value as [request.json] delivers it. *)
Inductive json :=
| JNull
| JBool (b : bool)
| JInt (n : Z)
| JFloat (x : float)
| JStr (s : string)
| JArr   (* an array, whatever its items *)
| JObj.  (* an object, whatever its fields *)

(** [float(n)] for an [int]: rounded to the nearest double, ties to even;
    [OverflowError] when out of range. *)
Definition float_of_int (n : Z) : result float :=
  match binary_normalize prec emax n 0 false with
  | S754_infinity _ => Raise OverflowError
  | sf => Ret (SF2Prim sf)
  end.

(** [float(v)].  The conversion of a string to a float is the runtime's
    ([float_of_str], [None] for [ValueError]). *)
Definition to_float (float_of_str : string -> option float) (v : json)
  : result float :=
  match v with
  | JNull => Raise TypeError
  | JBool b => Ret (if b then 1%float else 0%float)
  | JInt n => float_of_int n
  | JFloat x => Ret x
  | JStr s =>
      match float_of_str s with
      | Some x => Ret x
      | None => Raise ValueError
      end
  | JArr => Raise TypeError
  | JObj => Raise TypeError
  end.

End Py.

(* ================================================================== *)
(** ** The backend: app.py *)

Module App.

(** *** Models *)

(** Row of [users].  The columns [username] and [reminder_time] are read
    and written by no handler and are left out. *)
Module User.
Record t := mk
  { id : Z;
    telegram_user_id : Z;
    daily_reminder_enabled : bool;
    created_at : Z }.

Definition set_daily_reminder_enabled (b : bool) (u : t) : t :=
  mk (id u) (telegram_user_id u) b (created_at u).
End User.

(** Row of [meters]. *)
Module Meter.
Record t := mk
  { id : Z;
    user_id : Z;
    meter_number : string;
    meter_name : string;
    min_balance : float;
    last_balance : option float;
    last_checked : option Z;
    created_at : Z }.

Definition set_min_balance (x : float) (m : t) : t :=
  mk (id m) (user_id m) (meter_number m) (meter_name m) x
     (last_balance m) (last_checked m) (created_at m).

Definition set_snapshot (balance : float) (checked : Z) (m : t) : t :=
  mk (id m) (user_id m) (meter_number m) (meter_name m) (min_balance m)
     (Some balance) (Some checked) (created_at m).
End Meter.

(** Row of [balance_history]. *)
Module BalanceHistory.
Record t := mk
  { id : Z;
    meter_id : Z;
    balance : float;
    recorded_at : Z }.
End BalanceHistory.

(** The three tables, rows in insertion order, and the next value of each
    primary-key sequence. *)
Record DB := mkDB
  { users : list User.t;
    meters : list Meter.t;
    balance_history : list BalanceHistory.t;
    users_seq : Z;
    meters_seq : Z;
    balance_history_seq : Z }.

Definition empty_db : DB := mkDB [] [] [] 1 1 1.

Definition insert_user (u : User.t) (d : DB) : DB :=
  mkDB (users d ++ [u]) (meters d) (balance_history d)
       (users_seq d + 1) (meters_seq d) (balance_history_seq d).

Definition insert_meter (m : Meter.t) (d : DB) : DB :=
  mkDB (users d) (meters d ++ [m]) (balance_history d)
       (users_seq d) (meters_seq d + 1) (balance_history_seq d).

Definition insert_history (h : BalanceHistory.t) (d : DB) : DB :=
  mkDB (users d) (meters d) (balance_history d ++ [h])
       (users_seq d) (meters_seq d) (balance_history_seq d + 1).

(** UPDATE of one row, by primary key. *)
Definition update_user (u : User.t) (d : DB) : DB :=
  mkDB (map (fun x => if User.id x =? User.id u then u else x) (users d))
       (meters d) (balance_history d)
       (users_seq d) (meters_seq d) (balance_history_seq d).

Definition update_meter (m : Meter.t) (d : DB) : DB :=
  mkDB (users d)
       (map (fun x => if Meter.id x =? Meter.id m then m else x) (meters d))
       (balance_history d)
       (users_seq d) (meters_seq d) (balance_history_seq d).

(** DELETE of a meter; the relationship [history] cascades to its rows of
    [balance_history]. *)
Definition delete_meter (m : Meter.t) (d : DB) : DB :=
  mkDB (users d)
       (filter (fun x => negb (Meter.id x =? Meter.id m)) (meters d))
       (filter (fun h => negb (BalanceHistory.meter_id h =? Meter.id m))
               (balance_history d))
       (users_seq d) (meters_seq d) (balance_history_seq d).

(** [User.query.filter_by(telegram_user_id=...).first()] *)
Definition user_by_telegram_id (telegram_user_id : Z) (d : DB)
  : option User.t :=
  find (fun u => User.telegram_user_id u =? telegram_user_id) (users d).

(** [Meter.query.filter_by(user_id=..., meter_number=...).first()] *)
Definition meter_by_number (user_id : Z) (meter_number : string) (d : DB)
  : option Meter.t :=
  find (fun m => (Meter.user_id m =? user_id)
                 && String.eqb (Meter.meter_number m) meter_number)
       (meters d).

(** [Meter.query.filter_by(id=..., user_id=...).first()] *)
Definition meter_by_id (meter_id user_id : Z) (d : DB) : option Meter.t :=
  find (fun m => (Meter.id m =? meter_id) && (Meter.user_id m =? user_id))
       (meters d).

(** The relationship [user.meters]. *)
Definition meters_of (u : User.t) (d : DB) : list Meter.t :=
  filter (fun m => Meter.user_id m =? User.id u) (meters d).

(** *** The world of one request *)

Inductive scrape_result :=
| ScrapeOk (balance : float)         (* {'success': True, 'balance': ...} *)
| ScrapeFail (error : string).       (* {'success': False, 'error': ...} *)

(** What a request does not control: the answer of the NESCO site for a
    meter number, and the successive readings of the wall clock
    ([utcnow n] is the value of the [n]-th call to [datetime.utcnow()]). *)
Record Env := mkEnv
  { scrape_nesco_balance : string -> scrape_result;
    utcnow : nat -> Z }.

Inductive event :=
| Commit (snapshot : DB)             (* db.session.commit() *)
| Scrape (meter_number : string).    (* scrape_nesco_balance(meter_number) *)

Record Session := mkSession
  { db : DB;                          (* the rows as the session sees them *)
    pending : list (Z * float);       (* BalanceHistory objects added and not
                                         yet flushed: meter_id, balance *)
    committed : DB;                   (* the database as last committed *)
    clock_reads : nat;
    log : list event }.

Definition begin (d : DB) : Session := mkSession d [] d 0 [].

Definition with_db (d : DB) (s : Session) : Session :=
  mkSession d (pending s) (committed s) (clock_reads s) (log s).

Definition record (e : event) (s : Session) : Session :=
  mkSession (db s) (pending s) (committed s) (clock_reads s) (log s ++ [e]).

(** [datetime.utcnow()] *)
Definition now (env : Env) (s : Session) : Z * Session :=
  (utcnow env (clock_reads s),
   mkSession (db s) (pending s) (committed s) (S (clock_reads s)) (log s)).

(** [db.session.add(BalanceHistory(meter_id=..., balance=...))] *)
Definition add_history (meter_id : Z) (balance : float) (s : Session)
  : Session :=
  mkSession (db s) (pending s ++ [(meter_id, balance)]) (committed s)
            (clock_reads s) (log s).

(** INSERT of the pending rows: each one takes its primary key from the
    sequence and its [recorded_at] from the column default
    [datetime.utcnow], called at that moment. *)
Fixpoint flush_rows (env : Env) (rows : list (Z * float)) (d : DB) (n : nat)
  : DB * nat :=
  match rows with
  | [] => (d, n)
  | (meter_id, balance) :: rest =>
      let h := BalanceHistory.mk (balance_history_seq d) meter_id balance
                                 (utcnow env n) in
      flush_rows env rest (insert_history h d) (S n)
  end.

Definition flush (env : Env) (s : Session) : Session :=
  let '(d, n) := flush_rows env (pending s) (db s) (clock_reads s) in
  mkSession d [] (committed s) n (log s).

(** [db.session.commit()] *)
Definition commit (env : Env) (s : Session) : Session :=
  let s1 := flush env s in
  mkSession (db s1) [] (db s1) (clock_reads s1) (log s1 ++ [Commit (db s1)]).

(** *** Responses *)

Inductive message :=
| Welcome
| MeterAdded (meter_name meter_number : string) (balance : float)
| MeterRemoved (meter_name : string)
| MinBalanceSet (min_balance : Py.json) (meter_name : string)
| ReminderStatus (enabled : bool).

(** One entry of ['results'] in the answer of /api/check-balances. *)
Inductive result_entry :=
| Status (name number : string) (balance : float)
         (yesterday_usage : option float) (alert : bool)
         (min_balance : float)
| Failed (name number : string) (error : string).

(** One entry of ['meters'] in the answer of /api/list-meters. *)
Record meter_info := mkInfo
  { info_id : Z;
    info_name : string;
    info_number : string;
    info_min_balance : float;
    info_last_balance : option float;
    info_last_checked : option Z }.

Inductive response :=
| Success (m : message)                       (* 200, 'success': True *)
| Results (results : list result_entry) (timestamp : Z)
| Meters (meters : list meter_info)
| Failure (status : Z) (error : string)       (* 'success': False *)
| Unhandled (e : Py.exn).                     (* the handler raised: 500 *)

(** Truth value of a request field, as [all([...])] tests it. *)
Definition truthy_int (n : Z) : bool := negb (n =? 0).
Definition truthy_str (s : string) : bool :=
  match s with EmptyString => false | _ => true end.

Definition one_day : Z := 86400000000.   (* timedelta(days=1) *)

(** *** Handlers

    A handler takes the request fields and the session, and returns the
    response with the session as it leaves it. *)

(** POST /webhook/telegram *)
Definition telegram_webhook (env : Env) (command : string)
  (telegram_user_id : Z) (s : Session) : response * Session :=
  if String.eqb command "start"
  then
    match user_by_telegram_id telegram_user_id (db s) with
    | Some _ => (Success Welcome, s)
    | None =>
        let '(created, s1) := now env s in
        let u := User.mk (users_seq (db s1)) telegram_user_id true created in
        (Success Welcome, commit env (with_db (insert_user u (db s1)) s1))
    end
  else (Failure 200 "Unknown command", s).

(** POST /api/add-meter *)
Definition add_meter (env : Env)
  (telegram_user_id : Z) (meter_number meter_name : string) (s : Session)
  : response * Session :=
  if negb (truthy_int telegram_user_id && truthy_str meter_number
           && truthy_str meter_name)
  then (Failure 400 "Missing required fields", s)
  else
    let '(user, s1) :=
      match user_by_telegram_id telegram_user_id (db s) with
      | Some u => (u, s)
      | None =>
          (* INSERT at the commit: defaults True and utcnow() *)
          let '(created, s') := now env s in
          let u := User.mk (users_seq (db s')) telegram_user_id true created in
          (u, commit env (with_db (insert_user u (db s')) s'))
      end in
    (* Check if meter already exists *)
    match meter_by_number (User.id user) meter_number (db s1) with
    | Some _ => (Failure 400 "Meter already exists", s1)
    | None =>
        (* Verify meter by scraping *)
        let s2 := record (Scrape meter_number) s1 in
        match scrape_nesco_balance env meter_number with
        | ScrapeFail error =>
            (Failure 400 ("Cannot verify meter: " ++ error), s2)
        | ScrapeOk balance =>
            let '(checked, s3) := now env s2 in
            (* INSERT of the meter, then of its first history row, at the
               commit: defaults 50.0 and utcnow() *)
            let '(created, s4) := now env s3 in
            let meter :=
              Meter.mk (meters_seq (db s4)) (User.id user) meter_number
                       meter_name 50%float (Some balance) (Some checked)
                       created in
            let s5 := with_db (insert_meter meter (db s4)) s4 in
            let s6 := add_history (Meter.id meter) balance s5 in
            (Success (MeterAdded meter_name meter_number balance),
             commit env s6)
        end
    end.

(** POST /api/list-meters *)
Definition list_meters (telegram_user_id : Z) (s : Session)
  : response * Session :=
  match user_by_telegram_id telegram_user_id (db s) with
  | None => (Meters [], s)
  | Some user =>
      (Meters (map (fun m => mkInfo (Meter.id m) (Meter.meter_name m)
                                    (Meter.meter_number m)
                                    (Meter.min_balance m)
                                    (Meter.last_balance m)
                                    (Meter.last_checked m))
                   (meters_of user (db s))), s)
  end.

(** The row [BalanceHistory.query.filter(...).order_by(recorded_at.desc())
    .first()] returns: a row of greatest [recorded_at] (among equal ones,
    the first of the table). *)
Fixpoint newest (rows : list BalanceHistory.t) : option BalanceHistory.t :=
  match rows with
  | [] => None
  | h :: rest =>
      match newest rest with
      | Some h' =>
          if BalanceHistory.recorded_at h <? BalanceHistory.recorded_at h'
          then Some h' else Some h
      | None => Some h
      end
  end.

(** [BalanceHistory.meter_id == meter.id, BalanceHistory.recorded_at >=
    yesterday] *)
Definition since (meter_id yesterday : Z) (h : BalanceHistory.t) : bool :=
  (BalanceHistory.meter_id h =? meter_id)
  && (yesterday <=? BalanceHistory.recorded_at h).

Definition yesterday_record (meter_id yesterday : Z) (d : DB)
  : option BalanceHistory.t :=
  newest (filter (since meter_id yesterday) (balance_history d)).

(** The body of the loop of /api/check-balances, for one meter. *)
Definition check_one (env : Env) (yesterday : Z) (meter : Meter.t)
  (s : Session) : result_entry * Session :=
  (* Scrape current balance *)
  let s1 := record (Scrape (Meter.meter_number meter)) s in
  match scrape_nesco_balance env (Meter.meter_number meter) with
  | ScrapeOk current_balance =>
      (* Get yesterday's balance; the query flushes the session first *)
      let s2 := flush env s1 in
      let yesterday_usage :=
        match yesterday_record (Meter.id meter) yesterday (db s2) with
        | Some r => Some (BalanceHistory.balance r - current_balance)%float
        | None => None
        end in
      (* Update meter *)
      let '(checked, s3) := now env s2 in
      let s4 :=
        with_db (update_meter (Meter.set_snapshot current_balance checked
                                                  meter) (db s3)) s3 in
      (* Add to history *)
      let s5 := add_history (Meter.id meter) current_balance s4 in
      (* Check min balance alert *)
      let alert := (current_balance <? Meter.min_balance meter)%float in
      (Status (Meter.meter_name meter) (Meter.meter_number meter)
              current_balance yesterday_usage alert (Meter.min_balance meter),
       s5)
  | ScrapeFail error =>
      (Failed (Meter.meter_name meter) (Meter.meter_number meter) error, s1)
  end.

(** [for meter in user.meters: ...] *)
Fixpoint check_loop (env : Env) (yesterday : Z) (ms : list Meter.t)
  (s : Session) : list result_entry * Session :=
  match ms with
  | [] => ([], s)
  | meter :: rest =>
      let '(r, s1) := check_one env yesterday meter s in
      let '(rs, s2) := check_loop env yesterday rest s1 in
      (r :: rs, s2)
  end.

(** POST /api/check-balances *)
Definition check_balances (env : Env) (telegram_user_id : Z) (s : Session)
  : response * Session :=
  match user_by_telegram_id telegram_user_id (db s) with
  | None => (Failure 404 "No meters found", s)
  | Some user =>
      match meters_of user (db s) with
      | [] => (Failure 404 "No meters found", s)
      | ms =>
          let '(t, s0) := now env s in
          let yesterday := t - one_day in
          let '(results, s1) := check_loop env yesterday ms s0 in
          let s2 := commit env s1 in
          let '(timestamp, s3) := now env s2 in
          (Results results timestamp, s3)
      end
  end.

(** POST /api/remove-meter *)
Definition remove_meter (env : Env) (telegram_user_id meter_id : Z)
  (s : Session) : response * Session :=
  match user_by_telegram_id telegram_user_id (db s) with
  | None => (Failure 404 "User not found", s)
  | Some user =>
      match meter_by_id meter_id (User.id user) (db s) with
      | None => (Failure 404 "Meter not found", s)
      | Some meter =>
          let meter_name := Meter.meter_name meter in
          (Success (MeterRemoved meter_name),
           commit env (with_db (delete_meter meter (db s)) s))
      end
  end.

(** POST /api/set-min-balance *)
Definition set_min_balance (float_of_str : string -> option float)
  (env : Env) (telegram_user_id meter_id : Z) (min_balance : Py.json)
  (s : Session) : response * Session :=
  match user_by_telegram_id telegram_user_id (db s) with
  | None => (Failure 404 "User not found", s)
  | Some user =>
      match meter_by_id meter_id (User.id user) (db s) with
      | None => (Failure 404 "Meter not found", s)
      | Some meter =>
          match Py.to_float float_of_str min_balance with
          | Py.Raise e => (Unhandled e, s)
          | Py.Ret x =>
              let s1 :=
                with_db (update_meter (Meter.set_min_balance x meter) (db s))
                        s in
              (Success (MinBalanceSet min_balance (Meter.meter_name meter)),
               commit env s1)
          end
      end
  end.

(** POST /api/toggle-reminder *)
Definition toggle_reminder (env : Env) (telegram_user_id : Z) (s : Session)
  : response * Session :=
  match user_by_telegram_id telegram_user_id (db s) with
  | None =>
      (* a new User object has no flag yet: [not None] is True *)
      let '(created, s1) := now env s in
      let u := User.mk (users_seq (db s1)) telegram_user_id true created in
      (Success (ReminderStatus true),
       commit env (with_db (insert_user u (db s1)) s1))
  | Some user =>
      let enabled := negb (User.daily_reminder_enabled user) in
      let s1 :=
        with_db (update_user (User.set_daily_reminder_enabled enabled user)
                             (db s)) s in
      (Success (ReminderStatus enabled), commit env s1)
  end.

(** A request from its start to the end of its context: what is answered,
    what the database holds afterwards, and what happened on the way. *)
Definition serve (handler : Session -> response * Session) (d : DB)
  : response * DB * list event :=
  let '(r, s) := handler (begin d) in
  (r, committed s, log s).

Definition answer (handler : Session -> response * Session) (d : DB)
  : response := fst (handler (begin d)).

Definition after (handler : Session -> response * Session) (d : DB) : DB :=
  committed (snd (handler (begin d))).

Definition trace (handler : Session -> response * Session) (d : DB)
  : list event := log (snd (handler (begin d))).

(** *** Integrity constraints of the schema

    Primary keys come from the sequences and are unique; [meters.user_id]
    and [balance_history.meter_id] are foreign keys. *)
Record wf (d : DB) : Prop := mkWf
  { wf_users_seq : Forall (fun u => User.id u < users_seq d) (users d);
    wf_meters_seq : Forall (fun m => Meter.id m < meters_seq d) (meters d);
    wf_meters_pk : NoDup (map Meter.id (meters d));
    wf_meters_fk :
      Forall (fun m => In (Meter.user_id m) (map User.id (users d)))
             (meters d);
    wf_history_fk :
      Forall (fun h => In (BalanceHistory.meter_id h)
                          (map Meter.id (meters d)))
             (balance_history d) }.

(** GET /api/daily-reminder; the answer carries [reminders_sent]. *)
Definition daily_reminder (s : Session) : nat * Session :=
  let users_with_reminders :=
    filter User.daily_reminder_enabled (users (db s)) in
  let reminders_sent :=
    fold_left (fun sent user =>
                 match meters_of user (db s) with
                 | [] => sent
                 | _ => S sent
                 end)
              users_with_reminders O in
  (reminders_sent, s).

(** In [scrape_nesco_balance]: the characters of the balance cell that
    [filter(lambda x: x.isdigit() or x == '.', ...)] keeps. *)
Fixpoint numeric_part (s : string) : string :=
  match s with
  | EmptyString => EmptyString
  | String c s' =>
      if Py.isdigit_char c || Ascii.eqb c "."
      then String c (numeric_part s')
      else numeric_part s'
  end.

(** In [scrape_nesco_balance]: the balance read from the text of the cell,
    [float(''.join(filter(..., cell.text.strip())))]; [None] when [float]
    raises [ValueError]. *)
Definition balance_of_cell (float_of_str : string -> option float)
  (text : string) : option float :=
  float_of_str (numeric_part (Py.strip text)).

(** The databases the application can be in: empty at first, then as the
    requests leave it. *)
Inductive reachable (float_of_str : string -> option float) : DB -> Prop :=
| reach_empty : reachable float_of_str empty_db
| reach_webhook env command telegram_user_id d :
    reachable float_of_str d ->
    reachable float_of_str
      (after (telegram_webhook env command telegram_user_id) d)
| reach_add_meter env telegram_user_id meter_number meter_name d :
    reachable float_of_str d ->
    reachable float_of_str
      (after (add_meter env telegram_user_id meter_number meter_name) d)
| reach_check_balances env telegram_user_id d :
    reachable float_of_str d ->
    reachable float_of_str (after (check_balances env telegram_user_id) d)
| reach_remove_meter env telegram_user_id meter_id d :
    reachable float_of_str d ->
    reachable float_of_str
      (after (remove_meter env telegram_user_id meter_id) d)
| reach_set_min_balance env telegram_user_id meter_id min_balance d :
    reachable float_of_str d ->
    reachable float_of_str
      (after (set_min_balance float_of_str env telegram_user_id meter_id
                              min_balance) d)
| reach_toggle_reminder env telegram_user_id d :
    reachable float_of_str d ->
    reachable float_of_str (after (toggle_reminder env telegram_user_id) d).

End App.

(* ================================================================== *)
(** ** The Telegram dialogue: bot.py *)

Module Bot.

(** Conversation states; [END] is [ConversationHandler.END]. *)
Inductive state :=
| ADD_METER_NUMBER
| ADD_METER_NAME
| SET_MIN_METER
| SET_MIN_AMOUNT
| END.

(** [context.user_data], one optional entry per key the handlers use. *)
Record user_data := mkData
  { meter_number : option string;
    minbalance_meters : option (list App.meter_info);
    selected_meter : option App.meter_info;
    remove_meters : option (list App.meter_info) }.

(** [context.user_data.clear()] *)
Definition cleared : user_data := mkData None None None None.

Definition set_meter_number (n : string) (ud : user_data) : user_data :=
  mkData (Some n) (minbalance_meters ud) (selected_meter ud)
         (remove_meters ud).

Definition set_minbalance_meters (l : list App.meter_info) (ud : user_data)
  : user_data :=
  mkData (meter_number ud) (Some l) (selected_meter ud) (remove_meters ud).

Definition set_selected_meter (m : App.meter_info) (ud : user_data)
  : user_data :=
  mkData (meter_number ud) (minbalance_meters ud) (Some m) (remove_meters ud).

(** The texts sent with [reply_text]. *)
Inductive reply :=
| AskMeterNumber                       (* Let's add a new meter! ... *)
| InvalidMeterNumber                   (* Please send a valid meter number (only digits) *)
| AskMeterName                         (* Great! Now send a name for this meter ... *)
| Verifying                            (* Adding meter and verifying with NESCO... *)
| NoMetersFound                        (* No meters found. Add one with /add *)
| SelectMeter (names : list string)    (* Select a meter: with the numbered keyboard *)
| Cancelled                            (* Cancelled *)
| AskAmount (name : string)            (* Send minimum balance amount for *name* (in BDT): *)
| InvalidSelection                     (* Invalid selection *)
| InvalidNumber                        (* Please send a valid number *)
| BackendMessage (m : App.message)     (* result['message'] *)
| BackendError (error : option string). (* Error: result.get('error') *)

(** What a handler returns: the next state, or the exception it let out. *)
Inductive outcome :=
| Next (st : state)
| Raised (e : Py.exn).

(** The calls made through [call_backend]. *)
Inductive request :=
| ListMeters (telegram_user_id : Z)
| AddMeter (telegram_user_id : Z) (meter_number meter_name : string)
| SetMinBalance (telegram_user_id meter_id : Z) (min_balance : float).

(** [result.get('success')] *)
Definition success (r : App.response) : bool :=
  match r with
  | App.Success _ | App.Results _ _ | App.Meters _ => true
  | App.Failure _ _ | App.Unhandled _ => false
  end.

(** [result.get('meters')] as a truth value and a list. *)
Definition meters_of_result (r : App.response) : list App.meter_info :=
  match r with
  | App.Meters l => l
  | _ => []
  end.

Section Handlers.

(** The backend behind [call_backend]: a world [W] that a call may change,
    and the answer it gives. *)
Context {W : Type}.
Variable call_backend : request -> W -> App.response * W.

(** /add *)
Definition add_meter_start (ud : user_data)
  : outcome * list reply * user_data :=
  (Next ADD_METER_NUMBER, [AskMeterNumber], ud).

(** text in [ADD_METER_NUMBER] *)
Definition add_meter_number (text : string) (ud : user_data)
  : outcome * list reply * user_data :=
  let meter_number := Py.strip text in
  if negb (Py.isdigit meter_number)
  then (Next ADD_METER_NUMBER, [InvalidMeterNumber], ud)
  else (Next ADD_METER_NAME, [AskMeterName], set_meter_number meter_number ud).

(** text in [ADD_METER_NAME] *)
Definition add_meter_name (user_id : Z) (text : string) (ud : user_data)
  (w : W) : outcome * list reply * user_data * W :=
  let meter_name := Py.strip text in
  match meter_number ud with
  | None => (Raised Py.KeyError, [], ud, w)
  | Some number =>
      let '(result, w') := call_backend (AddMeter user_id number meter_name) w in
      let answer :=
        match result with
        | App.Success m => Some (BackendMessage m)
        | App.Failure _ e => Some (BackendError (Some e))
        | App.Unhandled _ => Some (BackendError None)
        | _ => None   (* result['message'] is missing *)
        end in
      match answer with
      | Some a => (Next END, [Verifying; a], cleared, w')
      | None => (Raised Py.KeyError, [Verifying], ud, w')
      end
  end.

(** /minbalance *)
Definition minbalance_start (user_id : Z) (ud : user_data) (w : W)
  : outcome * list reply * user_data * W :=
  let '(result, w') := call_backend (ListMeters user_id) w in
  match (if success result then meters_of_result result else []) with
  | [] => (Next END, [NoMetersFound], ud, w')
  | meters =>
      (Next SET_MIN_METER, [SelectMeter (map App.info_name meters)],
       set_minbalance_meters meters ud, w')
  end.

(** [meters[int(text.split('.')[0]) - 1]], the body of the [try]. *)
Definition chosen_meter (text : string) (ud : user_data)
  : Py.result App.meter_info :=
  match Py.int (Py.split_dot_head text) with
  | Py.Raise e => Py.Raise e
  | Py.Ret n =>
      let index := n - 1 in
      let meters :=
        match minbalance_meters ud with Some l => l | None => [] end in
      Py.index meters index
  end.

(** text in [SET_MIN_METER] *)
Definition minbalance_meter_selected (text : string) (ud : user_data)
  : outcome * list reply * user_data :=
  if String.eqb text "Cancel"
  then (Next END, [Cancelled], ud)
  else
    match chosen_meter text ud with
    | Py.Ret meter =>
        (Next SET_MIN_AMOUNT, [AskAmount (App.info_name meter)],
         set_selected_meter meter ud)
    | Py.Raise _ =>                      (* except: *)
        (Next END, [InvalidSelection], ud)
    end.

(** text in [SET_MIN_AMOUNT] *)
Definition minbalance_amount (float_of_str : string -> option float)
  (user_id : Z) (text : string) (ud : user_data) (w : W)
  : outcome * list reply * user_data * W :=
  match float_of_str text with
  | None =>                              (* except ValueError: *)
      (Next END, [InvalidNumber], cleared, w)
  | Some amount =>
      match selected_meter ud with
      | None => (Raised Py.KeyError, [], ud, w)
      | Some meter =>
          let '(result, w') :=
            call_backend (SetMinBalance user_id (App.info_id meter) amount) w in
          match result with
          | App.Success m => (Next END, [BackendMessage m], cleared, w')
          | App.Failure _ e => (Next END, [BackendError (Some e)], cleared, w')
          | App.Unhandled _ => (Next END, [BackendError None], cleared, w')
          | _ => (Raised Py.KeyError, [], ud, w')
          end
      end
  end.

(** /cancel *)
Definition cancel (ud : user_data) : outcome * list reply * user_data :=
  (Next END, [Cancelled], cleared).

End Handlers.

(** [call_backend] when the request reaches the Flask application above and
    its answer comes back: the world is the database. *)
Definition http_backend (float_of_str : string -> option float)
  (env : App.Env) (q : request) (d : App.DB) : App.response * App.DB :=
  let handler :=
    match q with
    | ListMeters uid => App.list_meters uid
    | AddMeter uid number name => App.add_meter env uid number name
    | SetMinBalance uid meter_id x =>
        App.set_min_balance float_of_str env uid meter_id (Py.JFloat x)
    end in
  let '(r, d', _) := App.serve handler d in
  (r, d').

End Bot.

(* ================================================================== *)
(** ** The reply keyboards of bot.py *)

Module Keyboard.

(** The decimal digits of [n], most significant first, put before [acc];
    [fuel] bounds their number. *)
Fixpoint digits (fuel : nat) (n : Z) (acc : string) : string :=
  match fuel with
  | O => acc
  | S fuel' =>
      let acc' := String (ascii_of_N (Z.to_N (48 + n mod 10))) acc in
      if n <? 10 then acc' else digits fuel' (n / 10) acc'
  end.

(** [f"{i}"] for an [int]. *)
Definition str_of_int (i : Z) : string :=
  if i <? 0
  then String "-" (digits (S (Z.to_nat (Z.log2 (- i)))) (- i) "")
  else digits (S (Z.to_nat (Z.log2 i))) i "".

(** [[f(i, m) for i, m in enumerate(meters, start)]] *)
Fixpoint enumerate_from {A B : Type} (f : Z -> A -> B) (start : Z)
  (l : list A) : list B :=
  match l with
  | [] => []
  | a :: rest => f start a :: enumerate_from f (start + 1) rest
  end.

(** In [minbalance_start]: the rows of the keyboard, one button per row,
    [f"{i}. {m['name']}"] for each meter and then [Cancel]. *)
Definition minbalance_keyboard (meters : list App.meter_info) : list string :=
  List.app
    (enumerate_from (fun i m => str_of_int i ++ ". " ++ App.info_name m)
                    1 meters)
    ["Cancel"].

End Keyboard.

(* ================================================================== *)
(** ** ai_agent.py: the JSON block of the model's reply *)

Module Agent.

(** [text.find(c)] for a one-character string [c]; [None] is -1. *)
Fixpoint find (c : ascii) (text : string) : option nat :=
  match text with
  | EmptyString => None
  | String x rest =>
      if Ascii.eqb x c then Some O else option_map S (find c rest)
  end.

(** [text.rfind(c)] for a one-character string [c]; [None] is -1. *)
Fixpoint rfind (c : ascii) (text : string) : option nat :=
  match text with
  | EmptyString => None
  | String x rest =>
      match rfind c rest with
      | Some i => Some (S i)
      | None => if Ascii.eqb x c then Some O else None
      end
  end.

(** [text[start:stop]] for indices that are not negative. *)
Definition slice (start stop : nat) (text : string) : string :=
  String.substring start (stop - start) text.

(** [_parse_json_block].  [json_loads] is [json.loads]; the
    [JSONDecodeError] it raises, a [ValueError], is the one exception
    caught. *)
Definition _parse_json_block {J : Type} (json_loads : string -> Py.result J)
  (text : string) : Py.result (option J) :=
  match find "{" text, rfind "}" text with
  | Some start, Some end_ =>
      if (end_ <=? start)%nat then Py.Ret None
      else
        match json_loads (slice start (end_ + 1) text) with
        | Py.Ret parsed => Py.Ret (Some parsed)
        | Py.Raise Py.ValueError => Py.Ret None
        | Py.Raise e => Py.Raise e
        end
  | _, _ => Py.Ret None
  end.

End Agent.

(* ================================================================== *)
(** ** The Remove dialogue of bot.py *)

Module Removal.

(** In [remove_meter_start]: the rows of the keyboard,
    [f"{i}. {m['name']} ({m['number']})"] for each meter and then
    [Cancel]. *)
Definition remove_keyboard (meters : list App.meter_info) : list string :=
  List.app
    (Keyboard.enumerate_from
       (fun i m => Keyboard.str_of_int i ++ ". " ++ App.info_name m
                   ++ " (" ++ App.info_number m ++ ")")
       1 meters)
    ["Cancel"].

(** [context.user_data['remove_meters'] = meters] *)
Definition set_remove_meters (l : list App.meter_info) (ud : Bot.user_data)
  : Bot.user_data :=
  Bot.mkData (Bot.meter_number ud) (Bot.minbalance_meters ud)
             (Bot.selected_meter ud) (Some l).

(** The texts sent with [reply_text]. *)
Inductive reply :=
| NoMetersToRemove                     (* No meters to remove. Add one with /add *)
| SelectMeterToRemove (keyboard : list string)   (* Select a meter to remove: *)
| Said (r : Bot.reply).

Section Handlers.

(** The backend behind [call_backend], for the two routes used here. *)
Context {W : Type}.
Variable list_meters : Z -> W -> App.response * W.
Variable remove_meter : Z -> Z -> W -> App.response * W.

(** /remove *)
Definition remove_meter_start (user_id : Z) (ud : Bot.user_data) (w : W)
  : list reply * Bot.user_data * W :=
  let '(result, w') := list_meters user_id w in
  match (if Bot.success result then Bot.meters_of_result result else []) with
  | [] => ([NoMetersToRemove], ud, w')
  | meters =>
      ([SelectMeterToRemove (remove_keyboard meters)],
       set_remove_meters meters ud, w')
  end.

(** The handler of the answer.  Whatever is raised in the [try], a text
    that is no number, an index out of range, an answer of the backend
    without message, is caught by the bare [except]. *)
Definition remove_meter_confirm (user_id : Z) (text : string)
  (ud : Bot.user_data) (w : W) : list reply * Bot.user_data * W :=
  if String.eqb text "Cancel"
  then ([Said Bot.Cancelled], ud, w)
  else
    match Py.int (Py.split_dot_head text) with
    | Py.Raise _ => ([Said Bot.InvalidSelection], ud, w)
    | Py.Ret n =>
        let index := n - 1 in
        let meters :=
          match Bot.remove_meters ud with Some l => l | None => [] end in
        match Py.index meters index with
        | Py.Raise _ => ([Said Bot.InvalidSelection], ud, w)
        | Py.Ret meter =>
            let '(result, w') := remove_meter user_id (App.info_id meter) w in
            match result with
            | App.Success m => ([Said (Bot.BackendMessage m)], ud, w')
            | App.Failure _ e => ([Said (Bot.BackendError (Some e))], ud, w')
            | App.Unhandled _ => ([Said (Bot.BackendError None)], ud, w')
            | _ => ([Said Bot.InvalidSelection], ud, w')
            end
        end
    end.

End Handlers.

(** The two routes when the requests reach the Flask application. *)
Definition http_list_meters (user_id : Z) (d : App.DB)
  : App.response * App.DB :=
  let '(r, d', _) := App.serve (App.list_meters user_id) d in (r, d').

Definition http_remove_meter (env : App.Env) (user_id meter_id : Z)
  (d : App.DB) : App.response * App.DB :=
  let '(r, d', _) := App.serve (App.remove_meter env user_id meter_id) d in
  (r, d').

End Removal.

(* ================================================================== *)
(** ** A worked scenario

    The user with Telegram id 42 registers the meter 31041051783 as [Home]
    while the NESCO site answers 120.5; the clock of a request starts at the
    given instant and advances by one microsecond at each reading. *)

Module Scenario.

Definition t0 : Z := 1700000000000000.
Definition hour : Z := 3600000000.

Definition answering (balance : float) (start : Z) : App.Env :=
  App.mkEnv (fun _ => App.ScrapeOk balance) (fun n => start + Z.of_nat n).

Definition failing (error : string) (start : Z) : App.Env :=
  App.mkEnv (fun _ => App.ScrapeFail error) (fun n => start + Z.of_nat n).

(** A sweep whose scraper takes [delay] microseconds: the first reading of
    the clock is [start], the later ones come after the delay. *)
Definition slow (balance : float) (start delay : Z) : App.Env :=
  App.mkEnv (fun _ => App.ScrapeOk balance)
            (fun n => match n with
                      | O => start
                      | S k => start + delay + Z.of_nat k
                      end).

Definition registered : App.DB :=
  App.after (App.add_meter (answering 120.5 t0) 42 "31041051783" "Home")
            App.empty_db.

(** A second meter, [Shop], registered ten microseconds later at 80. *)
Definition two_meters : App.DB :=
  App.after (App.add_meter (answering 80 (t0 + 10)) 42 "31041051784" "Shop")
            registered.

(** The site answers 95 for [Home] and fails for any other meter. *)
Definition home_only (start : Z) : App.Env :=
  App.mkEnv (fun number => if String.eqb number "31041051783"
                           then App.ScrapeOk 95
                           else App.ScrapeFail "HTTP 503")
            (fun n => start + Z.of_nat n).

(** [float(text)] on the texts used below. *)
Definition float_of_str (text : string) : option float :=
  if String.eqb text "-5" then Some (-5)%float
  else if String.eqb text "75.5" then Some 75.5%float
  else None.

End Scenario.

(* ================================================================== *)
(** ** Notions used in the statements and proofs *)

(** The entry the loop yields for a meter, read off the table [d]. *)
Definition entry_of (env : App.Env) (yesterday : Z) (d : App.DB)
  (meter : App.Meter.t) : App.result_entry :=
  match App.scrape_nesco_balance env (App.Meter.meter_number meter) with
  | App.ScrapeOk current_balance =>
      App.Status (App.Meter.meter_name meter) (App.Meter.meter_number meter)
        current_balance
        match App.yesterday_record (App.Meter.id meter) yesterday d with
        | Some r => Some (App.BalanceHistory.balance r - current_balance)%float
        | None => None
        end
        (current_balance <? App.Meter.min_balance meter)%float
        (App.Meter.min_balance meter)
  | App.ScrapeFail error =>
      App.Failed (App.Meter.meter_name meter) (App.Meter.meter_number meter)
                 error
  end.

(** During the loop, the session shows the readings of the meters still to
    come as the table [d] had them at the start, and holds no pending
    reading of theirs. *)
Definition untouched (yesterday : Z) (d : App.DB) (ids : list Z)
  (s : App.Session) : Prop :=
  forall meter_id, In meter_id ids ->
    filter (App.since meter_id yesterday) (App.balance_history (App.db s))
    = filter (App.since meter_id yesterday) (App.balance_history d) /\
    Forall (fun p => fst p <> meter_id) (App.pending s).

(** During a sweep the session keeps the constraints, the users and the
    keys of the meters of the database [d] it started from, and its pending
    readings are readings of meters of [d]. *)
Definition sweeping (d : App.DB) (s : App.Session) : Prop :=
  App.wf (App.db s) /\
  map App.Meter.id (App.meters (App.db s)) = map App.Meter.id (App.meters d) /\
  App.users (App.db s) = App.users d /\
  Forall (fun p => In (fst p) (map App.Meter.id (App.meters d)))
         (App.pending s).

(** Evaluation of a session, one step of the handlers at a time. *)
Ltac run :=
  cbn [App.begin App.db App.pending App.committed App.clock_reads App.log
       App.now App.with_db App.record App.add_history App.commit App.flush
       App.flush_rows App.insert_user App.insert_meter App.insert_history
       App.users App.meters App.balance_history App.users_seq App.meters_seq
       App.balance_history_seq App.User.id App.Meter.id App.Meter.user_id
       App.Meter.meter_number App.Meter.meter_name App.Meter.last_balance
       App.BalanceHistory.meter_id App.BalanceHistory.balance
       fst snd app negb andb].

(** The readings of a database as (meter id, balance), in table order. *)
Definition readings (d : App.DB) : list (Z * float) :=
  map (fun h => (App.BalanceHistory.meter_id h, App.BalanceHistory.balance h))
      (App.balance_history d).

(** The readings a sweep over [ms] adds: one per meter whose scrape
    succeeds, in the order of the meters. *)
Definition scraped (env : App.Env) (ms : list App.Meter.t)
  : list (Z * float) :=
  flat_map (fun m =>
              match App.scrape_nesco_balance env (App.Meter.meter_number m)
              with
              | App.ScrapeOk balance => [(App.Meter.id m, balance)]
              | App.ScrapeFail _ => []
              end) ms.

(** The balance of the last reading of a meter, in a list of readings given
    as (meter id, balance). *)
Fixpoint last_balance_of (meter_id : Z) (rows : list (Z * float))
  : option float :=
  match rows with
  | [] => None
  | (mid, balance) :: rest =>
      match last_balance_of meter_id rest with
      | Some later => Some later
      | None => if mid =? meter_id then Some balance else None
      end
  end.

(** The snapshot of each of the [rows] is the balance of the last of the
    [readings] of that meter, and there is one. *)
Definition snapshots_current (rows : list App.Meter.t)
  (readings : list (Z * float)) : Prop :=
  forall m, In m rows ->
    exists balance,
      App.Meter.last_balance m = Some balance /\
      last_balance_of (App.Meter.id m) readings = Some balance.

(** The owner and the number of a meter. *)
Definition owner_and_number (m : App.Meter.t) : Z * string :=
  (App.Meter.user_id m, App.Meter.meter_number m).

(** The uniqueness the schema and the handlers aim at: one row per user
    id, one user per Telegram identity, and one meter per user and meter
    number. *)
Record keys_unique (d : App.DB) : Prop := mkKeys
  { unique_user_ids : NoDup (map App.User.id (App.users d));
    unique_telegram_ids :
      NoDup (map App.User.telegram_user_id (App.users d));
    unique_owner_and_number : NoDup (map owner_and_number (App.meters d)) }.

(** The columns of the meters that a sweep never rewrites. *)
Definition fixed_columns (m : App.Meter.t) : Z * (Z * string) :=
  (App.Meter.id m, owner_and_number m).

(** Whether the daily reminder counts a user: reminders enabled and at
    least one meter. *)
Definition reminded (d : App.DB) (u : App.User.t) : bool :=
  App.User.daily_reminder_enabled u
  && match App.meters_of u d with [] => false | _ => true end.

(** The row a sweep leaves for a meter: the snapshot of a meter whose
    scrape succeeds holds the scraped balance, the row of a meter whose
    scrape fails is the same. *)
Definition swept (env : App.Env) (rows : list App.Meter.t) (m : App.Meter.t)
  : Prop :=
  match App.scrape_nesco_balance env (App.Meter.meter_number m) with
  | App.ScrapeOk balance =>
      exists checked, In (App.Meter.set_snapshot balance checked m) rows
  | App.ScrapeFail _ => In m rows
  end.

(** The characters [0] to [9]. *)
Definition decimal_char (c : ascii) : bool :=
  match Py.digit_val c with Some _ => true | None => false end.

(** [c not in text] *)
Definition without (c : ascii) (text : string) : bool :=
  Py.all_chars (fun x => negb (Ascii.eqb x c)) text.

(** The requests a client makes to the backend for a Telegram identity. *)
Inductive api_call :=
| PostWebhook (command : string)
| PostAddMeter (meter_number meter_name : string)
| PostListMeters
| PostCheckBalances
| PostRemoveMeter (meter_id : Z)
| PostSetMinBalance (meter_id : Z) (min_balance : Py.json)
| PostToggleReminder.

(** The handler the route of a request leads to. *)
Definition handler_of (float_of_str : string -> option float)
  (env : App.Env) (telegram_user_id : Z) (call : api_call)
  : App.Session -> App.response * App.Session :=
  match call with
  | PostWebhook command => App.telegram_webhook env command telegram_user_id
  | PostAddMeter meter_number meter_name =>
      App.add_meter env telegram_user_id meter_number meter_name
  | PostListMeters => App.list_meters telegram_user_id
  | PostCheckBalances => App.check_balances env telegram_user_id
  | PostRemoveMeter meter_id =>
      App.remove_meter env telegram_user_id meter_id
  | PostSetMinBalance meter_id min_balance =>
      App.set_min_balance float_of_str env telegram_user_id meter_id
                          min_balance
  | PostToggleReminder => App.toggle_reminder env telegram_user_id
  end.

(** The readings of the meters [ms] in a database. *)
Definition readings_of (ms : list App.Meter.t) (d : App.DB)
  : list App.BalanceHistory.t :=
  filter (fun h => existsb (fun m => App.Meter.id m
                                     =? App.BalanceHistory.meter_id h) ms)
         (App.balance_history d).

(** During a sweep for another user, the session shows the meters of
    [owner] and the readings of the meters [ms] as the database [d] has
    them, and holds no pending reading of these meters. *)
Definition apart (owner : Z) (ms : list App.Meter.t) (d : App.DB)
  (s : App.Session) : Prop :=
  map fixed_columns (App.meters (App.db s))
  = map fixed_columns (App.meters d) /\
  filter (fun m => App.Meter.user_id m =? owner) (App.meters (App.db s))
  = filter (fun m => App.Meter.user_id m =? owner) (App.meters d) /\
  readings_of ms (App.db s) = readings_of ms d /\
  Forall (fun r => existsb (fun m => App.Meter.id m =? fst r) ms = false)
         (App.pending s) /\
  App.users (App.db s) = App.users d.

(* ================================================================== *)
(** ** Properties *)

(** *** Lists of rows *)

Section Rows.

Context {A : Type}.
Variable key : A -> Z.

(** A look-up that found [a] finds its replacement after an UPDATE by key,
    when the replacement still satisfies the filter. *)
Lemma find_replaced (p : A -> bool) (a a' : A) (l : list A) :
  find p l = Some a ->
  key a' = key a ->
  p a' = true ->
  find p (map (fun x => if key x =? key a' then a' else x) l) = Some a'.
Proof.
  intros Hfind Hkey Hp.
  induction l as [|x l IH]; simpl in *; [discriminate|].
  destruct (p x) eqn:Hx.
  - injection Hfind as ->.
    rewrite Hkey, Z.eqb_refl, Hp. reflexivity.
  - destruct (key x =? key a'); [now rewrite Hp|].
    rewrite Hx. now apply IH.
Qed.

Lemma find_app_missing (p : A -> bool) (l : list A) (a : A) :
  find p l = None -> p a = true -> find p (l ++ [a]) = Some a.
Proof.
  intros Hnone Hp.
  induction l as [|x l IH]; simpl in *.
  - now rewrite Hp.
  - destruct (p x); [discriminate|]. now apply IH.
Qed.

Lemma find_none_forall (p : A -> bool) (l : list A) :
  Forall (fun x => p x = false) l -> find p l = None.
Proof.
  induction 1 as [|x l Hx _ IH]; simpl; [reflexivity|].
  now rewrite Hx.
Qed.

Lemma filter_none_forall (p : A -> bool) (l : list A) :
  Forall (fun x => p x = false) l -> filter p l = [].
Proof.
  induction 1 as [|x l Hx _ IH]; simpl; [reflexivity|].
  now rewrite Hx.
Qed.

Lemma NoDup_key_filter (p : A -> bool) (l : list A) :
  NoDup (map key l) -> NoDup (map key (filter p l)).
Proof.
  induction l as [|x l IH]; simpl; intros Hnd; [constructor|].
  inversion Hnd as [|? ? Hnotin Hnd']; subst.
  destruct (p x); simpl; auto.
  constructor; auto.
  intros Hin. apply Hnotin.
  apply in_map_iff in Hin as (y & Hy & Hin).
  apply filter_In in Hin as [Hin _].
  apply in_map_iff. now exists y.
Qed.

End Rows.

(** Two rows of a table with the same key are the same row. *)
Lemma same_key_same_row {A : Type} (key : A -> Z) (l : list A) (a b : A) :
  NoDup (map key l) -> In a l -> In b l -> key a = key b -> a = b.
Proof.
  induction l as [|x l IH]; cbn; intros Hnd Ha Hb Hkey; [contradiction|].
  inversion Hnd as [|? ? Hnotin Hnd']; subst.
  destruct Ha as [<-|Ha], Hb as [<-|Hb]; auto.
  - exfalso. apply Hnotin. rewrite Hkey. now apply in_map.
  - exfalso. apply Hnotin. rewrite <- Hkey. now apply in_map.
Qed.

(** The look-up by id and owner finds each meter of a user. *)
Lemma own_meter_found (d : App.DB) (user : App.User.t) (meter : App.Meter.t) :
  App.wf d ->
  In meter (App.meters_of user d) ->
  App.meter_by_id (App.Meter.id meter) (App.User.id user) d = Some meter.
Proof.
  intros Hwf Hin. apply filter_In in Hin as [Hin Hown].
  unfold App.meter_by_id.
  destruct (find _ _) as [x|] eqn:Hfind.
  - apply find_some in Hfind as [Hx Hpx].
    apply andb_prop in Hpx as [Hid _]. apply Z.eqb_eq in Hid.
    f_equal.
    exact (same_key_same_row App.Meter.id (App.meters d) x meter
             (App.wf_meters_pk d Hwf) Hx Hin Hid).
  - apply (find_none _ _ Hfind) in Hin. cbn beta in Hin.
    now rewrite Z.eqb_refl, Hown in Hin.
Qed.

(** *** Strings *)

Lemma digit_is_not_space (c : ascii) :
  Py.isdigit_char c = true -> Py.isspace_char c = false.
Proof.
  destruct c as [[] [] [] [] [] [] [] []]; vm_compute; congruence.
Qed.

Lemma rstrip_without_space (s : string) :
  Py.all_chars Py.isdigit_char s = true ->
  Py.rstrip_with Py.isspace_char s = s.
Proof.
  induction s as [|c s IH]; simpl; [reflexivity|].
  intros H. apply andb_prop in H as [Hc Hs].
  rewrite (IH Hs). destruct s; [|reflexivity].
  now rewrite (digit_is_not_space c Hc).
Qed.

(** Stripping leaves a string of digits as it is. *)
Lemma strip_digits (s : string) : Py.isdigit s = true -> Py.strip s = s.
Proof.
  unfold Py.isdigit, Py.strip.
  destruct s as [|c s]; [discriminate|].
  intros H. pose proof H as H'. simpl in H'.
  apply andb_prop in H' as [Hc _].
  simpl Py.lstrip_with. rewrite (digit_is_not_space c Hc).
  now apply rstrip_without_space.
Qed.

(** *** The Add-Meter dialogue: the meter number *)

(** The validation applies to the text with its surrounding whitespace
    stripped: the text [" 123"] is not an all-digit string, and yet the
    dialogue does not stay in [ADD_METER_NUMBER]; it stores ["123"] and moves
    on to [ADD_METER_NAME]. *)
Lemma add_meter_number_padded_digits_advance :
  Py.isdigit " 123" = false /\
  Bot.add_meter_number " 123" Bot.cleared
  = (Bot.Next Bot.ADD_METER_NAME, [Bot.AskMeterName],
     Bot.set_meter_number "123" Bot.cleared) /\
  Bot.add_meter_number " 123" Bot.cleared
  <> (Bot.Next Bot.ADD_METER_NUMBER, [Bot.InvalidMeterNumber], Bot.cleared).
Proof.
  repeat split; [reflexivity..|].
  vm_compute. discriminate.
Qed.

(** C8: the text of the three characters U+00B9, U+00B2, U+00B3 (the
    superscripts one, two, three) holds none of the digits 0 to 9 and no
    blank, so it is no all-digit string, stripped or not.  [str.isdigit]
    accepts it all the same: the dialogue does not re-prompt and does not
    stay in [ADD_METER_NUMBER]; it stores the text as the meter number and
    moves on to [ADD_METER_NAME].  The text ["12a"] is refused, as any text
    with a character that [str.isdigit] refuses. *)
Theorem add_meter_number_superscript_digits_advance :
  forall ud : Bot.user_data,
    let text :=
      String (ascii_of_nat 185)
             (String (ascii_of_nat 178) (String (ascii_of_nat 179) "")) in
    Py.all_chars (fun c => negb (decimal_char c)) text = true /\
    Py.strip text = text /\
    Bot.add_meter_number text ud
    = (Bot.Next Bot.ADD_METER_NAME, [Bot.AskMeterName],
       Bot.set_meter_number text ud) /\
    Bot.meter_number (snd (Bot.add_meter_number text ud)) = Some text /\
    fst (fst (Bot.add_meter_number text ud))
    <> Bot.Next Bot.ADD_METER_NUMBER /\
    Bot.add_meter_number "12a" ud
    = (Bot.Next Bot.ADD_METER_NUMBER, [Bot.InvalidMeterNumber], ud).
Proof.
  intros ud text.
  assert (Hadvance : Bot.add_meter_number text ud
                     = (Bot.Next Bot.ADD_METER_NAME, [Bot.AskMeterName],
                        Bot.set_meter_number text ud)) by reflexivity.
  split; [reflexivity|]. split; [reflexivity|]. split; [exact Hadvance|].
  rewrite Hadvance. cbn [fst snd Bot.set_meter_number Bot.meter_number].
  split; [reflexivity|]. split; [discriminate|reflexivity].
Qed.

(** *** The Set-Minimum-Balance dialogue: the choice of the meter *)

(** A negative index counts from the end: [-1] is the last element. *)
Lemma index_minus_one_is_last {A : Type} (l : list A) (a : A) :
  Py.index (l ++ [a]) (-1) = Py.Ret a.
Proof.
  unfold Py.index.
  rewrite length_app, Nat.add_comm. cbn [List.length Nat.add].
  replace (-1 <? 0) with true by reflexivity.
  replace (-1 + Z.of_nat (S (List.length l))) with (Z.of_nat (List.length l))
    by lia.
  replace (Z.of_nat (List.length l) <? 0) with false
    by (symmetry; apply Z.ltb_ge; lia).
  replace (Z.of_nat (S (List.length l)) <=? Z.of_nat (List.length l))
    with false by (symmetry; apply Z.leb_gt; lia).
  cbn [orb]. rewrite Nat2Z.id.
  rewrite nth_error_app2 by lia. now rewrite Nat.sub_diag.
Qed.

(** The text ["0"] in [SET_MIN_METER] selects the last meter of the list,
    whatever the list, and the dialogue goes on to [SET_MIN_AMOUNT]. *)
Lemma minbalance_zero_selects_last :
  forall (ud : Bot.user_data) (l : list App.meter_info) (m : App.meter_info),
    Bot.minbalance_meters ud = Some (l ++ [m])%list ->
    Bot.minbalance_meter_selected "0" ud
    = (Bot.Next Bot.SET_MIN_AMOUNT, [Bot.AskAmount (App.info_name m)],
       Bot.set_selected_meter m ud).
Proof.
  intros ud l m H.
  unfold Bot.minbalance_meter_selected, Bot.chosen_meter.
  replace (String.eqb "0" "Cancel") with false by reflexivity.
  replace (Py.int (Py.split_dot_head "0")) with (Py.Ret 0) by reflexivity.
  rewrite H. change (0 - 1) with (-1).
  now rewrite index_minus_one_is_last.
Qed.

(** C7: with the two meters [Home] and [Shop] listed at entry, the text
    ["0"], which is no 1-based index into the list, does not end the
    dialogue with [Invalid selection]: it selects [Shop], the last meter,
    and the dialogue advances to [SET_MIN_AMOUNT].  The text ["3"], out of
    range at the other end, does end it. *)
Theorem minbalance_meter_selected_zero_advances :
  let home := App.mkInfo 1 "Home" "31041051783" 50 (Some 120.5%float) None in
  let shop := App.mkInfo 2 "Shop" "31041051784" 50 (Some 80%float) None in
  let ud := Bot.set_minbalance_meters [home; shop] Bot.cleared in
  Bot.minbalance_meter_selected "0" ud
  = (Bot.Next Bot.SET_MIN_AMOUNT, [Bot.AskAmount "Shop"],
     Bot.set_selected_meter shop ud) /\
  Bot.minbalance_meter_selected "3" ud
  = (Bot.Next Bot.END, [Bot.InvalidSelection], ud).
Proof.
  intros home shop ud. split.
  - apply (minbalance_zero_selects_last ud [home] shop). reflexivity.
  - reflexivity.
Qed.

(** *** The reminder flag *)

Lemma user_found_after_update (telegram_user_id : Z) (d : App.DB)
  (u u' : App.User.t) :
  App.user_by_telegram_id telegram_user_id d = Some u ->
  App.User.id u' = App.User.id u ->
  App.User.telegram_user_id u' = App.User.telegram_user_id u ->
  App.user_by_telegram_id telegram_user_id (App.update_user u' d) = Some u'.
Proof.
  unfold App.user_by_telegram_id. intros Hu Hid Htid. cbn [App.update_user App.users].
  apply (find_replaced App.User.id _ u u'); auto.
  apply find_some in Hu as [_ Hu]. now rewrite Htid.
Qed.

Lemma toggle_reminder_known_user (env : App.Env) (telegram_user_id : Z)
  (d : App.DB) (u : App.User.t) :
  App.user_by_telegram_id telegram_user_id d = Some u ->
  App.toggle_reminder env telegram_user_id (App.begin d)
  = (App.Success
       (App.ReminderStatus (negb (App.User.daily_reminder_enabled u))),
     let d' := App.update_user
                 (App.User.set_daily_reminder_enabled
                    (negb (App.User.daily_reminder_enabled u)) u) d in
     App.mkSession d' [] d' 0 [App.Commit d']).
Proof.
  intros Hu. unfold App.toggle_reminder. cbn [App.begin App.db].
  now rewrite Hu.
Qed.

(** C9: for a user already in the table, one call of /api/toggle-reminder
    stores the negation of the flag: the row found afterwards has
    [daily_reminder_enabled] equal to the negation of what it was, hence
    different from what it was, and its other columns as before; the answer
    reports the new value.  A second call stores the user as it was before
    the first, with the flag it had. *)
Theorem toggle_reminder_alternates :
  forall (env1 env2 : App.Env) (telegram_user_id : Z) (d : App.DB)
         (u : App.User.t),
    App.user_by_telegram_id telegram_user_id d = Some u ->
    let d1 := App.after (App.toggle_reminder env1 telegram_user_id) d in
    let d2 := App.after (App.toggle_reminder env2 telegram_user_id) d1 in
    App.user_by_telegram_id telegram_user_id d1
    = Some (App.User.mk (App.User.id u) (App.User.telegram_user_id u)
                        (negb (App.User.daily_reminder_enabled u))
                        (App.User.created_at u)) /\
    option_map App.User.daily_reminder_enabled
               (App.user_by_telegram_id telegram_user_id d1)
    = Some (negb (App.User.daily_reminder_enabled u)) /\
    option_map App.User.daily_reminder_enabled
               (App.user_by_telegram_id telegram_user_id d1)
    <> Some (App.User.daily_reminder_enabled u) /\
    App.answer (App.toggle_reminder env1 telegram_user_id) d
    = App.Success
        (App.ReminderStatus (negb (App.User.daily_reminder_enabled u))) /\
    App.user_by_telegram_id telegram_user_id d2 = Some u /\
    option_map App.User.daily_reminder_enabled
               (App.user_by_telegram_id telegram_user_id d2)
    = Some (App.User.daily_reminder_enabled u).
Proof.
  intros env1 env2 tid d u Hu d1 d2.
  set (u' := App.User.mk (App.User.id u) (App.User.telegram_user_id u)
                         (negb (App.User.daily_reminder_enabled u))
                         (App.User.created_at u)).
  assert (H1 : App.user_by_telegram_id tid d1 = Some u').
  { subst d1. unfold App.after.
    rewrite (toggle_reminder_known_user env1 tid d u Hu). cbn [snd App.committed].
    now apply user_found_after_update with (u := u). }
  assert (H2 : App.user_by_telegram_id tid d2 = Some u).
  { subst d2. unfold App.after at 1.
    rewrite (toggle_reminder_known_user env2 tid d1 u' H1).
    cbn [snd App.committed].
    replace (App.User.set_daily_reminder_enabled
               (negb (App.User.daily_reminder_enabled u')) u') with u
      by (destruct u as [i t [] c]; reflexivity).
    now apply user_found_after_update with (u := u'). }
  split; [exact H1|]. rewrite H1, H2. cbn [option_map u'].
  split; [reflexivity|]. split.
  - cbn [App.User.daily_reminder_enabled].
    destruct (App.User.daily_reminder_enabled u); discriminate.
  - split; [|split; [reflexivity|reflexivity]].
    unfold App.answer.
    now rewrite (toggle_reminder_known_user env1 tid d u Hu).
Qed.

Lemma toggle_reminder_alternates_witness :
  let env := Scenario.answering 95 (Scenario.t0 + Scenario.hour) in
  let u := App.User.mk 1 42 true Scenario.t0 in
  let d1 := App.after (App.toggle_reminder env 42) Scenario.registered in
  let d2 := App.after (App.toggle_reminder env 42) d1 in
  App.user_by_telegram_id 42 Scenario.registered = Some u /\
  App.user_by_telegram_id 42 d1 = Some (App.User.mk 1 42 false Scenario.t0) /\
  option_map App.User.daily_reminder_enabled (App.user_by_telegram_id 42 d1)
  = Some false /\
  App.user_by_telegram_id 42 d2 = Some u.
Proof.
  intros env u d1 d2.
  assert (Hu : App.user_by_telegram_id 42 Scenario.registered = Some u)
    by reflexivity.
  destruct (toggle_reminder_alternates env env 42 Scenario.registered u Hu)
    as (H1 & Hflag & _ & _ & H2 & _).
  exact (conj Hu (conj H1 (conj Hflag H2))).
Defined.

(** *** The minimum-balance threshold *)

Lemma meter_found_after_update (meter_id user_id : Z) (d : App.DB)
  (m m' : App.Meter.t) :
  App.meter_by_id meter_id user_id d = Some m ->
  App.Meter.id m' = App.Meter.id m ->
  App.Meter.user_id m' = App.Meter.user_id m ->
  App.meter_by_id meter_id user_id (App.update_meter m' d) = Some m'.
Proof.
  unfold App.meter_by_id. intros Hm Hid Huid.
  cbn [App.update_meter App.meters].
  apply (find_replaced App.Meter.id _ m m'); auto.
  apply find_some in Hm as [_ Hm]. now rewrite Hid, Huid.
Qed.

(** C1, as stated, fails: for the registered meter [Home], whose threshold
    is 50, the request with [min_balance = -5] is answered with success and
    the stored threshold becomes -5; it is neither rejected nor left
    unchanged. *)
Lemma set_min_balance_minus_five_accepted :
  let request :=
    App.set_min_balance Scenario.float_of_str
      (Scenario.answering 95 (Scenario.t0 + Scenario.hour)) 42 1
      (Py.JInt (-5)) in
  option_map App.Meter.min_balance
             (App.meter_by_id 1 1 Scenario.registered) = Some 50%float /\
  App.answer request Scenario.registered
  = App.Success (App.MinBalanceSet (Py.JInt (-5)) "Home") /\
  option_map App.Meter.min_balance
             (App.meter_by_id 1 1 (App.after request Scenario.registered))
  = Some (-5)%float /\
  ~ (Bot.success (App.answer request Scenario.registered) = false /\
     App.meter_by_id 1 1 (App.after request Scenario.registered)
     = App.meter_by_id 1 1 Scenario.registered).
Proof.
  cbv zeta. repeat split; try reflexivity.
  intros [H _]. vm_compute in H. discriminate.
Qed.

(** C1, amended: for a known user and one of that user's meters,
    /api/set-min-balance succeeds for every value that [float()] converts,
    positive or not, and stores the converted value as the threshold of that
    meter: the row found afterwards has that value as [min_balance] and its
    other columns as before; for every value that [float()] refuses, the handler raises, no
    success is answered and the database, hence the threshold, is unchanged.
    In the dialogue, a text that [float()] refuses is answered with
    [Please send a valid number], ends the conversation and reaches no
    backend. *)
Theorem set_min_balance_numeric_or_unchanged :
  forall (float_of_str : string -> option float) (env : App.Env)
         (telegram_user_id meter_id : Z) (min_balance : Py.json)
         (d : App.DB) (user : App.User.t) (meter : App.Meter.t),
    App.user_by_telegram_id telegram_user_id d = Some user ->
    App.meter_by_id meter_id (App.User.id user) d = Some meter ->
    let request :=
      App.set_min_balance float_of_str env telegram_user_id meter_id
                          min_balance in
    (forall x : float,
        Py.to_float float_of_str min_balance = Py.Ret x ->
        App.answer request d
        = App.Success
            (App.MinBalanceSet min_balance (App.Meter.meter_name meter)) /\
        App.meter_by_id meter_id (App.User.id user) (App.after request d)
        = Some (App.Meter.mk (App.Meter.id meter) (App.Meter.user_id meter)
                             (App.Meter.meter_number meter)
                             (App.Meter.meter_name meter) x
                             (App.Meter.last_balance meter)
                             (App.Meter.last_checked meter)
                             (App.Meter.created_at meter)) /\
        option_map App.Meter.min_balance
                   (App.meter_by_id meter_id (App.User.id user)
                                    (App.after request d))
        = Some x) /\
    (forall e : Py.exn,
        Py.to_float float_of_str min_balance = Py.Raise e ->
        App.answer request d = App.Unhandled e /\
        App.after request d = d) /\
    (forall (W : Type) (call_backend : Bot.request -> W -> App.response * W)
            (text : string) (ud : Bot.user_data) (w : W),
        float_of_str text = None ->
        Bot.minbalance_amount call_backend float_of_str telegram_user_id
                              text ud w
        = (Bot.Next Bot.END, [Bot.InvalidNumber], Bot.cleared, w)).
Proof.
  intros fos env tid mid v d user meter Hu Hm request.
  subst request. unfold App.answer, App.after, App.set_min_balance.
  cbn [App.begin App.db]. rewrite Hu, Hm.
  split; [|split].
  - intros x Hx. rewrite Hx. split; [reflexivity|].
    assert (Hstored : App.meter_by_id mid (App.User.id user)
                        (App.update_meter (App.Meter.set_min_balance x meter)
                                          d)
                      = Some (App.Meter.set_min_balance x meter))
      by now apply meter_found_after_update with (m := meter).
    cbn [snd App.commit App.flush App.flush_rows App.with_db App.db
         App.pending App.clock_reads App.committed App.begin].
    rewrite Hstored. split; reflexivity.
  - intros e He. rewrite He. split; reflexivity.
  - intros W call_backend text ud w Htext.
    unfold Bot.minbalance_amount. now rewrite Htext.
Qed.

Lemma set_min_balance_numeric_or_unchanged_witness :
  let env := Scenario.answering 95 (Scenario.t0 + Scenario.hour) in
  let home :=
    App.Meter.mk 1 1 "31041051783" "Home" 50 (Some 120.5%float)
                 (Some (Scenario.t0 + 1)) (Scenario.t0 + 2) in
  option_map App.Meter.min_balance
    (App.meter_by_id 1 1
       (App.after (App.set_min_balance Scenario.float_of_str env 42 1
                                       (Py.JFloat 75.5)) Scenario.registered))
  = Some 75.5%float /\
  App.meter_by_id 1 1
    (App.after (App.set_min_balance Scenario.float_of_str env 42 1
                                    (Py.JInt (-5))) Scenario.registered)
  = Some (App.Meter.mk 1 1 "31041051783" "Home" (-5) (Some 120.5%float)
                       (Some (Scenario.t0 + 1)) (Scenario.t0 + 2)) /\
  App.after (App.set_min_balance Scenario.float_of_str env 42 1
                                 (Py.JStr "plenty")) Scenario.registered
  = Scenario.registered.
Proof.
  intros env home.
  assert (Hu : App.user_by_telegram_id 42 Scenario.registered
               = Some (App.User.mk 1 42 true Scenario.t0)) by reflexivity.
  assert (Hm : App.meter_by_id 1 1 Scenario.registered = Some home)
    by reflexivity.
  split; [|split].
  - apply (set_min_balance_numeric_or_unchanged Scenario.float_of_str env
             42 1 (Py.JFloat 75.5) Scenario.registered _ home Hu Hm).
    reflexivity.
  - apply (proj1 (set_min_balance_numeric_or_unchanged
                    Scenario.float_of_str env 42 1 (Py.JInt (-5))
                    Scenario.registered _ home Hu Hm) (-5)%float).
    reflexivity.
  - apply (set_min_balance_numeric_or_unchanged Scenario.float_of_str env
             42 1 (Py.JStr "plenty") Scenario.registered _ home Hu Hm
             ) with (e := Py.ValueError).
    reflexivity.
Defined.

(** *** The integrity constraints are kept by every handler *)

Lemma wf_insert_user (d : App.DB) (u : App.User.t) :
  App.wf d -> App.User.id u = App.users_seq d -> App.wf (App.insert_user u d).
Proof.
  intros [Hus Hms Hpk Hmfk Hhfk] Hid. constructor; cbn; auto.
  - apply Forall_app. split.
    + eapply Forall_impl; [|exact Hus]. cbn. intros; lia.
    + constructor; [lia|constructor].
  - eapply Forall_impl; [|exact Hmfk]. cbn. intros m Hin.
    rewrite map_app. apply in_or_app. now left.
Qed.

Lemma wf_insert_meter (d : App.DB) (m : App.Meter.t) :
  App.wf d ->
  App.Meter.id m = App.meters_seq d ->
  In (App.Meter.user_id m) (map App.User.id (App.users d)) ->
  App.wf (App.insert_meter m d).
Proof.
  intros [Hus Hms Hpk Hmfk Hhfk] Hid Hfk. constructor; cbn; auto.
  - apply Forall_app. split.
    + eapply Forall_impl; [|exact Hms]. cbn. intros; lia.
    + constructor; [lia|constructor].
  - rewrite map_app. cbn.
    apply NoDup_app; [exact Hpk|repeat constructor; intros []|].
    intros x Hx [<-|[]]. rewrite Forall_forall in Hms.
    apply in_map_iff in Hx as (m' & Hm' & Hin).
    specialize (Hms m' Hin). cbn in Hms. lia.
  - apply Forall_app. split; [exact Hmfk|]. now repeat constructor.
  - eapply Forall_impl; [|exact Hhfk]. cbn. intros h Hin.
    rewrite map_app. apply in_or_app. now left.
Qed.

Lemma wf_insert_history (d : App.DB) (h : App.BalanceHistory.t) :
  App.wf d ->
  In (App.BalanceHistory.meter_id h) (map App.Meter.id (App.meters d)) ->
  App.wf (App.insert_history h d).
Proof.
  intros [Hus Hms Hpk Hmfk Hhfk] Hfk. constructor; cbn; auto.
  apply Forall_app. split; [exact Hhfk|]. now repeat constructor.
Qed.

Lemma update_keeps_keys {A : Type} (key : A -> Z) (a : A) (l : list A) :
  map key (map (fun x => if key x =? key a then a else x) l) = map key l.
Proof.
  rewrite map_map. apply map_ext. intros x.
  destruct (Z.eqb_spec (key x) (key a)); congruence.
Qed.

Lemma wf_update_user (d : App.DB) (u : App.User.t) :
  App.wf d -> App.wf (App.update_user u d).
Proof.
  intros [Hus Hms Hpk Hmfk Hhfk]. constructor; cbn; auto.
  - rewrite Forall_forall in *. intros x Hx.
    apply in_map_iff in Hx as (y & Hy & Hin). specialize (Hus y Hin).
    destruct (Z.eqb_spec (App.User.id y) (App.User.id u)); subst; cbn in *;
      lia.
  - now rewrite (update_keeps_keys App.User.id).
Qed.

Lemma wf_update_meter (d : App.DB) (m : App.Meter.t) :
  App.wf d ->
  In (App.Meter.user_id m) (map App.User.id (App.users d)) ->
  App.wf (App.update_meter m d).
Proof.
  intros [Hus Hms Hpk Hmfk Hhfk] Hfk. constructor; cbn; auto.
  - rewrite Forall_forall in *. intros x Hx.
    apply in_map_iff in Hx as (y & Hy & Hin). specialize (Hms y Hin).
    destruct (Z.eqb_spec (App.Meter.id y) (App.Meter.id m)); subst; cbn in *;
      lia.
  - now rewrite (update_keeps_keys App.Meter.id).
  - rewrite Forall_forall in *. intros x Hx.
    apply in_map_iff in Hx as (y & Hy & Hin).
    destruct (Z.eqb_spec (App.Meter.id y) (App.Meter.id m)); subst; auto.
  - now rewrite (update_keeps_keys App.Meter.id).
Qed.

Lemma user_found_is_stored (telegram_user_id : Z) (d : App.DB)
  (u : App.User.t) :
  App.user_by_telegram_id telegram_user_id d = Some u ->
  In (App.User.id u) (map App.User.id (App.users d)).
Proof.
  intros H. apply find_some in H as [H _]. now apply in_map.
Qed.

Lemma wf_after_add_meter (env : App.Env) (telegram_user_id : Z)
  (meter_number meter_name : string) (d : App.DB) :
  App.wf d ->
  App.wf (App.after (App.add_meter env telegram_user_id meter_number
                                   meter_name) d).
Proof.
  intros Hwf. unfold App.after, App.add_meter. run.
  destruct (App.truthy_int telegram_user_id && App.truthy_str meter_number
            && App.truthy_str meter_name); run; [|exact Hwf].
  destruct (App.user_by_telegram_id telegram_user_id d) as [user|] eqn:Hu;
    run.
  - destruct (App.meter_by_number _ _ d); run; [exact Hwf|].
    destruct (App.scrape_nesco_balance env meter_number); run; [|exact Hwf].
    apply wf_insert_history.
    + apply wf_insert_meter; [exact Hwf|reflexivity|].
      now apply user_found_is_stored with telegram_user_id.
    + cbn. rewrite map_app. apply in_or_app. right. now left.
  - set (d1 := App.insert_user _ d).
    assert (Hwf1 : App.wf d1) by now apply wf_insert_user.
    destruct (App.meter_by_number _ _ _); run; [exact Hwf1|].
    destruct (App.scrape_nesco_balance env meter_number); run; [|exact Hwf1].
    apply (wf_insert_history (App.insert_meter _ d1)).
    + apply wf_insert_meter; [exact Hwf1|reflexivity|].
      cbn. rewrite map_app. apply in_or_app. right. now left.
    + cbn. rewrite map_app. apply in_or_app. right. now left.
Qed.

Lemma wf_after_set_min_balance (float_of_str : string -> option float)
  (env : App.Env) (telegram_user_id meter_id : Z) (min_balance : Py.json)
  (d : App.DB) :
  App.wf d ->
  App.wf (App.after (App.set_min_balance float_of_str env telegram_user_id
                                         meter_id min_balance) d).
Proof.
  intros Hwf. unfold App.after, App.set_min_balance. run.
  destruct (App.user_by_telegram_id telegram_user_id d) as [user|]; run;
    [|exact Hwf].
  destruct (App.meter_by_id meter_id (App.User.id user) d) as [meter|] eqn:Hm;
    run; [|exact Hwf].
  destruct (Py.to_float float_of_str min_balance); run; [|exact Hwf].
  apply wf_update_meter; [exact Hwf|].
  apply find_some in Hm as [Hin _].
  pose proof (App.wf_meters_fk d Hwf) as Hfk. rewrite Forall_forall in Hfk.
  exact (Hfk meter Hin).
Qed.

Lemma wf_after_toggle_reminder (env : App.Env) (telegram_user_id : Z)
  (d : App.DB) :
  App.wf d -> App.wf (App.after (App.toggle_reminder env telegram_user_id) d).
Proof.
  intros Hwf. unfold App.after, App.toggle_reminder. run.
  destruct (App.user_by_telegram_id telegram_user_id d) as [user|]; run.
  - now apply wf_update_user.
  - now apply wf_insert_user.
Qed.

Lemma wf_empty_db : App.wf App.empty_db.
Proof. constructor; cbn; constructor. Qed.

Lemma wf_registered : App.wf Scenario.registered.
Proof. apply wf_after_add_meter, wf_empty_db. Qed.

Lemma wf_two_meters : App.wf Scenario.two_meters.
Proof. apply wf_after_add_meter, wf_registered. Qed.

(** *** Registration of a meter *)

(** No meter belongs to the user the sequence will create next. *)
Lemma no_meter_of_next_user (d : App.DB) (number : string) :
  App.wf d ->
  find (fun m => (App.Meter.user_id m =? App.users_seq d)
                 && String.eqb (App.Meter.meter_number m) number)
       (App.meters d) = None.
Proof.
  intros Hwf. apply find_none_forall.
  pose proof (App.wf_meters_fk d Hwf) as Hfk.
  pose proof (App.wf_users_seq d Hwf) as Hseq.
  rewrite Forall_forall in *. intros m Hm.
  specialize (Hfk m Hm). apply in_map_iff in Hfk as (u & Hu & Hin).
  specialize (Hseq u Hin). cbn beta in Hseq.
  replace (App.Meter.user_id m =? App.users_seq d) with false; [reflexivity|].
  symmetry. apply Z.eqb_neq. lia.
Qed.

(** No reading belongs to the meter the sequence will create next. *)
Lemma no_reading_of_next_meter (d : App.DB) :
  App.wf d ->
  filter (fun h => App.BalanceHistory.meter_id h =? App.meters_seq d)
         (App.balance_history d) = [].
Proof.
  intros Hwf. apply filter_none_forall.
  pose proof (App.wf_history_fk d Hwf) as Hfk.
  pose proof (App.wf_meters_seq d Hwf) as Hseq.
  rewrite Forall_forall in *. intros h Hh.
  specialize (Hfk h Hh). apply in_map_iff in Hfk as (m & Hm & Hin).
  specialize (Hseq m Hin). cbn beta in Hseq.
  apply Z.eqb_neq. lia.
Qed.

(** C10: a request of /api/add-meter that carries its three fields, from a
    Telegram identity with no row in [users], first inserts the user and
    commits, and only then calls the scraper.  The user is in the database
    at the end of the request whatever the scraper answers; when the
    verification fails, the request is refused and the database is the one
    of that first commit: the new user, and no new meter or reading. *)
Theorem add_meter_commits_new_user_first :
  forall (env : App.Env) (telegram_user_id : Z)
         (meter_number meter_name : string) (d : App.DB),
    App.wf d ->
    App.truthy_int telegram_user_id && App.truthy_str meter_number
    && App.truthy_str meter_name = true ->
    App.user_by_telegram_id telegram_user_id d = None ->
    let user :=
      App.User.mk (App.users_seq d) telegram_user_id true
                  (App.utcnow env 0) in
    let d1 := App.insert_user user d in
    let request :=
      App.add_meter env telegram_user_id meter_number meter_name in
    (exists rest,
        App.trace request d
        = App.Commit d1 :: App.Scrape meter_number :: rest) /\
    App.user_by_telegram_id telegram_user_id (App.after request d)
    = Some user /\
    (forall error,
        App.scrape_nesco_balance env meter_number = App.ScrapeFail error ->
        App.answer request d
        = App.Failure 400 ("Cannot verify meter: " ++ error) /\
        App.trace request d = [App.Commit d1; App.Scrape meter_number] /\
        App.after request d = d1 /\
        App.meters (App.after request d) = App.meters d /\
        App.balance_history (App.after request d) = App.balance_history d).
Proof.
  intros env tid number name d Hwf Hfields Hnew user d1 request.
  assert (Hfound : find (fun u => App.User.telegram_user_id u =? tid)
                        (App.users d ++ [user]) = Some user).
  { apply find_app_missing; [exact Hnew|]. apply Z.eqb_refl. }
  subst request. unfold App.trace, App.after, App.answer, App.add_meter.
  run. rewrite Hfields, Hnew. run.
  unfold App.meter_by_number. run.
  rewrite (no_meter_of_next_user d number Hwf).
  destruct (App.scrape_nesco_balance env number) as [balance|error] eqn:Hs;
    run.
  - split; [eexists; reflexivity|]. split.
    + unfold App.user_by_telegram_id. run. exact Hfound.
    + intros e He. discriminate.
  - split; [eexists; reflexivity|]. split.
    + unfold App.user_by_telegram_id. run. exact Hfound.
    + intros e He. injection He as <-. repeat split.
Qed.

Lemma add_meter_commits_new_user_first_witness :
  let env := Scenario.failing "HTTP 503" Scenario.t0 in
  let request := App.add_meter env 42 "31041051783" "Home" in
  let user := App.User.mk 1 42 true Scenario.t0 in
  App.answer request App.empty_db
  = App.Failure 400 "Cannot verify meter: HTTP 503" /\
  App.trace request App.empty_db
  = [App.Commit (App.insert_user user App.empty_db);
     App.Scrape "31041051783"] /\
  App.after request App.empty_db = App.insert_user user App.empty_db.
Proof.
  intros env request user.
  destruct (add_meter_commits_new_user_first env 42 "31041051783" "Home"
              App.empty_db wf_empty_db eq_refl eq_refl)
    as (_ & _ & Hfail).
  destruct (Hfail "HTTP 503" eq_refl) as (Ha & Ht & Hd & _).
  exact (conj Ha (conj Ht Hd)).
Defined.

(** C4: when /api/add-meter answers with success, the scraper gave a
    balance, and the database committed at the end holds one more meter,
    whose [last_balance] is that balance, and one more reading, of that
    meter and of that balance, which is the only reading of the meter.  The
    two rows come with the same commit: every database committed during the
    request has either none of them or both.  When the verification fails,
    the request is refused and the tables of meters and readings are as
    before. *)
Theorem add_meter_registers_meter_with_first_reading :
  forall (env : App.Env) (telegram_user_id : Z)
         (meter_number meter_name : string) (d : App.DB),
    App.wf d ->
    let request :=
      App.add_meter env telegram_user_id meter_number meter_name in
    (forall m,
        App.answer request d = App.Success m ->
        exists balance meter reading,
          App.scrape_nesco_balance env meter_number = App.ScrapeOk balance /\
          App.meters (App.after request d) = (App.meters d ++ [meter])%list /\
          App.Meter.meter_number meter = meter_number /\
          App.Meter.meter_name meter = meter_name /\
          App.Meter.last_balance meter = Some balance /\
          App.balance_history (App.after request d)
          = (App.balance_history d ++ [reading])%list /\
          App.BalanceHistory.balance reading = balance /\
          filter (fun h => App.BalanceHistory.meter_id h
                           =? App.Meter.id meter)
                 (App.balance_history (App.after request d)) = [reading] /\
          Forall (fun e =>
                    match e with
                    | App.Commit c =>
                        (App.meters c = App.meters d /\
                         App.balance_history c = App.balance_history d)
                        \/ c = App.after request d
                    | App.Scrape _ => True
                    end)
                 (App.trace request d)) /\
    (forall error,
        App.scrape_nesco_balance env meter_number = App.ScrapeFail error ->
        Bot.success (App.answer request d) = false /\
        App.meters (App.after request d) = App.meters d /\
        App.balance_history (App.after request d) = App.balance_history d).
Proof.
  intros env tid number name d Hwf request. subst request.
  pose proof (no_reading_of_next_meter d Hwf) as Hfresh.
  unfold App.trace, App.after, App.answer, App.add_meter. run.
  destruct (App.truthy_int tid && App.truthy_str number
            && App.truthy_str name); run;
    [|split; [discriminate|now intros]].
  destruct (App.user_by_telegram_id tid d) as [user|] eqn:Huser; run;
    unfold App.meter_by_number; run.
  - destruct (find _ (App.meters d)) as [existing|]; run;
      [split; [discriminate|now intros]|].
    destruct (App.scrape_nesco_balance env number) as [balance|error];
      run; [|split; [discriminate|now intros]].
    split; [|discriminate].
    intros _ _. eexists balance, _, _.
    repeat split; try reflexivity.
    + run. rewrite filter_app, Hfresh. cbn. now rewrite Z.eqb_refl.
    + run. constructor; [exact I|]. constructor; [now right|constructor].
  - destruct (find _ (App.meters d)) as [existing|]; run;
      [split; [discriminate|now intros]|].
    destruct (App.scrape_nesco_balance env number) as [balance|error];
      run; [|split; [discriminate|now intros]].
    split; [|discriminate].
    intros _ _. eexists balance, _, _.
    repeat split; try reflexivity.
    + run. rewrite filter_app, Hfresh. cbn. now rewrite Z.eqb_refl.
    + run. constructor; [left; split; reflexivity|].
      constructor; [exact I|]. constructor; [now right|constructor].
Qed.

Lemma add_meter_registers_meter_with_first_reading_witness :
  let env := Scenario.answering 120.5 Scenario.t0 in
  let request := App.add_meter env 42 "31041051783" "Home" in
  exists balance meter reading,
    App.scrape_nesco_balance env "31041051783" = App.ScrapeOk balance /\
    App.meters (App.after request App.empty_db) = [meter] /\
    App.Meter.meter_number meter = "31041051783" /\
    App.Meter.meter_name meter = "Home" /\
    App.Meter.last_balance meter = Some balance /\
    App.balance_history (App.after request App.empty_db) = [reading] /\
    App.BalanceHistory.balance reading = balance /\
    filter (fun h => App.BalanceHistory.meter_id h =? App.Meter.id meter)
           (App.balance_history (App.after request App.empty_db))
    = [reading] /\
    Forall (fun e =>
              match e with
              | App.Commit c =>
                  (App.meters c = [] /\ App.balance_history c = [])
                  \/ c = App.after request App.empty_db
              | App.Scrape _ => True
              end)
           (App.trace request App.empty_db).
Proof.
  intros env request.
  exact (proj1 (add_meter_registers_meter_with_first_reading
                  env 42 "31041051783" "Home" App.empty_db wf_empty_db)
               (App.MeterAdded "Home" "31041051783" 120.5) eq_refl).
Defined.

(** C5: once /api/add-meter has answered with success for a Telegram
    identity and a meter number, a further request for the same identity
    and number, under any name, is refused with [Meter already exists]; it
    calls no scraper, commits nothing, and leaves the database, hence the
    readings, as they were. *)
Theorem add_meter_again_is_refused :
  forall (env1 env2 : App.Env) (telegram_user_id : Z)
         (meter_number name1 name2 : string) (d : App.DB) (m : App.message),
    App.answer (App.add_meter env1 telegram_user_id meter_number name1) d
    = App.Success m ->
    App.truthy_str name2 = true ->
    let d1 :=
      App.after (App.add_meter env1 telegram_user_id meter_number name1) d in
    let again := App.add_meter env2 telegram_user_id meter_number name2 in
    App.answer again d1 = App.Failure 400 "Meter already exists" /\
    App.trace again d1 = [] /\
    App.after again d1 = d1 /\
    App.balance_history (App.after again d1) = App.balance_history d1.
Proof.
  intros env1 env2 tid number name1 name2 d m Hfirst Hname2 d1 again.
  subst d1 again. revert Hfirst.
  unfold App.trace, App.after, App.answer, App.add_meter. run.
  destruct (App.truthy_int tid) eqn:Htid; [|discriminate].
  destruct (App.truthy_str number) eqn:Hnumber; [|discriminate].
  rewrite Hname2.
  destruct (App.truthy_str name1); [|discriminate]. run.
  destruct (App.user_by_telegram_id tid d) as [user|] eqn:Huser; run;
    unfold App.meter_by_number; run.
  - destruct (find _ (App.meters d)) as [existing|] eqn:Hdup; run;
      [discriminate|].
    destruct (App.scrape_nesco_balance env1 number) as [balance|error];
      run; [|discriminate].
    intros _.
    unfold App.user_by_telegram_id in *. run. rewrite Huser. run.
    erewrite find_app_missing; [repeat split|exact Hdup|].
    run. now rewrite Z.eqb_refl, String.eqb_refl.
  - destruct (find _ (App.meters d)) as [existing|] eqn:Hdup; run;
      [discriminate|].
    destruct (App.scrape_nesco_balance env1 number) as [balance|error];
      run; [|discriminate].
    intros _.
    unfold App.user_by_telegram_id in *. run.
    erewrite find_app_missing; [|exact Huser|apply Z.eqb_refl]. run.
    erewrite find_app_missing; [repeat split|exact Hdup|].
    run. now rewrite Z.eqb_refl, String.eqb_refl.
Qed.

Lemma add_meter_again_is_refused_witness :
  let again :=
    App.add_meter (Scenario.answering 95 (Scenario.t0 + Scenario.hour)) 42
                  "31041051783" "Home again" in
  App.answer again Scenario.registered
  = App.Failure 400 "Meter already exists" /\
  App.trace again Scenario.registered = [] /\
  App.after again Scenario.registered = Scenario.registered /\
  App.balance_history (App.after again Scenario.registered)
  = App.balance_history Scenario.registered.
Proof.
  intros again.
  exact (add_meter_again_is_refused
           (Scenario.answering 120.5 Scenario.t0)
           (Scenario.answering 95 (Scenario.t0 + Scenario.hour))
           42 "31041051783" "Home" "Home again" App.empty_db
           (App.MeterAdded "Home" "31041051783" 120.5) eq_refl eq_refl).
Defined.

(** *** The sweep over the meters of a user *)

(** The most recent row of a list. *)
Lemma newest_none (l : list App.BalanceHistory.t) :
  App.newest l = None <-> l = [].
Proof.
  destruct l as [|h l]; cbn; [tauto|].
  destruct (App.newest l) as [h'|];
    [destruct (_ <? _)|]; split; discriminate.
Qed.

Lemma newest_is_latest (l : list App.BalanceHistory.t)
  (r : App.BalanceHistory.t) :
  App.newest l = Some r ->
  In r l /\
  forall h, In h l ->
            App.BalanceHistory.recorded_at h
            <= App.BalanceHistory.recorded_at r.
Proof.
  revert r. induction l as [|x l IH]; cbn; intros r Hr; [discriminate|].
  destruct (App.newest l) as [h'|] eqn:Hnew.
  - destruct (IH h' eq_refl) as [Hin Hmax].
    destruct (Z.ltb_spec (App.BalanceHistory.recorded_at x)
                         (App.BalanceHistory.recorded_at h'));
      injection Hr as <-.
    + split; [now right|]. intros h [<-|Hh]; [lia|now apply Hmax].
    + split; [now left|]. intros h [<-|Hh]; [lia|].
      specialize (Hmax h Hh). lia.
  - injection Hr as <-. apply newest_none in Hnew. subst l.
    split; [now left|]. intros h [<-|[]]. lia.
Qed.

(** What the query for yesterday's record answers, in terms of the table:
    nothing when every reading of the meter is older than [yesterday];
    otherwise a reading of the meter, not older than [yesterday], and at
    least as recent as every reading of the meter. *)
Lemma yesterday_record_none (meter_id yesterday : Z) (d : App.DB) :
  App.yesterday_record meter_id yesterday d = None <->
  forall h, In h (App.balance_history d) ->
            App.BalanceHistory.meter_id h = meter_id ->
            App.BalanceHistory.recorded_at h < yesterday.
Proof.
  unfold App.yesterday_record. rewrite newest_none. split.
  - intros Hnil h Hin Hid.
    destruct (Z.ltb_spec (App.BalanceHistory.recorded_at h) yesterday)
      as [|Hge]; [assumption|exfalso].
    assert (Hf : In h (filter (App.since meter_id yesterday)
                              (App.balance_history d))).
    { apply filter_In. split; [assumption|]. unfold App.since.
      apply andb_true_intro. split; [now apply Z.eqb_eq|now apply Z.leb_le]. }
    now rewrite Hnil in Hf.
  - intros Hold. apply filter_none_forall. apply Forall_forall.
    intros h Hin. unfold App.since.
    destruct (Z.eqb_spec (App.BalanceHistory.meter_id h) meter_id) as [Hid|];
      [|reflexivity].
    specialize (Hold h Hin Hid). cbn. apply Z.leb_gt. lia.
Qed.

Lemma yesterday_record_some (meter_id yesterday : Z) (d : App.DB)
  (r : App.BalanceHistory.t) :
  App.yesterday_record meter_id yesterday d = Some r ->
  In r (App.balance_history d) /\
  App.BalanceHistory.meter_id r = meter_id /\
  yesterday <= App.BalanceHistory.recorded_at r /\
  forall h, In h (App.balance_history d) ->
            App.BalanceHistory.meter_id h = meter_id ->
            App.BalanceHistory.recorded_at h
            <= App.BalanceHistory.recorded_at r.
Proof.
  unfold App.yesterday_record. intros Hr.
  apply newest_is_latest in Hr as [Hin Hmax].
  apply filter_In in Hin as [Hin Hsince]. unfold App.since in Hsince.
  apply andb_prop in Hsince as [Hid Hge].
  apply Z.eqb_eq in Hid. apply Z.leb_le in Hge.
  repeat split; try assumption.
  intros h Hh Hhid.
  destruct (Z.ltb_spec (App.BalanceHistory.recorded_at h) yesterday)
    as [Hlt|Hge']; [lia|].
  apply Hmax. apply filter_In. split; [assumption|]. unfold App.since.
  apply andb_true_intro. split; [now apply Z.eqb_eq|now apply Z.leb_le].
Qed.

Lemma flush_rows_other_meters (env : App.Env) (meter_id yesterday : Z)
  (rows : list (Z * float)) :
  Forall (fun p => fst p <> meter_id) rows ->
  forall (d : App.DB) (n : nat),
    filter (App.since meter_id yesterday)
           (App.balance_history (fst (App.flush_rows env rows d n)))
    = filter (App.since meter_id yesterday) (App.balance_history d).
Proof.
  induction 1 as [|[mid bal] rows Hp _ IH]; intros d n; cbn [App.flush_rows];
    [reflexivity|].
  rewrite IH. cbn [App.insert_history App.balance_history].
  rewrite filter_app. cbn [filter]. unfold App.since at 2.
  cbn [App.BalanceHistory.meter_id]. cbn [fst] in Hp.
  apply Z.eqb_neq in Hp. rewrite Hp. cbn [andb]. apply app_nil_r.
Qed.

Lemma flush_db (env : App.Env) (s : App.Session) :
  App.db (App.flush env s)
  = fst (App.flush_rows env (App.pending s) (App.db s) (App.clock_reads s)).
Proof.
  unfold App.flush.
  now destruct (App.flush_rows env (App.pending s) (App.db s)
                               (App.clock_reads s)).
Qed.

Lemma flush_pending (env : App.Env) (s : App.Session) :
  App.pending (App.flush env s) = [].
Proof.
  unfold App.flush.
  now destruct (App.flush_rows env (App.pending s) (App.db s)
                               (App.clock_reads s)).
Qed.

Lemma check_one_entry (env : App.Env) (yesterday : Z) (d : App.DB)
  (meter : App.Meter.t) (rest : list Z) (s : App.Session) :
  ~ In (App.Meter.id meter) rest ->
  untouched yesterday d (App.Meter.id meter :: rest) s ->
  fst (App.check_one env yesterday meter s) = entry_of env yesterday d meter /\
  untouched yesterday d rest (snd (App.check_one env yesterday meter s)).
Proof.
  intros Hfresh Hinv. unfold App.check_one, entry_of.
  destruct (App.scrape_nesco_balance env (App.Meter.meter_number meter))
    as [balance|error].
  - set (s1 := App.record _ s).
    assert (Hflushed : forall meter_id,
               In meter_id (App.Meter.id meter :: rest) ->
               filter (App.since meter_id yesterday)
                      (App.balance_history (App.db (App.flush env s1)))
               = filter (App.since meter_id yesterday)
                        (App.balance_history d)).
    { intros mid Hmid. destruct (Hinv mid Hmid) as [Hhist Hpend].
      rewrite flush_db. subst s1. cbn [App.record App.pending App.db
                                       App.clock_reads].
      now rewrite flush_rows_other_meters. }
    cbn [App.now fst snd]. split.
    + unfold App.yesterday_record. rewrite Hflushed by now left.
      reflexivity.
    + intros mid Hmid.
      cbn [App.add_history App.with_db App.db App.pending App.update_meter
           App.balance_history].
      split; [apply Hflushed; now right|].
      rewrite flush_pending. cbn [app].
      constructor; [|constructor]. cbn [fst]. intros Heq. apply Hfresh.
      now rewrite Heq.
  - cbn [fst snd]. split; [reflexivity|].
    intros mid Hmid. destruct (Hinv mid (or_intror Hmid)) as [Hhist Hpend].
    now split.
Qed.

Lemma check_loop_entries (env : App.Env) (yesterday : Z) (d : App.DB)
  (ms : list App.Meter.t) :
  NoDup (map App.Meter.id ms) ->
  forall s : App.Session,
    untouched yesterday d (map App.Meter.id ms) s ->
    fst (App.check_loop env yesterday ms s)
    = map (entry_of env yesterday d) ms.
Proof.
  induction ms as [|meter ms IH]; intros Hnd s Hinv; [reflexivity|].
  cbn [map] in *. inversion Hnd as [|? ? Hfresh Hnd']; subst.
  destruct (check_one_entry env yesterday d meter _ s Hfresh Hinv)
    as [Hentry Hrest].
  cbn [App.check_loop].
  destruct (App.check_one env yesterday meter s) as [r s1].
  cbn [fst snd] in *.
  specialize (IH Hnd' s1 Hrest).
  destruct (App.check_loop env yesterday ms s1) as [rs s2].
  cbn [fst] in *. now rewrite Hentry, IH.
Qed.

(** The answer of /api/check-balances: one entry per meter of the user, in
    the order of the meters, each as the table at the start of the request
    gives it, with [yesterday] one day before the first reading of the
    clock. *)
Lemma check_balances_entries (env : App.Env) (telegram_user_id : Z)
  (d : App.DB) (user : App.User.t) :
  App.wf d ->
  App.user_by_telegram_id telegram_user_id d = Some user ->
  App.meters_of user d <> [] ->
  exists timestamp,
    App.answer (App.check_balances env telegram_user_id) d
    = App.Results
        (map (entry_of env (App.utcnow env 0 - App.one_day) d)
             (App.meters_of user d))
        timestamp.
Proof.
  intros Hwf Huser Hsome.
  unfold App.answer, App.check_balances. cbn [App.begin App.db].
  rewrite Huser.
  destruct (App.meters_of user d) as [|m ms] eqn:Hms; [contradiction|].
  cbn [App.now App.begin App.db App.pending App.committed App.clock_reads
       App.log].
  set (s0 := App.mkSession d [] d 1 []).
  assert (Hloop : fst (App.check_loop env (App.utcnow env 0 - App.one_day)
                                      (m :: ms) s0)
                  = map (entry_of env (App.utcnow env 0 - App.one_day) d)
                        (m :: ms)).
  { apply check_loop_entries.
    - rewrite <- Hms. apply NoDup_key_filter. apply (App.wf_meters_pk d Hwf).
    - intros mid _. split; [reflexivity|constructor]. }
  destruct (App.check_loop env (App.utcnow env 0 - App.one_day) (m :: ms) s0)
    as [results s1].
  cbn [fst] in Hloop. subst results.
  eexists. cbn [App.now fst]. reflexivity.
Qed.

(** C2, as stated, fails.  The only reading of [Home] was recorded at
    [t0 + 3].  A sweep starts one second less than a day later and the
    scraper takes two seconds: the new reading is recorded more than a day
    after the first one, so that no reading lies in the day before the new
    reading's timestamp; the delta is nevertheless 120.5 - 95 = 25.5, not
    None. *)
Lemma check_balances_window_is_not_anchored_at_new_reading :
  let env :=
    Scenario.slow 95 (Scenario.t0 + 3 + App.one_day - 1000000) 2000000 in
  let request := App.check_balances env 42 in
  exists new_reading timestamp,
    App.balance_history (App.after request Scenario.registered)
    = (App.balance_history Scenario.registered ++ [new_reading])%list /\
    (forall h, In h (App.balance_history Scenario.registered) ->
               ~ (App.BalanceHistory.recorded_at new_reading - App.one_day
                  <= App.BalanceHistory.recorded_at h
                  < App.BalanceHistory.recorded_at new_reading)) /\
    App.answer request Scenario.registered
    = App.Results
        [App.Status "Home" "31041051783" 95 (Some 25.5%float) false 50]
        timestamp.
Proof.
  cbv zeta. eexists _, _. split; [vm_compute; reflexivity|]. split.
  - intros h Hin. vm_compute in Hin. destruct Hin as [<-|[]].
    vm_compute. intros [H _]. now apply H.
  - vm_compute. reflexivity.
Qed.

(** C2, amended: one entry of the sweep per meter of the user; for a meter
    whose scrape succeeds the entry is a status with the scraped balance,
    and its delta is computed from the readings of the meter stored before
    the request, with [yesterday] one day before the reading of the clock
    at the start of the sweep.  The delta is None exactly when every stored
    reading of the meter is older than [yesterday]; otherwise it is the
    balance of a stored reading of the meter, not older than [yesterday] and
    at least as recent as every stored reading of the meter, minus the
    scraped balance.  The window has no upper end, and it is not moved to
    the timestamp of the new reading. *)
Theorem check_balances_delta_window :
  forall (env : App.Env) (telegram_user_id : Z) (d : App.DB)
         (user : App.User.t) (i : nat) (meter : App.Meter.t)
         (current_balance : float),
    App.wf d ->
    App.user_by_telegram_id telegram_user_id d = Some user ->
    nth_error (App.meters_of user d) i = Some meter ->
    App.scrape_nesco_balance env (App.Meter.meter_number meter)
    = App.ScrapeOk current_balance ->
    let yesterday := App.utcnow env 0 - App.one_day in
    exists results timestamp delta,
      App.answer (App.check_balances env telegram_user_id) d
      = App.Results results timestamp /\
      nth_error results i
      = Some (App.Status (App.Meter.meter_name meter)
                         (App.Meter.meter_number meter) current_balance delta
                         (current_balance <? App.Meter.min_balance meter)%float
                         (App.Meter.min_balance meter)) /\
      (delta = None <->
       forall h, In h (App.balance_history d) ->
                 App.BalanceHistory.meter_id h = App.Meter.id meter ->
                 App.BalanceHistory.recorded_at h < yesterday) /\
      (forall x, delta = Some x ->
         exists prior,
           In prior (App.balance_history d) /\
           App.BalanceHistory.meter_id prior = App.Meter.id meter /\
           yesterday <= App.BalanceHistory.recorded_at prior /\
           (forall h, In h (App.balance_history d) ->
                      App.BalanceHistory.meter_id h = App.Meter.id meter ->
                      App.BalanceHistory.recorded_at h
                      <= App.BalanceHistory.recorded_at prior) /\
           x = (App.BalanceHistory.balance prior - current_balance)%float).
Proof.
  intros env tid d user i meter balance Hwf Huser Hi Hscrape yesterday.
  assert (Hsome : App.meters_of user d <> []).
  { intros Hnil. rewrite Hnil in Hi. now destruct i. }
  destruct (check_balances_entries env tid d user Hwf Huser Hsome)
    as [timestamp Hanswer].
  exists (map (entry_of env yesterday d) (App.meters_of user d)), timestamp.
  exists match App.yesterday_record (App.Meter.id meter) yesterday d with
         | Some r => Some (App.BalanceHistory.balance r - balance)%float
         | None => None
         end.
  split; [exact Hanswer|]. split.
  - rewrite nth_error_map, Hi. cbn [option_map]. unfold entry_of.
    now rewrite Hscrape.
  - destruct (App.yesterday_record (App.Meter.id meter) yesterday d)
      as [r|] eqn:Hr.
    + split.
      * split; [discriminate|]. intros Hold. exfalso.
        apply yesterday_record_none in Hold. congruence.
      * intros x Hx. injection Hx as <-. exists r.
        destruct (yesterday_record_some _ _ _ _ Hr) as (H1 & H2 & H3 & H4).
        now repeat split.
    + split; [|discriminate].
      split; [|reflexivity]. intros _. now apply yesterday_record_none.
Qed.

Lemma check_balances_delta_window_witness :
  let env := Scenario.answering 95 (Scenario.t0 + Scenario.hour) in
  let yesterday := Scenario.t0 + Scenario.hour - App.one_day in
  exists results timestamp delta,
    App.answer (App.check_balances env 42) Scenario.registered
    = App.Results results timestamp /\
    nth_error results 0
    = Some (App.Status "Home" "31041051783" 95 delta false 50) /\
    (delta = None <->
     forall h, In h (App.balance_history Scenario.registered) ->
               App.BalanceHistory.meter_id h = 1 ->
               App.BalanceHistory.recorded_at h < yesterday) /\
    (forall x, delta = Some x ->
       exists prior,
         In prior (App.balance_history Scenario.registered) /\
         App.BalanceHistory.meter_id prior = 1 /\
         yesterday <= App.BalanceHistory.recorded_at prior /\
         (forall h, In h (App.balance_history Scenario.registered) ->
                    App.BalanceHistory.meter_id h = 1 ->
                    App.BalanceHistory.recorded_at h
                    <= App.BalanceHistory.recorded_at prior) /\
         x = (App.BalanceHistory.balance prior - 95)%float).
Proof.
  intros env yesterday.
  exact (check_balances_delta_window env 42 Scenario.registered
           (App.User.mk 1 42 true Scenario.t0) 0
           (App.Meter.mk 1 1 "31041051783" "Home" 50 (Some 120.5%float)
                         (Some (Scenario.t0 + 1)) (Scenario.t0 + 2))
           95 wf_registered eq_refl eq_refl eq_refl).
Defined.

(** The delta is negative after a top-up: the balance was 120.5 and the
    scraper now reads 150. *)
Lemma check_balances_delta_negative_after_top_up :
  exists timestamp,
    App.answer (App.check_balances
                  (Scenario.answering 150 (Scenario.t0 + Scenario.hour)) 42)
               Scenario.registered
    = App.Results
        [App.Status "Home" "31041051783" 150 (Some (-29.5)%float) false 50]
        timestamp /\
    ((-29.5) <? 0)%float = true.
Proof. eexists. split; vm_compute; reflexivity. Qed.

(** The window has no upper end: a reading stamped after the start of the
    sweep (here the clock of the sweep starts at [t0], three microseconds
    before the reading was recorded) is used all the same. *)
Lemma check_balances_window_has_no_upper_end :
  exists timestamp,
    App.answer (App.check_balances (Scenario.answering 95 Scenario.t0) 42)
               Scenario.registered
    = App.Results
        [App.Status "Home" "31041051783" 95 (Some 25.5%float) false 50]
        timestamp /\
    Forall (fun h => Scenario.t0 < App.BalanceHistory.recorded_at h)
           (App.balance_history Scenario.registered).
Proof.
  eexists. split; [vm_compute; reflexivity|].
  repeat constructor.
Qed.

(** *** The scenario of the first refresh *)

(** C3, as stated, fails: the meter is registered while the site reads
    120.5, and the sweep an hour later reads 95; the status has balance 95
    and delta 120.5 - 95 = 25.5, not None, since the reading of the
    registration is less than a day old. *)
Lemma first_refresh_delta_is_not_none :
  let request :=
    App.check_balances
      (Scenario.answering 95 (Scenario.t0 + Scenario.hour)) 42 in
  App.answer request Scenario.registered
  = App.Results
      [App.Status "Home" "31041051783" 95 (Some 25.5%float) false 50]
      (Scenario.t0 + Scenario.hour + 3) /\
  ~ (exists alert min_balance timestamp,
        App.answer request Scenario.registered
        = App.Results
            [App.Status "Home" "31041051783" 95 None alert min_balance]
            timestamp).
Proof.
  cbv zeta. split; [vm_compute; reflexivity|].
  intros (alert & min_balance & timestamp & H).
  vm_compute in H. discriminate.
Qed.

(** C3, amended: a user registers the meter 31041051783 as [Home] in an
    empty database while the site reads 120.5; a sweep that starts one hour
    after the first reading was recorded, and reads 95, answers one status
    with balance 95, delta 25.5 (= 120.5 - 95), no alert and the default
    threshold 50. *)
Theorem first_refresh_reports_usage_since_registration :
  forall (registration sweep : App.Env) (telegram_user_id : Z),
    App.truthy_int telegram_user_id = true ->
    App.scrape_nesco_balance registration "31041051783"
    = App.ScrapeOk 120.5 ->
    App.scrape_nesco_balance sweep "31041051783" = App.ScrapeOk 95 ->
    App.utcnow sweep 0 = App.utcnow registration 3 + 3600000000 ->
    let d :=
      App.after (App.add_meter registration telegram_user_id "31041051783"
                               "Home") App.empty_db in
    App.answer (App.check_balances sweep telegram_user_id) d
    = App.Results
        [App.Status "Home" "31041051783" 95 (Some 25.5%float) false 50]
        (App.utcnow sweep 3).
Proof.
  intros registration sweep tid Htid Hreg Hsweep Hhour d. subst d.
  unfold App.after, App.add_meter, App.user_by_telegram_id,
    App.meter_by_number.
  rewrite Htid. cbn. rewrite Hreg. cbn.
  unfold App.answer, App.check_balances, App.user_by_telegram_id,
    App.meters_of.
  cbn. rewrite Z.eqb_refl. cbn. unfold App.check_one. cbn.
  rewrite Hsweep. cbn.
  unfold App.yesterday_record, App.since. cbn.
  replace (App.utcnow sweep 0 - App.one_day <=? App.utcnow registration 3)
    with true by (symmetry; apply Z.leb_le; unfold App.one_day; lia).
  reflexivity.
Qed.

Lemma first_refresh_reports_usage_since_registration_witness :
  App.answer
    (App.check_balances
       (Scenario.answering 95 (Scenario.t0 + 3 + Scenario.hour)) 42)
    Scenario.registered
  = App.Results
      [App.Status "Home" "31041051783" 95 (Some 25.5%float) false 50]
      (Scenario.t0 + 3 + Scenario.hour + 3).
Proof.
  exact (first_refresh_reports_usage_since_registration
           (Scenario.answering 120.5 Scenario.t0)
           (Scenario.answering 95 (Scenario.t0 + 3 + Scenario.hour))
           42 eq_refl eq_refl eq_refl eq_refl).
Defined.

(** *** A sweep in which one scrape fails *)

(** C6: the user has two meters; the scrape of [good] gives a balance, the
    scrape of [bad] fails.  The sweep answers with two entries, in the order
    of the meters: the status of [good] and the error of [bad].  The database
    committed at the end is the one of the start with the snapshot of [good]
    updated and one more reading, of [good]: the row stored for [good] has
    the scraped balance as [last_balance] and the time of the check as
    [last_checked], and its other columns as before; the row of [bad] is
    still there as it was, with its snapshot, and the readings of [bad] are
    as before. *)
Theorem check_balances_one_scrape_fails :
  forall (env : App.Env) (telegram_user_id : Z) (d : App.DB)
         (user : App.User.t) (good bad : App.Meter.t)
         (balance : float) (error : string) (good_first : bool),
    App.wf d ->
    App.user_by_telegram_id telegram_user_id d = Some user ->
    App.meters_of user d = (if good_first then [good; bad] else [bad; good]) ->
    App.scrape_nesco_balance env (App.Meter.meter_number good)
    = App.ScrapeOk balance ->
    App.scrape_nesco_balance env (App.Meter.meter_number bad)
    = App.ScrapeFail error ->
    let request := App.check_balances env telegram_user_id in
    let status :=
      App.Status (App.Meter.meter_name good) (App.Meter.meter_number good)
        balance
        match App.yesterday_record (App.Meter.id good)
                                   (App.utcnow env 0 - App.one_day) d with
        | Some r => Some (App.BalanceHistory.balance r - balance)%float
        | None => None
        end
        (balance <? App.Meter.min_balance good)%float
        (App.Meter.min_balance good) in
    let failed :=
      App.Failed (App.Meter.meter_name bad) (App.Meter.meter_number bad)
                 error in
    let updated :=
      App.Meter.mk (App.Meter.id good) (App.Meter.user_id good)
                   (App.Meter.meter_number good) (App.Meter.meter_name good)
                   (App.Meter.min_balance good) (Some balance)
                   (Some (App.utcnow env 1)) (App.Meter.created_at good) in
    let reading :=
      App.BalanceHistory.mk (App.balance_history_seq d) (App.Meter.id good)
                            balance (App.utcnow env 2) in
    App.answer request d
    = App.Results (if good_first then [status; failed] else [failed; status])
                  (App.utcnow env 3) /\
    App.after request d
    = App.insert_history reading (App.update_meter updated d) /\
    In updated (App.meters (App.after request d)) /\
    In bad (App.meters (App.after request d)) /\
    (forall stored,
        In stored (App.meters (App.after request d)) ->
        App.Meter.id stored = App.Meter.id good ->
        App.Meter.last_balance stored = Some balance /\
        App.Meter.last_checked stored = Some (App.utcnow env 1)) /\
    (forall stored,
        In stored (App.meters (App.after request d)) ->
        App.Meter.id stored = App.Meter.id bad ->
        App.Meter.last_balance stored = App.Meter.last_balance bad /\
        App.Meter.last_checked stored = App.Meter.last_checked bad) /\
    filter (fun h => App.BalanceHistory.meter_id h =? App.Meter.id good)
           (App.balance_history (App.after request d))
    = (filter (fun h => App.BalanceHistory.meter_id h =? App.Meter.id good)
              (App.balance_history d) ++ [reading])%list /\
    filter (fun h => App.BalanceHistory.meter_id h =? App.Meter.id bad)
           (App.balance_history (App.after request d))
    = filter (fun h => App.BalanceHistory.meter_id h =? App.Meter.id bad)
             (App.balance_history d).
Proof.
  intros env tid d user good bad balance error good_first Hwf Huser Hms
         Hgood Hbad request status failed updated reading.
  assert (Hdistinct : App.Meter.id bad <> App.Meter.id good).
  { pose proof (NoDup_key_filter App.Meter.id
                  (fun m => App.Meter.user_id m =? App.User.id user)
                  (App.meters d) (App.wf_meters_pk d Hwf)) as Hnd.
    fold (App.meters_of user d) in Hnd. rewrite Hms in Hnd.
    destruct good_first; cbn in Hnd; inversion Hnd as [|? ? Hnotin _];
      subst; intros Heq; apply Hnotin; left; congruence. }
  assert (Hin : In good (App.meters d) /\ In bad (App.meters d)).
  { assert (H : In good (App.meters_of user d)
                /\ In bad (App.meters_of user d)).
    { rewrite Hms. destruct good_first; cbn; tauto. }
    unfold App.meters_of in H. rewrite !filter_In in H. tauto. }
  assert (Hafter : App.after request d
                   = App.insert_history reading (App.update_meter updated d)
                   /\ App.answer request d
                      = App.Results (if good_first then [status; failed]
                                     else [failed; status])
                                    (App.utcnow env 3)).
  { subst request. unfold App.after, App.answer, App.check_balances.
    cbn [App.begin App.db]. rewrite Huser, Hms.
    destruct good_first; run;
      cbn [App.check_loop]; unfold App.check_one;
      rewrite Hgood, Hbad; run; split; reflexivity. }
  destruct Hafter as [Hafter Hanswer]. rewrite Hafter.
  cbn [App.insert_history App.update_meter App.meters App.balance_history].
  assert (Hrows : forall stored,
             In stored
                (map (fun x => if App.Meter.id x =? App.Meter.id updated
                               then updated else x) (App.meters d)) ->
             (App.Meter.id stored = App.Meter.id good -> stored = updated) /\
             (App.Meter.id stored = App.Meter.id bad -> stored = bad)).
  { intros stored Hstored.
    apply in_map_iff in Hstored as (x & Hx & Hxin).
    cbn [updated App.Meter.id] in Hx.
    destruct (Z.eqb_spec (App.Meter.id x) (App.Meter.id good)) as [Heq|Hne];
      subst stored.
    - split; [reflexivity|]. cbn [updated App.Meter.id]. congruence.
    - split; [congruence|]. intros Hid.
      exact (same_key_same_row App.Meter.id (App.meters d) x bad
               (App.wf_meters_pk d Hwf) Hxin (proj2 Hin) Hid). }
  split; [exact Hanswer|]. split; [reflexivity|].
  split; [|split; [|split; [|split; [|split]]]].
  - apply in_map_iff. exists good. split; [|tauto].
    subst updated. cbn [App.Meter.id].
    now rewrite Z.eqb_refl.
  - apply in_map_iff. exists bad. split; [|tauto].
    subst updated. cbn [App.Meter.id].
    apply Z.eqb_neq in Hdistinct. now rewrite Hdistinct.
  - intros stored Hstored Hid.
    rewrite (proj1 (Hrows stored Hstored) Hid). split; reflexivity.
  - intros stored Hstored Hid.
    rewrite (proj2 (Hrows stored Hstored) Hid). split; reflexivity.
  - rewrite filter_app. subst reading.
    cbn [filter App.BalanceHistory.meter_id]. now rewrite Z.eqb_refl.
  - rewrite filter_app. subst reading.
    cbn [filter App.BalanceHistory.meter_id].
    replace (App.Meter.id good =? App.Meter.id bad) with false
      by (symmetry; apply Z.eqb_neq; congruence).
    apply app_nil_r.
Qed.

Lemma check_balances_one_scrape_fails_witness :
  let env := Scenario.home_only (Scenario.t0 + Scenario.hour) in
  let request := App.check_balances env 42 in
  let home :=
    App.Meter.mk 1 1 "31041051783" "Home" 50 (Some 120.5%float)
                 (Some (Scenario.t0 + 1)) (Scenario.t0 + 2) in
  let shop :=
    App.Meter.mk 2 1 "31041051784" "Shop" 50 (Some 80%float)
                 (Some (Scenario.t0 + 10)) (Scenario.t0 + 11) in
  let reading :=
    App.BalanceHistory.mk 3 1 95 (Scenario.t0 + Scenario.hour + 2) in
  App.answer request Scenario.two_meters
  = App.Results
      [App.Status "Home" "31041051783" 95 (Some 25.5%float) false 50;
       App.Failed "Shop" "31041051784" "HTTP 503"]
      (Scenario.t0 + Scenario.hour + 3) /\
  App.meters (App.after request Scenario.two_meters)
  = [App.Meter.mk 1 1 "31041051783" "Home" 50 (Some 95%float)
                  (Some (Scenario.t0 + Scenario.hour + 1)) (Scenario.t0 + 2);
     shop] /\
  map App.Meter.last_balance
      (App.meters (App.after request Scenario.two_meters))
  = [Some 95%float; Some 80%float] /\
  App.balance_history (App.after request Scenario.two_meters)
  = (App.balance_history Scenario.two_meters ++ [reading])%list.
Proof.
  intros env request home shop reading.
  destruct (check_balances_one_scrape_fails env 42 Scenario.two_meters
              (App.User.mk 1 42 true Scenario.t0) home shop 95 "HTTP 503"
              true wf_two_meters eq_refl eq_refl eq_refl eq_refl)
    as (Hanswer & Hafter & _).
  split; [exact Hanswer|]. subst request. rewrite Hafter.
  split; [|split]; vm_compute; reflexivity.
Defined.

(** *** The sweep keeps the integrity constraints *)

Lemma flush_rows_keeps (env : App.Env) (ids : list Z)
  (rows : list (Z * float)) :
  Forall (fun p => In (fst p) ids) rows ->
  forall (d : App.DB) (n : nat),
    App.wf d ->
    map App.Meter.id (App.meters d) = ids ->
    let d' := fst (App.flush_rows env rows d n) in
    App.wf d' /\ App.meters d' = App.meters d /\ App.users d' = App.users d.
Proof.
  induction 1 as [|[mid bal] rows Hp _ IH]; intros d n Hwf Hids;
    cbn [App.flush_rows]; [now cbn|].
  cbn [fst] in Hp.
  set (h := App.BalanceHistory.mk _ mid bal _).
  destruct (IH (App.insert_history h d) (S n)) as (Hwf' & Hm & Hu).
  - apply wf_insert_history; [exact Hwf|]. cbn. now rewrite Hids.
  - exact Hids.
  - cbv zeta. now rewrite Hm, Hu.
Qed.

Lemma flush_sweeping (env : App.Env) (d : App.DB) (s : App.Session) :
  sweeping d s -> sweeping d (App.flush env s).
Proof.
  intros (Hwf & Hids & Hus & Hpend).
  destruct (flush_rows_keeps env _ (App.pending s) Hpend (App.db s)
                             (App.clock_reads s) Hwf Hids)
    as (Hwf' & Hm & Hu).
  unfold sweeping. rewrite flush_db, flush_pending, Hm, Hu.
  split; [exact Hwf'|]. split; [exact Hids|]. split; [exact Hus|constructor].
Qed.

Lemma check_one_sweeping (env : App.Env) (yesterday : Z) (d : App.DB)
  (meter : App.Meter.t) (s : App.Session) :
  In meter (App.meters d) ->
  App.wf d ->
  sweeping d s ->
  sweeping d (snd (App.check_one env yesterday meter s)).
Proof.
  intros Hin Hwfd Hs. unfold App.check_one.
  destruct (App.scrape_nesco_balance env (App.Meter.meter_number meter)).
  - assert (Hs1 : sweeping d (App.record
                                (App.Scrape (App.Meter.meter_number meter)) s))
      by exact Hs.
    apply (flush_sweeping env) in Hs1.
    destruct Hs1 as (Hwf & Hids & Hus & _).
    unfold sweeping.
    cbn [App.now fst snd App.add_history App.with_db App.db App.pending
         App.update_meter App.meters App.users].
    rewrite flush_pending. split; [|split; [|split]].
    + apply wf_update_meter; [exact Hwf|]. rewrite Hus.
      pose proof (App.wf_meters_fk d Hwfd) as Hfk.
      rewrite Forall_forall in Hfk. exact (Hfk meter Hin).
    + now rewrite (update_keeps_keys App.Meter.id).
    + exact Hus.
    + cbn [app]. constructor; [|constructor]. cbn [fst]. now apply in_map.
  - exact Hs.
Qed.

Lemma check_loop_sweeping (env : App.Env) (yesterday : Z) (d : App.DB)
  (ms : list App.Meter.t) :
  App.wf d ->
  Forall (fun m => In m (App.meters d)) ms ->
  forall s, sweeping d s ->
            sweeping d (snd (App.check_loop env yesterday ms s)).
Proof.
  intros Hwf. induction 1 as [|meter ms Hin _ IH]; intros s Hs; [exact Hs|].
  cbn [App.check_loop].
  pose proof (check_one_sweeping env yesterday d meter s Hin Hwf Hs) as H1.
  destruct (App.check_one env yesterday meter s) as [r s1]. cbn [snd] in H1.
  specialize (IH s1 H1).
  now destruct (App.check_loop env yesterday ms s1).
Qed.

Lemma wf_after_check_balances (env : App.Env) (telegram_user_id : Z)
  (d : App.DB) :
  App.wf d -> App.wf (App.after (App.check_balances env telegram_user_id) d).
Proof.
  intros Hwf. unfold App.after, App.check_balances. cbn [App.begin App.db].
  destruct (App.user_by_telegram_id telegram_user_id d) as [user|];
    [|exact Hwf].
  destruct (App.meters_of user d) as [|m ms] eqn:Hms; [exact Hwf|].
  cbn [App.now App.begin App.db App.pending App.committed App.clock_reads
       App.log].
  set (s0 := App.mkSession d [] d 1 []).
  assert (Hloop : sweeping d (snd (App.check_loop
                                     env (App.utcnow env 0 - App.one_day)
                                     (m :: ms) s0))).
  { apply check_loop_sweeping; [exact Hwf| |].
    - rewrite <- Hms. apply Forall_forall. intros x Hx.
      unfold App.meters_of in Hx. now apply filter_In in Hx.
    - split; [exact Hwf|]. split; [reflexivity|].
      split; [reflexivity|constructor]. }
  destruct (App.check_loop env (App.utcnow env 0 - App.one_day) (m :: ms) s0)
    as [results s1].
  cbn [snd] in *. apply (flush_sweeping env) in Hloop.
  destruct Hloop as [Hwf1 _]. exact Hwf1.
Qed.

(** *** Every database the application reaches satisfies the constraints *)

Lemma wf_delete_meter (d : App.DB) (m : App.Meter.t) :
  App.wf d -> App.wf (App.delete_meter m d).
Proof.
  intros [Hus Hms Hpk Hmfk Hhfk]. constructor; cbn; auto.
  - rewrite Forall_forall in *. intros x Hx.
    apply filter_In in Hx as [Hx _]. now apply Hms.
  - now apply NoDup_key_filter.
  - rewrite Forall_forall in *. intros x Hx.
    apply filter_In in Hx as [Hx _]. now apply Hmfk.
  - rewrite Forall_forall in *. intros h Hh.
    apply filter_In in Hh as [Hh Hkeep].
    specialize (Hhfk h Hh). apply in_map_iff in Hhfk as (x & Hx & Hin).
    apply in_map_iff. exists x. split; [exact Hx|].
    apply filter_In. split; [exact Hin|]. now rewrite Hx.
Qed.

Lemma wf_after_telegram_webhook (env : App.Env) (command : string)
  (telegram_user_id : Z) (d : App.DB) :
  App.wf d ->
  App.wf (App.after (App.telegram_webhook env command telegram_user_id) d).
Proof.
  intros Hwf. unfold App.after, App.telegram_webhook. run.
  destruct (String.eqb command "start"); run; [|exact Hwf].
  destruct (App.user_by_telegram_id telegram_user_id d); run; [exact Hwf|].
  now apply wf_insert_user.
Qed.

Lemma wf_after_remove_meter (env : App.Env) (telegram_user_id meter_id : Z)
  (d : App.DB) :
  App.wf d ->
  App.wf (App.after (App.remove_meter env telegram_user_id meter_id) d).
Proof.
  intros Hwf. unfold App.after, App.remove_meter. run.
  destruct (App.user_by_telegram_id telegram_user_id d) as [user|]; run;
    [|exact Hwf].
  destruct (App.meter_by_id meter_id (App.User.id user) d); run;
    [|exact Hwf].
  now apply wf_delete_meter.
Qed.

Lemma reachable_wf (float_of_str : string -> option float) (d : App.DB) :
  App.reachable float_of_str d -> App.wf d.
Proof.
  induction 1.
  - exact wf_empty_db.
  - now apply wf_after_telegram_webhook.
  - now apply wf_after_add_meter.
  - now apply wf_after_check_balances.
  - now apply wf_after_remove_meter.
  - now apply wf_after_set_min_balance.
  - now apply wf_after_toggle_reminder.
Qed.

(* ================================================================== *)
(** ** Further properties of the backend *)

(** *** Removing a meter *)

(** X1: when the user owns the meter, /api/remove-meter answers with
    success and commits the database without that meter and without its
    readings: the meters left are those with another id, the readings left
    are those of other meters, the users are untouched, and the meter can
    no longer be looked up. *)
Theorem remove_meter_deletes_meter_and_its_readings :
  forall (env : App.Env) (telegram_user_id meter_id : Z) (d : App.DB)
         (user : App.User.t) (meter : App.Meter.t),
    App.user_by_telegram_id telegram_user_id d = Some user ->
    App.meter_by_id meter_id (App.User.id user) d = Some meter ->
    let request := App.remove_meter env telegram_user_id meter_id in
    App.answer request d
    = App.Success (App.MeterRemoved (App.Meter.meter_name meter)) /\
    App.users (App.after request d) = App.users d /\
    (forall x, In x (App.meters (App.after request d)) <->
               In x (App.meters d) /\ App.Meter.id x <> meter_id) /\
    (forall h, In h (App.balance_history (App.after request d)) <->
               In h (App.balance_history d)
               /\ App.BalanceHistory.meter_id h <> meter_id) /\
    App.meter_by_id meter_id (App.User.id user) (App.after request d) = None.
Proof.
  intros env tid mid d user meter Hu Hm request. subst request.
  assert (Hid : App.Meter.id meter = mid).
  { unfold App.meter_by_id in Hm. apply find_some in Hm as [_ Hm].
    apply andb_prop in Hm as [Hm _]. now apply Z.eqb_eq. }
  unfold App.answer, App.after, App.remove_meter. run. rewrite Hu, Hm. run.
  subst mid. unfold App.delete_meter. run.
  split; [reflexivity|]. split; [reflexivity|]. split; [|split].
  - intros x. rewrite filter_In, negb_true_iff, Z.eqb_neq. reflexivity.
  - intros h. rewrite filter_In, negb_true_iff, Z.eqb_neq. reflexivity.
  - unfold App.meter_by_id. run. apply find_none_forall.
    apply Forall_forall. intros x Hx.
    apply filter_In in Hx as [_ Hx]. apply negb_true_iff in Hx.
    now rewrite Hx.
Qed.

Lemma remove_meter_deletes_meter_and_its_readings_witness :
  let request :=
    App.remove_meter (Scenario.answering 95 (Scenario.t0 + Scenario.hour))
                     42 1 in
  App.answer request Scenario.two_meters
  = App.Success (App.MeterRemoved "Home") /\
  map App.Meter.meter_name (App.meters (App.after request Scenario.two_meters))
  = ["Shop"] /\
  map App.BalanceHistory.meter_id
      (App.balance_history (App.after request Scenario.two_meters)) = [2].
Proof.
  intros request.
  destruct (remove_meter_deletes_meter_and_its_readings
              (Scenario.answering 95 (Scenario.t0 + Scenario.hour)) 42 1
              Scenario.two_meters (App.User.mk 1 42 true Scenario.t0)
              (App.Meter.mk 1 1 "31041051783" "Home" 50 (Some 120.5%float)
                            (Some (Scenario.t0 + 1)) (Scenario.t0 + 2))
              eq_refl eq_refl) as (Ha & _).
  split; [exact Ha|]. split; reflexivity.
Defined.

(** X2: a meter id that is not the id of a meter of the requesting user
    (no meter has it, or only meters of other users) is refused by
    /api/remove-meter and by /api/set-min-balance with 404
    [Meter not found]; nothing is committed and the database is the same. *)
Theorem foreign_meter_is_out_of_reach :
  forall (float_of_str : string -> option float) (env : App.Env)
         (telegram_user_id meter_id : Z) (min_balance : Py.json)
         (d : App.DB) (user : App.User.t),
    App.user_by_telegram_id telegram_user_id d = Some user ->
    (forall m, In m (App.meters d) -> App.Meter.id m = meter_id ->
               App.Meter.user_id m <> App.User.id user) ->
    let remove := App.remove_meter env telegram_user_id meter_id in
    let retune :=
      App.set_min_balance float_of_str env telegram_user_id meter_id
                          min_balance in
    (App.answer remove d = App.Failure 404 "Meter not found" /\
     App.after remove d = d /\ App.trace remove d = []) /\
    (App.answer retune d = App.Failure 404 "Meter not found" /\
     App.after retune d = d /\ App.trace retune d = []).
Proof.
  intros fos env tid mid v d user Hu Hforeign remove retune.
  assert (Hnone : App.meter_by_id mid (App.User.id user) d = None).
  { unfold App.meter_by_id. apply find_none_forall. apply Forall_forall.
    intros m Hm.
    destruct (Z.eqb_spec (App.Meter.id m) mid) as [Hid|]; [|reflexivity].
    specialize (Hforeign m Hm Hid). apply Z.eqb_neq in Hforeign.
    now rewrite Hforeign. }
  subst remove retune.
  unfold App.answer, App.after, App.trace, App.remove_meter,
    App.set_min_balance.
  run. rewrite Hu, Hnone. repeat split.
Qed.

Lemma foreign_meter_is_out_of_reach_witness :
  let env := Scenario.answering 95 (Scenario.t0 + Scenario.hour) in
  let d := App.after (App.telegram_webhook env "start" 7) Scenario.registered in
  App.answer (App.remove_meter env 7 1) d
  = App.Failure 404 "Meter not found" /\
  App.after (App.remove_meter env 7 1) d = d /\
  App.after (App.set_min_balance Scenario.float_of_str env 7 1
                                 (Py.JInt 10)) d = d.
Proof.
  intros env d.
  destruct (foreign_meter_is_out_of_reach Scenario.float_of_str env 7 1
              (Py.JInt 10) d
              (App.User.mk 2 7 true (Scenario.t0 + Scenario.hour)) eq_refl)
    as ((Ha & Hd & _) & (_ & Hd' & _)).
  - intros m [<-|[]] _. cbn. discriminate.
  - exact (conj Ha (conj Hd Hd')).
Defined.

(** *** Setting a threshold changes nothing else *)

(** X3: a successful /api/set-min-balance rewrites the threshold of the
    meter with the given id and nothing else: every other field of that
    meter, every other meter, the users, the readings and the sequences are
    as before. *)
Theorem set_min_balance_changes_only_the_threshold :
  forall (float_of_str : string -> option float) (env : App.Env)
         (telegram_user_id meter_id : Z) (min_balance : Py.json)
         (d : App.DB) (user : App.User.t) (meter : App.Meter.t) (x : float),
    App.wf d ->
    App.user_by_telegram_id telegram_user_id d = Some user ->
    App.meter_by_id meter_id (App.User.id user) d = Some meter ->
    Py.to_float float_of_str min_balance = Py.Ret x ->
    let d' :=
      App.after (App.set_min_balance float_of_str env telegram_user_id
                                     meter_id min_balance) d in
    App.meters d'
    = map (fun m => if App.Meter.id m =? meter_id
                    then App.Meter.mk (App.Meter.id m) (App.Meter.user_id m)
                           (App.Meter.meter_number m) (App.Meter.meter_name m)
                           x (App.Meter.last_balance m)
                           (App.Meter.last_checked m) (App.Meter.created_at m)
                    else m)
          (App.meters d) /\
    App.users d' = App.users d /\
    App.balance_history d' = App.balance_history d /\
    (App.users_seq d', App.meters_seq d', App.balance_history_seq d')
    = (App.users_seq d, App.meters_seq d, App.balance_history_seq d).
Proof.
  intros fos env tid mid v d user meter x Hwf Hu Hm Hx d'. subst d'.
  unfold App.after, App.set_min_balance. run. rewrite Hu, Hm, Hx. run.
  unfold App.update_meter. run.
  split; [|repeat split].
  unfold App.meter_by_id in Hm. apply find_some in Hm as [Hin Hm].
  apply andb_prop in Hm as [Hid _]. apply Z.eqb_eq in Hid. subst mid.
  apply map_ext_in. intros m Hmin.
  cbn [App.Meter.set_min_balance App.Meter.id].
  destruct (Z.eqb_spec (App.Meter.id m) (App.Meter.id meter)) as [Heq|];
    [|reflexivity].
  now rewrite (same_key_same_row App.Meter.id (App.meters d) m meter
                 (App.wf_meters_pk d Hwf) Hmin Hin Heq).
Qed.

Lemma set_min_balance_changes_only_the_threshold_witness :
  let d' :=
    App.after (App.set_min_balance
                 Scenario.float_of_str
                 (Scenario.answering 95 (Scenario.t0 + Scenario.hour))
                 42 2 (Py.JStr "75.5")) Scenario.two_meters in
  map App.Meter.min_balance (App.meters d') = [50%float; 75.5%float] /\
  App.users d' = App.users Scenario.two_meters /\
  App.balance_history d' = App.balance_history Scenario.two_meters.
Proof.
  intros d'.
  destruct (set_min_balance_changes_only_the_threshold
              Scenario.float_of_str
              (Scenario.answering 95 (Scenario.t0 + Scenario.hour))
              42 2 (Py.JStr "75.5") Scenario.two_meters
              (App.User.mk 1 42 true Scenario.t0)
              (App.Meter.mk 2 1 "31041051784" "Shop" 50 (Some 80%float)
                            (Some (Scenario.t0 + 10)) (Scenario.t0 + 11))
              75.5 wf_two_meters eq_refl eq_refl eq_refl)
    as (Hm & Hu & Hh & _).
  split; [|exact (conj Hu Hh)].
  subst d'. rewrite Hm. vm_compute. reflexivity.
Defined.

(** *** What a sweep adds to the readings *)

Lemma flush_rows_readings (env : App.Env) (rows : list (Z * float)) :
  forall (d : App.DB) (n : nat),
    readings (fst (App.flush_rows env rows d n)) = (readings d ++ rows)%list.
Proof.
  induction rows as [|[mid bal] rows IH]; intros d n; cbn [App.flush_rows].
  - now rewrite app_nil_r.
  - rewrite IH. unfold readings. cbn [App.insert_history App.balance_history].
    rewrite map_app, <- app_assoc. reflexivity.
Qed.

Lemma check_one_readings (env : App.Env) (yesterday : Z)
  (meter : App.Meter.t) (s : App.Session) :
  let s' := snd (App.check_one env yesterday meter s) in
  (readings (App.db s') ++ App.pending s')%list
  = ((readings (App.db s) ++ App.pending s) ++ scraped env [meter])%list.
Proof.
  unfold App.check_one, scraped. cbn [flat_map].
  destruct (App.scrape_nesco_balance env (App.Meter.meter_number meter)).
  - cbn [App.now snd App.add_history App.with_db App.db App.pending].
    rewrite flush_pending. unfold readings at 1.
    cbn [App.update_meter App.balance_history].
    fold (readings (App.db (App.flush env
            (App.record (App.Scrape (App.Meter.meter_number meter)) s)))).
    rewrite flush_db, flush_rows_readings. reflexivity.
  - cbn [snd App.record App.db App.pending]. now rewrite !app_nil_r.
Qed.

Lemma check_loop_readings (env : App.Env) (yesterday : Z)
  (ms : list App.Meter.t) :
  forall s : App.Session,
    let s' := snd (App.check_loop env yesterday ms s) in
    (readings (App.db s') ++ App.pending s')%list
    = ((readings (App.db s) ++ App.pending s) ++ scraped env ms)%list.
Proof.
  induction ms as [|meter ms IH]; intros s; cbn [App.check_loop].
  - cbn. now rewrite app_nil_r.
  - pose proof (check_one_readings env yesterday meter s) as H1.
    destruct (App.check_one env yesterday meter s) as [r s1].
    specialize (IH s1).
    destruct (App.check_loop env yesterday ms s1) as [rs s2].
    cbn [snd] in *. rewrite IH, H1. unfold scraped. cbn [flat_map].
    now rewrite <- !app_assoc.
Qed.

Lemma flush_rows_appends (env : App.Env) (rows : list (Z * float)) :
  forall (d : App.DB) (n : nat),
    exists added,
      App.balance_history (fst (App.flush_rows env rows d n))
      = (App.balance_history d ++ added)%list.
Proof.
  induction rows as [|[mid bal] rows IH]; intros d n; cbn [App.flush_rows].
  - exists []. now rewrite app_nil_r.
  - destruct (IH (App.insert_history
                    (App.BalanceHistory.mk (App.balance_history_seq d) mid bal
                                           (App.utcnow env n)) d) (S n))
      as [added Hadded].
    rewrite Hadded. cbn [App.insert_history App.balance_history].
    rewrite <- app_assoc. now eexists.
Qed.

Lemma check_loop_appends (env : App.Env) (yesterday : Z)
  (ms : list App.Meter.t) :
  forall s : App.Session,
    exists added,
      App.balance_history (App.db (snd (App.check_loop env yesterday ms s)))
      = (App.balance_history (App.db s) ++ added)%list.
Proof.
  induction ms as [|meter ms IH]; intros s; cbn [App.check_loop].
  - exists []. now rewrite app_nil_r.
  - assert (H1 : exists added,
               App.balance_history
                 (App.db (snd (App.check_one env yesterday meter s)))
               = (App.balance_history (App.db s) ++ added)%list).
    { unfold App.check_one.
      destruct (App.scrape_nesco_balance env (App.Meter.meter_number meter)).
      - cbn [App.now snd App.add_history App.with_db App.db
             App.update_meter App.balance_history].
        rewrite flush_db. apply flush_rows_appends.
      - exists []. now rewrite app_nil_r. }
    destruct (App.check_one env yesterday meter s) as [r s1].
    destruct (IH s1) as [added2 H2].
    destruct (App.check_loop env yesterday ms s1) as [rs s2].
    cbn [snd] in *. destruct H1 as [added1 H1].
    rewrite H2, H1, <- app_assoc. now eexists.
Qed.

(** X4: a sweep of /api/check-balances over the meters of a user appends to
    the table of readings one reading per meter whose scrape succeeds, with
    the id of the meter and the scraped balance, in the order of the meters,
    and none for a meter whose scrape fails; the readings that were there
    are kept, in place. *)
Theorem check_balances_appends_one_reading_per_success :
  forall (env : App.Env) (telegram_user_id : Z) (d : App.DB)
         (user : App.User.t),
    App.user_by_telegram_id telegram_user_id d = Some user ->
    App.meters_of user d <> [] ->
    let d' := App.after (App.check_balances env telegram_user_id) d in
    exists added,
      App.balance_history d' = (App.balance_history d ++ added)%list /\
      map (fun h => (App.BalanceHistory.meter_id h,
                     App.BalanceHistory.balance h)) added
      = scraped env (App.meters_of user d).
Proof.
  intros env tid d user Hu Hsome d'. subst d'.
  unfold App.after, App.check_balances. cbn [App.begin App.db].
  rewrite Hu.
  destruct (App.meters_of user d) as [|m ms] eqn:Hms; [contradiction|].
  cbn [App.now App.begin App.db App.pending App.committed App.clock_reads
       App.log].
  pose proof (check_loop_readings env (App.utcnow env 0 - App.one_day)
                (m :: ms) (App.mkSession d [] d 1 [])) as Hloop.
  destruct (check_loop_appends env (App.utcnow env 0 - App.one_day)
                (m :: ms) (App.mkSession d [] d 1 [])) as [added1 Hadd1].
  destruct (App.check_loop env (App.utcnow env 0 - App.one_day) (m :: ms)
                           (App.mkSession d [] d 1 [])) as [results s1].
  cbn [snd App.db App.pending] in Hloop, Hadd1. rewrite app_nil_r in Hloop.
  cbn [snd App.commit App.committed]. rewrite flush_db.
  destruct (flush_rows_appends env (App.pending s1) (App.db s1)
                               (App.clock_reads s1)) as [added2 Hadd2].
  pose proof (flush_rows_readings env (App.pending s1) (App.db s1)
                                  (App.clock_reads s1)) as Hflushed.
  rewrite Hloop in Hflushed. unfold readings in Hflushed.
  rewrite Hadd2, Hadd1 in *. rewrite <- app_assoc in *.
  exists (added1 ++ added2)%list. split; [reflexivity|].
  rewrite map_app in Hflushed. now apply app_inv_head in Hflushed.
Qed.

Lemma check_balances_appends_one_reading_per_success_witness :
  let d' :=
    App.after (App.check_balances
                 (Scenario.home_only (Scenario.t0 + Scenario.hour)) 42)
              Scenario.two_meters in
  exists added,
    App.balance_history d'
    = (App.balance_history Scenario.two_meters ++ added)%list /\
    map (fun h => (App.BalanceHistory.meter_id h,
                   App.BalanceHistory.balance h)) added
    = [(1, 95%float)].
Proof.
  intros d'.
  refine (check_balances_appends_one_reading_per_success
            (Scenario.home_only (Scenario.t0 + Scenario.hour)) 42
            Scenario.two_meters (App.User.mk 1 42 true Scenario.t0)
            eq_refl _).
  vm_compute. discriminate.
Defined.

(** *** What a sweep does to the rows of the meters *)

Lemma flush_rows_tables (env : App.Env) (rows : list (Z * float)) :
  forall (d : App.DB) (n : nat),
    App.meters (fst (App.flush_rows env rows d n)) = App.meters d /\
    App.users (fst (App.flush_rows env rows d n)) = App.users d.
Proof.
  induction rows as [|[mid bal] rows IH]; intros d n; cbn [App.flush_rows];
    [now split|].
  destruct (IH (App.insert_history
                  (App.BalanceHistory.mk (App.balance_history_seq d) mid bal
                                         (App.utcnow env n)) d) (S n))
    as [Hm Hu].
  now rewrite Hm, Hu.
Qed.

Lemma flush_meters (env : App.Env) (s : App.Session) :
  App.meters (App.db (App.flush env s)) = App.meters (App.db s).
Proof. rewrite flush_db. apply flush_rows_tables. Qed.

Lemma flush_users (env : App.Env) (s : App.Session) :
  App.users (App.db (App.flush env s)) = App.users (App.db s).
Proof. rewrite flush_db. apply flush_rows_tables. Qed.


Lemma check_one_rows (env : App.Env) (yesterday : Z) (meter : App.Meter.t)
  (s : App.Session) :
  let rows' := App.meters (App.db (snd (App.check_one env yesterday meter s))) in
  (forall x, In x (App.meters (App.db s)) ->
             App.Meter.id x <> App.Meter.id meter -> In x rows') /\
  (In meter (App.meters (App.db s)) -> swept env rows' meter).
Proof.
  unfold swept, App.check_one.
  destruct (App.scrape_nesco_balance env (App.Meter.meter_number meter))
    as [balance|error].
  - cbn [App.now snd fst App.add_history App.with_db App.db App.update_meter
         App.meters].
    rewrite flush_meters. cbn [App.record App.db]. split.
    + intros x Hx Hid. apply in_map_iff. exists x. split; [|exact Hx].
      cbn [App.Meter.set_snapshot App.Meter.id].
      apply Z.eqb_neq in Hid. now rewrite Hid.
    + intros Hin. eexists. apply in_map_iff. exists meter.
      split; [|exact Hin].
      cbn [App.Meter.set_snapshot App.Meter.id]. now rewrite Z.eqb_refl.
  - cbn [snd App.record App.db]. split; auto.
Qed.

Lemma check_loop_rows (env : App.Env) (yesterday : Z) (ms : list App.Meter.t) :
  NoDup (map App.Meter.id ms) ->
  forall s : App.Session,
    (forall m, In m ms -> In m (App.meters (App.db s))) ->
    let rows' :=
      App.meters (App.db (snd (App.check_loop env yesterday ms s))) in
    (forall x, In x (App.meters (App.db s)) ->
               ~ In (App.Meter.id x) (map App.Meter.id ms) -> In x rows') /\
    (forall m, In m ms -> swept env rows' m).
Proof.
  induction ms as [|meter ms IH]; intros Hnd s Hin; cbn [App.check_loop].
  - split; [auto|intros m []].
  - inversion Hnd as [|? ? Hfresh Hnd']; subst.
    destruct (check_one_rows env yesterday meter s) as [Hothers Hmeter].
    destruct (App.check_one env yesterday meter s) as [r s1].
    cbn [snd] in Hothers, Hmeter.
    assert (Hin1 : forall m, In m ms -> In m (App.meters (App.db s1))).
    { intros m Hm. apply Hothers; [apply Hin; now right|].
      intros Heq. apply Hfresh. rewrite <- Heq. now apply in_map. }
    destruct (IH Hnd' s1 Hin1) as [Hkeep Hswept].
    destruct (App.check_loop env yesterday ms s1) as [rs s2].
    cbn [snd] in *. split.
    + intros x Hx Hnot. apply Hkeep.
      * apply Hothers; [exact Hx|]. intros Heq. apply Hnot. now left.
      * intros Hxin. apply Hnot. now right.
    + intros m [Heq|Hm]; [subst m|now apply Hswept].
      specialize (Hmeter (Hin meter (or_introl eq_refl))).
      unfold swept in *.
      destruct (App.scrape_nesco_balance env (App.Meter.meter_number meter)).
      * destruct Hmeter as [checked Hrow]. exists checked.
        apply Hkeep; [exact Hrow|exact Hfresh].
      * apply Hkeep; [exact Hmeter|exact Hfresh].
Qed.

Lemma check_balances_rows (env : App.Env) (telegram_user_id : Z) (d : App.DB)
  (user : App.User.t) :
  App.wf d ->
  App.user_by_telegram_id telegram_user_id d = Some user ->
  let d' := App.after (App.check_balances env telegram_user_id) d in
  (forall m, In m (App.meters_of user d) -> swept env (App.meters d') m) /\
  (forall x, In x (App.meters d) ->
             App.Meter.user_id x <> App.User.id user ->
             In x (App.meters d')).
Proof.
  revert env telegram_user_id d user.
  intros env tid d user Hwf Hu d'. subst d'.
  unfold App.after, App.check_balances. cbn [App.begin App.db].
  rewrite Hu.
  destruct (App.meters_of user d) as [|m0 ms] eqn:Hms.
  { split; [intros m []|auto]. }
  cbn [App.now App.begin App.db App.pending App.committed App.clock_reads
       App.log].
  assert (Hnd : NoDup (map App.Meter.id (m0 :: ms))).
  { rewrite <- Hms. apply NoDup_key_filter, (App.wf_meters_pk d Hwf). }
  assert (Hin : forall m, In m (m0 :: ms) -> In m (App.meters d)).
  { intros m Hm. rewrite <- Hms in Hm. unfold App.meters_of in Hm.
    now apply filter_In in Hm. }
  destruct (check_loop_rows env (App.utcnow env 0 - App.one_day) (m0 :: ms)
              Hnd (App.mkSession d [] d 1 []) Hin) as [Hkeep Hswept].
  destruct (App.check_loop env (App.utcnow env 0 - App.one_day) (m0 :: ms)
                           (App.mkSession d [] d 1 [])) as [results s1].
  cbn [snd App.db] in Hkeep, Hswept.
  cbn [snd App.commit App.committed]. rewrite flush_meters.
  split; [exact Hswept|].
  intros x Hx Hother. apply Hkeep; [exact Hx|].
  intros Hid. apply in_map_iff in Hid as (m & Heq & Hm).
  assert (x = m).
  { apply (same_key_same_row App.Meter.id (App.meters d));
      [apply (App.wf_meters_pk d Hwf)|exact Hx|now apply Hin|congruence]. }
  subst x. rewrite <- Hms in Hm. unfold App.meters_of in Hm.
  apply filter_In in Hm as [_ Hm]. apply Z.eqb_eq in Hm. contradiction.
Qed.

(** X5: after a sweep of /api/check-balances for a user, whatever the
    number of meters: the row stored for each of the user's meters whose
    scrape succeeds has the scraped balance as [last_balance] and a time as
    [last_checked], and its other columns as before; the row stored for
    each meter whose scrape fails is the row as it was; and the meters of
    other users are still there unchanged. *)
Theorem check_balances_updates_only_scraped_meters :
  forall (env : App.Env) (telegram_user_id : Z) (d : App.DB)
         (user : App.User.t),
    App.wf d ->
    App.user_by_telegram_id telegram_user_id d = Some user ->
    let d' := App.after (App.check_balances env telegram_user_id) d in
    (forall m, In m (App.meters_of user d) ->
       match App.scrape_nesco_balance env (App.Meter.meter_number m) with
       | App.ScrapeOk balance =>
           exists stored,
             App.meter_by_id (App.Meter.id m) (App.User.id user) d'
             = Some stored /\
             App.Meter.last_balance stored = Some balance /\
             (exists checked, App.Meter.last_checked stored = Some checked) /\
             App.Meter.meter_number stored = App.Meter.meter_number m /\
             App.Meter.meter_name stored = App.Meter.meter_name m /\
             App.Meter.min_balance stored = App.Meter.min_balance m /\
             App.Meter.created_at stored = App.Meter.created_at m
       | App.ScrapeFail _ =>
           App.meter_by_id (App.Meter.id m) (App.User.id user) d' = Some m
       end) /\
    (forall x, In x (App.meters d) ->
               App.Meter.user_id x <> App.User.id user ->
               In x (App.meters d')).
Proof.
  intros env tid d user Hwf Hu d'.
  destruct (check_balances_rows env tid d user Hwf Hu) as [Hswept Hkeep].
  fold d' in Hswept, Hkeep.
  assert (Hwf' : App.wf d') by now apply wf_after_check_balances.
  split; [|exact Hkeep]. intros m Hm.
  specialize (Hswept m Hm). unfold swept in Hswept.
  apply filter_In in Hm as [_ Hown].
  destruct (App.scrape_nesco_balance env (App.Meter.meter_number m))
    as [balance|error].
  - destruct Hswept as [checked Hstored].
    exists (App.Meter.set_snapshot balance checked m).
    split; [|cbn; repeat split; eauto].
    apply (own_meter_found d' user (App.Meter.set_snapshot balance checked m)
             Hwf').
    apply filter_In. split; [exact Hstored|exact Hown].
  - apply (own_meter_found d' user m Hwf').
    apply filter_In. split; [exact Hswept|exact Hown].
Qed.

Lemma check_balances_updates_only_scraped_meters_witness :
  let env := Scenario.home_only (Scenario.t0 + Scenario.hour) in
  let d' := App.after (App.check_balances env 42) Scenario.two_meters in
  let home :=
    App.Meter.mk 1 1 "31041051783" "Home" 50 (Some 120.5%float)
                 (Some (Scenario.t0 + 1)) (Scenario.t0 + 2) in
  let shop :=
    App.Meter.mk 2 1 "31041051784" "Shop" 50 (Some 80%float)
                 (Some (Scenario.t0 + 10)) (Scenario.t0 + 11) in
  (exists stored,
      App.meter_by_id 1 1 d' = Some stored /\
      App.Meter.last_balance stored = Some 95%float /\
      App.Meter.min_balance stored = 50%float) /\
  App.meter_by_id 2 1 d' = Some shop.
Proof.
  intros env d' home shop.
  destruct (check_balances_updates_only_scraped_meters
              env 42 Scenario.two_meters (App.User.mk 1 42 true Scenario.t0)
              wf_two_meters eq_refl) as [Hswept _].
  assert (Hhome : In home (App.meters_of (App.User.mk 1 42 true Scenario.t0)
                                         Scenario.two_meters))
    by (vm_compute; auto).
  assert (Hshop : In shop (App.meters_of (App.User.mk 1 42 true Scenario.t0)
                                         Scenario.two_meters))
    by (vm_compute; auto).
  apply Hswept in Hhome, Hshop.
  vm_compute in Hhome, Hshop. vm_compute.
  destruct Hhome as (stored & Hfound & Hbalance & _ & _ & _ & Hmin & _).
  split; [|exact Hshop].
  exists stored. exact (conj Hfound (conj Hbalance Hmin)).
Defined.

(** *** The threshold in force and the list of meters *)

(** X6: the alert of a sweep uses the threshold stored at the time of the
    sweep: once /api/set-min-balance has stored [x] for a meter, the status
    of that meter in the next sweep carries [min_balance = x] and
    [alert = (balance < x)]. *)
Theorem alert_uses_threshold_in_force :
  forall (float_of_str : string -> option float) (env1 env2 : App.Env)
         (telegram_user_id meter_id : Z) (min_balance : Py.json)
         (d : App.DB) (user : App.User.t) (meter : App.Meter.t)
         (x balance : float),
    App.wf d ->
    App.user_by_telegram_id telegram_user_id d = Some user ->
    App.meter_by_id meter_id (App.User.id user) d = Some meter ->
    Py.to_float float_of_str min_balance = Py.Ret x ->
    App.scrape_nesco_balance env2 (App.Meter.meter_number meter)
    = App.ScrapeOk balance ->
    let d1 :=
      App.after (App.set_min_balance float_of_str env1 telegram_user_id
                                     meter_id min_balance) d in
    exists results timestamp delta,
      App.answer (App.check_balances env2 telegram_user_id) d1
      = App.Results results timestamp /\
      In (App.Status (App.Meter.meter_name meter)
                     (App.Meter.meter_number meter) balance delta
                     (balance <? x)%float x)
         results.
Proof.
  intros fos env1 env2 tid mid v d user meter x balance Hwf Hu Hm Hx Hs d1.
  set (meter' := App.Meter.set_min_balance x meter).
  assert (Hd1 : d1 = App.update_meter meter' d).
  { subst d1. unfold App.after, App.set_min_balance. run.
    now rewrite Hu, Hm, Hx. }
  pose proof Hm as Hfound. unfold App.meter_by_id in Hfound.
  apply find_some in Hfound as [Hin Hkeys].
  apply andb_prop in Hkeys as [_ Huid]. apply Z.eqb_eq in Huid.
  assert (Hwf1 : App.wf d1).
  { rewrite Hd1. apply wf_update_meter; [exact Hwf|].
    pose proof (App.wf_meters_fk d Hwf) as Hfk. rewrite Forall_forall in Hfk.
    exact (Hfk meter Hin). }
  assert (Hu1 : App.user_by_telegram_id tid d1 = Some user)
    by (rewrite Hd1; exact Hu).
  assert (Hin1 : In meter' (App.meters_of user d1)).
  { rewrite Hd1. unfold App.meters_of, App.update_meter. run.
    apply filter_In. split.
    - apply in_map_iff. exists meter. split; [|exact Hin].
      subst meter'. cbn [App.Meter.set_min_balance App.Meter.id].
      now rewrite Z.eqb_refl.
    - subst meter'. cbn [App.Meter.set_min_balance App.Meter.user_id].
      now apply Z.eqb_eq. }
  assert (Hsome : App.meters_of user d1 <> []).
  { intros Hnil. now rewrite Hnil in Hin1. }
  destruct (check_balances_entries env2 tid d1 user Hwf1 Hu1 Hsome)
    as [timestamp Hanswer].
  eexists _, timestamp, _. split; [exact Hanswer|].
  apply in_map_iff. exists meter'. split; [|exact Hin1].
  unfold entry_of. subst meter'.
  cbn [App.Meter.set_min_balance App.Meter.meter_number App.Meter.meter_name
       App.Meter.min_balance App.Meter.id].
  rewrite Hs. reflexivity.
Qed.

Lemma alert_uses_threshold_in_force_witness :
  let env := Scenario.answering 95 (Scenario.t0 + Scenario.hour) in
  let d1 :=
    App.after (App.set_min_balance Scenario.float_of_str env 42 1
                                   (Py.JInt 100)) Scenario.registered in
  exists results timestamp delta,
    App.answer (App.check_balances env 42) d1
    = App.Results results timestamp /\
    In (App.Status "Home" "31041051783" 95 delta true 100) results.
Proof.
  intros env d1.
  exact (alert_uses_threshold_in_force
           Scenario.float_of_str env env 42 1 (Py.JInt 100)
           Scenario.registered (App.User.mk 1 42 true Scenario.t0)
           (App.Meter.mk 1 1 "31041051783" "Home" 50 (Some 120.5%float)
                         (Some (Scenario.t0 + 1)) (Scenario.t0 + 2))
           100 95 wf_registered eq_refl eq_refl eq_refl eq_refl).
Defined.

(** X7: after /api/add-meter has answered with success, /api/list-meters
    for the same Telegram identity answers the list it answered before
    followed by one entry for the new meter, with the given name and number,
    the default threshold 50 and the scraped balance as last balance. *)
Theorem list_meters_shows_added_meter_last :
  forall (env : App.Env) (telegram_user_id : Z)
         (meter_number meter_name : string) (d : App.DB) (m : App.message),
    App.wf d ->
    App.answer (App.add_meter env telegram_user_id meter_number meter_name) d
    = App.Success m ->
    let d' :=
      App.after (App.add_meter env telegram_user_id meter_number meter_name)
                d in
    exists before info balance,
      App.answer (App.list_meters telegram_user_id) d = App.Meters before /\
      App.answer (App.list_meters telegram_user_id) d'
      = App.Meters (before ++ [info]) /\
      App.scrape_nesco_balance env meter_number = App.ScrapeOk balance /\
      App.info_name info = meter_name /\
      App.info_number info = meter_number /\
      App.info_min_balance info = 50%float /\
      App.info_last_balance info = Some balance.
Proof.
  intros env tid number name d m Hwf Hok d'. subst d'. revert Hok.
  unfold App.answer, App.after, App.add_meter, App.list_meters. run.
  destruct (App.truthy_int tid && App.truthy_str number
            && App.truthy_str name); run; [|discriminate].
  destruct (App.user_by_telegram_id tid d) as [user|] eqn:Hu; run;
    unfold App.meter_by_number; run.
  - destruct (find _ (App.meters d)); run; [discriminate|].
    destruct (App.scrape_nesco_balance env number) as [balance|]; run;
      [|discriminate].
    intros _. unfold App.user_by_telegram_id in *. run. rewrite Hu.
    unfold App.meters_of. run. rewrite filter_app, map_app.
    cbn [filter App.Meter.user_id]. rewrite Z.eqb_refl.
    eexists _, _, balance. repeat split.
  - destruct (find _ (App.meters d)); run; [discriminate|].
    destruct (App.scrape_nesco_balance env number) as [balance|]; run;
      [|discriminate].
    intros _. unfold App.user_by_telegram_id in *. run.
    erewrite find_app_missing; [|exact Hu|apply Z.eqb_refl].
    unfold App.meters_of. run. rewrite filter_app.
    cbn [filter App.Meter.user_id]. rewrite Z.eqb_refl.
    replace (filter _ (App.meters d)) with (@nil App.Meter.t).
    + eexists [], _, balance. repeat split.
    + symmetry. apply filter_none_forall.
      pose proof (App.wf_meters_fk d Hwf) as Hfk.
      pose proof (App.wf_users_seq d Hwf) as Hseq.
      rewrite Forall_forall in *. intros x Hx.
      specialize (Hfk x Hx). apply in_map_iff in Hfk as (u & Hid & Hin).
      specialize (Hseq u Hin). cbn beta in Hseq. apply Z.eqb_neq. lia.
Qed.

Lemma list_meters_shows_added_meter_last_witness :
  let d' :=
    App.after (App.add_meter (Scenario.answering 80 (Scenario.t0 + 10)) 42
                             "31041051784" "Shop") Scenario.registered in
  exists before info balance,
    App.answer (App.list_meters 42) Scenario.registered = App.Meters before /\
    App.answer (App.list_meters 42) d' = App.Meters (before ++ [info]) /\
    App.scrape_nesco_balance (Scenario.answering 80 (Scenario.t0 + 10))
                             "31041051784" = App.ScrapeOk balance /\
    App.info_name info = "Shop" /\
    App.info_number info = "31041051784" /\
    App.info_min_balance info = 50%float /\
    App.info_last_balance info = Some balance.
Proof.
  intros d'.
  exact (list_meters_shows_added_meter_last
           (Scenario.answering 80 (Scenario.t0 + 10)) 42 "31041051784" "Shop"
           Scenario.registered (App.MeterAdded "Shop" "31041051784" 80)
           wf_registered eq_refl).
Defined.

(** *** One user per Telegram identity, one meter per user and number *)

Lemma NoDup_snoc {A : Type} (l : list A) (a : A) :
  NoDup l -> ~ In a l -> NoDup (l ++ [a]).
Proof.
  intros Hl Ha. apply NoDup_app; [exact Hl|repeat constructor; intros []|].
  intros x Hx [<-|[]]. contradiction.
Qed.

Lemma filter_keeps_unique_column {R C : Type} (column : R -> C)
  (keep : R -> bool) :
  forall rows : list R,
    NoDup (map column rows) -> NoDup (map column (filter keep rows)).
Proof.
  induction rows as [|row rows IH]; cbn; intros Hnd; [constructor|].
  apply NoDup_cons_iff in Hnd as [Hnotin Hnd].
  destruct (keep row); cbn; auto.
  constructor; auto. intros Hin. apply Hnotin.
  apply in_map_iff in Hin as (y & Hy & Hin).
  apply filter_In in Hin as [Hin _]. apply in_map_iff. now exists y.
Qed.

(** An UPDATE by key keeps every column on which the new row agrees with
    the rows it replaces. *)
Lemma update_keeps_column {A B : Type} (key : A -> Z) (f : A -> B) (a : A)
  (l : list A) :
  (forall x, In x l -> key x = key a -> f x = f a) ->
  map f (map (fun x => if key x =? key a then a else x) l) = map f l.
Proof.
  intros Hsame. rewrite map_map. apply map_ext_in. intros x Hx.
  destruct (Z.eqb_spec (key x) (key a)); [|reflexivity].
  symmetry. now apply Hsame.
Qed.

Lemma keys_unique_insert_user (d : App.DB) (u : App.User.t) :
  App.wf d -> keys_unique d ->
  App.User.id u = App.users_seq d ->
  App.user_by_telegram_id (App.User.telegram_user_id u) d = None ->
  keys_unique (App.insert_user u d).
Proof.
  intros Hwf [Hids Htids Hpairs] Hid Hnew. constructor; cbn; auto.
  - rewrite map_app. apply NoDup_snoc; [exact Hids|].
    intros Hin. apply in_map_iff in Hin as (x & Hx & Hin).
    pose proof (App.wf_users_seq d Hwf) as Hseq.
    rewrite Forall_forall in Hseq. specialize (Hseq x Hin). cbn in Hseq. lia.
  - rewrite map_app. apply NoDup_snoc; [exact Htids|].
    intros Hin. apply in_map_iff in Hin as (x & Hx & Hin).
    unfold App.user_by_telegram_id in Hnew.
    apply (find_none _ _ Hnew) in Hin. cbn in Hin. apply Z.eqb_neq in Hin.
    contradiction.
Qed.

Lemma keys_unique_insert_meter (d : App.DB) (m : App.Meter.t) :
  keys_unique d ->
  App.meter_by_number (App.Meter.user_id m) (App.Meter.meter_number m) d
  = None ->
  keys_unique (App.insert_meter m d).
Proof.
  intros [Hids Htids Hpairs] Hnew. constructor; cbn; auto.
  rewrite map_app. apply NoDup_snoc; [exact Hpairs|].
  intros Hin. apply in_map_iff in Hin as (x & Hx & Hin).
  unfold App.meter_by_number in Hnew.
  apply (find_none _ _ Hnew) in Hin. cbn in Hin.
  unfold owner_and_number in Hx. injection Hx as Hu Hn.
  rewrite Hu, Hn, Z.eqb_refl, String.eqb_refl in Hin. discriminate.
Qed.

Lemma keys_unique_insert_history (d : App.DB) (h : App.BalanceHistory.t) :
  keys_unique d -> keys_unique (App.insert_history h d).
Proof. intros [Hids Htids Hpairs]. now constructor. Qed.

Lemma keys_unique_update_user (d : App.DB) (u u' : App.User.t) :
  keys_unique d ->
  In u (App.users d) ->
  App.User.id u' = App.User.id u ->
  App.User.telegram_user_id u' = App.User.telegram_user_id u ->
  keys_unique (App.update_user u' d).
Proof.
  intros [Hids Htids Hpairs] Hin Hid Htid. constructor; cbn; auto.
  - now rewrite (update_keeps_keys App.User.id).
  - rewrite (update_keeps_column App.User.id); [exact Htids|].
    intros x Hx Hkey.
    replace x with u; [now symmetry|].
    apply (same_key_same_row App.User.id (App.users d)); auto. congruence.
Qed.

Lemma keys_unique_update_meter (d : App.DB) (m' : App.Meter.t) :
  keys_unique d ->
  (forall x, In x (App.meters d) -> App.Meter.id x = App.Meter.id m' ->
             owner_and_number x = owner_and_number m') ->
  keys_unique (App.update_meter m' d).
Proof.
  intros [Hids Htids Hpairs] Hsame. constructor; cbn; auto.
  now rewrite (update_keeps_column App.Meter.id).
Qed.

Lemma keys_unique_delete_meter (d : App.DB) (m : App.Meter.t) :
  keys_unique d -> keys_unique (App.delete_meter m d).
Proof.
  intros [Hids Htids Hpairs]. constructor; cbn; auto.
  now apply filter_keeps_unique_column.
Qed.


Lemma check_one_fixed_columns (env : App.Env) (yesterday : Z) (d : App.DB)
  (meter : App.Meter.t) (s : App.Session) :
  App.wf d -> In meter (App.meters d) ->
  map fixed_columns (App.meters (App.db s))
  = map fixed_columns (App.meters d) ->
  let s' := snd (App.check_one env yesterday meter s) in
  map fixed_columns (App.meters (App.db s'))
  = map fixed_columns (App.meters d) /\
  App.users (App.db s') = App.users (App.db s).
Proof.
  intros Hwf Hin Hcols s'. subst s'. unfold App.check_one.
  destruct (App.scrape_nesco_balance env (App.Meter.meter_number meter));
    [|now split].
  cbn [App.now snd App.add_history App.with_db App.db App.update_meter
       App.meters App.users].
  rewrite flush_meters, flush_users. cbn [App.record App.db].
  split; [|reflexivity]. rewrite <- Hcols.
  apply (update_keeps_column App.Meter.id). intros x Hx Hid.
  cbn [App.Meter.set_snapshot App.Meter.id] in Hid.
  assert (Hcol : In (fixed_columns x) (map fixed_columns (App.meters d)))
    by (rewrite <- Hcols; now apply in_map).
  apply in_map_iff in Hcol as (y & Hy & Hyin).
  assert (y = meter).
  { apply (same_key_same_row App.Meter.id (App.meters d));
      [apply (App.wf_meters_pk d Hwf)|exact Hyin|exact Hin|].
    unfold fixed_columns in Hy. injection Hy as Hyid _. congruence. }
  subst y. now rewrite <- Hy.
Qed.

Lemma check_loop_fixed_columns (env : App.Env) (yesterday : Z) (d : App.DB)
  (ms : list App.Meter.t) :
  App.wf d ->
  Forall (fun m => In m (App.meters d)) ms ->
  forall s : App.Session,
    map fixed_columns (App.meters (App.db s))
    = map fixed_columns (App.meters d) ->
    let s' := snd (App.check_loop env yesterday ms s) in
    map fixed_columns (App.meters (App.db s'))
    = map fixed_columns (App.meters d) /\
    App.users (App.db s') = App.users (App.db s).
Proof.
  intros Hwf. induction 1 as [|meter ms Hin _ IH]; intros s Hcols;
    cbn [App.check_loop]; [now split|].
  destruct (check_one_fixed_columns env yesterday d meter s Hwf Hin Hcols)
    as [H1 Hu1].
  destruct (App.check_one env yesterday meter s) as [r s1]. cbn [snd] in *.
  destruct (IH s1 H1) as [H2 Hu2].
  destruct (App.check_loop env yesterday ms s1) as [rs s2]. cbn [snd] in *.
  split; [exact H2|congruence].
Qed.

Lemma keys_unique_after_check_balances (env : App.Env)
  (telegram_user_id : Z) (d : App.DB) :
  App.wf d -> keys_unique d ->
  keys_unique (App.after (App.check_balances env telegram_user_id) d).
Proof.
  intros Hwf Hkeys. unfold App.after, App.check_balances.
  cbn [App.begin App.db].
  destruct (App.user_by_telegram_id telegram_user_id d) as [user|];
    [|exact Hkeys].
  destruct (App.meters_of user d) as [|m ms] eqn:Hms; [exact Hkeys|].
  cbn [App.now App.begin App.db App.pending App.committed App.clock_reads
       App.log].
  destruct (check_loop_fixed_columns env (App.utcnow env 0 - App.one_day) d
              (m :: ms) Hwf) with (s := App.mkSession d [] d 1 [])
    as [Hcols Husers].
  { rewrite <- Hms. apply Forall_forall. intros x Hx.
    unfold App.meters_of in Hx. now apply filter_In in Hx. }
  { reflexivity. }
  destruct (App.check_loop env (App.utcnow env 0 - App.one_day) (m :: ms)
                           (App.mkSession d [] d 1 [])) as [results s1].
  cbn [snd App.db] in Hcols, Husers.
  cbn [snd App.commit App.committed].
  destruct Hkeys as [Hids Htids Hpairs].
  constructor; rewrite ?flush_users, ?flush_meters, ?Husers; auto.
  apply (f_equal (map snd)) in Hcols. rewrite !map_map in Hcols.
  cbn [fixed_columns snd] in Hcols.
  change (map owner_and_number (App.meters (App.db s1))
          = map owner_and_number (App.meters d)) in Hcols.
  now rewrite Hcols.
Qed.

(** X8: in every database the application reaches, no two users have the
    same id or the same Telegram identity, and no two meters have the same
    owner and meter number. *)
Theorem reachable_keys_unique :
  forall (float_of_str : string -> option float) (d : App.DB),
    App.reachable float_of_str d ->
    NoDup (map App.User.id (App.users d)) /\
    NoDup (map App.User.telegram_user_id (App.users d)) /\
    NoDup (map owner_and_number (App.meters d)).
Proof.
  intros fos d Hreach.
  enough (Hkeys : keys_unique d) by (destruct Hkeys; auto).
  induction Hreach as [|env command tid d Hr IH|env tid number name d Hr IH
                       |env tid d Hr IH|env tid mid d Hr IH
                       |env tid mid v d Hr IH|env tid d Hr IH];
    try pose proof (reachable_wf fos d Hr) as Hwf.
  - constructor; constructor.
  - unfold App.after, App.telegram_webhook. run.
    destruct (String.eqb command "start"); run; [|exact IH].
    destruct (App.user_by_telegram_id tid d) eqn:Hu; run; [exact IH|].
    now apply keys_unique_insert_user.
  - unfold App.after, App.add_meter. run.
    destruct (App.truthy_int tid && App.truthy_str number
              && App.truthy_str name); run; [|exact IH].
    destruct (App.user_by_telegram_id tid d) as [user|] eqn:Hu; run.
    + destruct (App.meter_by_number _ _ d) eqn:Hdup; run; [exact IH|].
      destruct (App.scrape_nesco_balance env number); run; [|exact IH].
      apply keys_unique_insert_history.
      now apply keys_unique_insert_meter.
    + assert (H1 : keys_unique
                     (App.insert_user
                        (App.User.mk (App.users_seq d) tid true
                                     (App.utcnow env 0)) d))
        by now apply keys_unique_insert_user.
      destruct (App.meter_by_number _ _ _) eqn:Hdup; run; [exact H1|].
      destruct (App.scrape_nesco_balance env number); run; [|exact H1].
      apply (keys_unique_insert_history (App.insert_meter _ _)).
      now apply keys_unique_insert_meter.
  - now apply keys_unique_after_check_balances.
  - unfold App.after, App.remove_meter. run.
    destruct (App.user_by_telegram_id tid d) as [user|]; run; [|exact IH].
    destruct (App.meter_by_id mid (App.User.id user) d); run; [|exact IH].
    now apply keys_unique_delete_meter.
  - unfold App.after, App.set_min_balance. run.
    destruct (App.user_by_telegram_id tid d) as [user|]; run; [|exact IH].
    destruct (App.meter_by_id mid (App.User.id user) d) as [meter|] eqn:Hm;
      run; [|exact IH].
    destruct (Py.to_float fos v); run; [|exact IH].
    apply keys_unique_update_meter; [exact IH|].
    intros x Hx Hid. apply find_some in Hm as [Hin _].
    replace x with meter; [reflexivity|].
    apply (same_key_same_row App.Meter.id (App.meters d));
      [apply (App.wf_meters_pk d Hwf)|exact Hin|exact Hx|].
    now rewrite Hid.
  - unfold App.after, App.toggle_reminder. run.
    destruct (App.user_by_telegram_id tid d) as [user|] eqn:Hu; run.
    + apply keys_unique_update_user with (u := user); auto.
      now apply find_some in Hu.
    + now apply keys_unique_insert_user.
Qed.

Lemma reachable_keys_unique_witness :
  NoDup (map App.User.id (App.users Scenario.two_meters)) /\
  NoDup (map App.User.telegram_user_id (App.users Scenario.two_meters)) /\
  NoDup (map owner_and_number (App.meters Scenario.two_meters)).
Proof.
  exact (reachable_keys_unique Scenario.float_of_str Scenario.two_meters
           (App.reach_add_meter _ _ _ _ _ _
              (App.reach_add_meter _ _ _ _ _ _ (App.reach_empty _)))).
Defined.

(** *** The snapshot of a meter is its last reading *)

Lemma last_balance_of_app (meter_id : Z) (l l' : list (Z * float)) :
  last_balance_of meter_id (l ++ l')
  = match last_balance_of meter_id l' with
    | Some later => Some later
    | None => last_balance_of meter_id l
    end.
Proof.
  induction l as [|[mid b] l IH]; cbn [app last_balance_of].
  - now destruct (last_balance_of meter_id l').
  - rewrite IH. now destruct (last_balance_of meter_id l').
Qed.

Lemma last_balance_of_other_deleted (meter_id deleted : Z)
  (l : list App.BalanceHistory.t) :
  meter_id <> deleted ->
  last_balance_of meter_id
    (map (fun h => (App.BalanceHistory.meter_id h, App.BalanceHistory.balance h))
         (filter (fun h => negb (App.BalanceHistory.meter_id h =? deleted)) l))
  = last_balance_of meter_id
      (map (fun h => (App.BalanceHistory.meter_id h,
                      App.BalanceHistory.balance h)) l).
Proof.
  intros Hneq. induction l as [|h l IH]; [reflexivity|].
  cbn [filter map last_balance_of].
  destruct (Z.eqb_spec (App.BalanceHistory.meter_id h) deleted) as [Hd|Hd];
    cbn [negb map last_balance_of]; rewrite IH; [|reflexivity].
  replace (App.BalanceHistory.meter_id h =? meter_id) with false
    by (symmetry; apply Z.eqb_neq; congruence).
  clear IH. now destruct (last_balance_of meter_id _).
Qed.

(** Appending the first reading of a new meter. *)
Lemma snapshots_current_new_meter (rows : list App.Meter.t)
  (rs : list (Z * float)) (m : App.Meter.t) (balance : float) :
  snapshots_current rows rs ->
  Forall (fun x => App.Meter.id x <> App.Meter.id m) rows ->
  App.Meter.last_balance m = Some balance ->
  snapshots_current (rows ++ [m]) (rs ++ [(App.Meter.id m, balance)]).
Proof.
  intros Hcur Hfresh Hm x Hx. rewrite last_balance_of_app.
  cbn [last_balance_of]. apply in_app_or in Hx as [Hx|[<-|[]]].
  - rewrite Forall_forall in Hfresh. specialize (Hfresh x Hx).
    replace (App.Meter.id m =? App.Meter.id x) with false
      by (symmetry; apply Z.eqb_neq; congruence).
    now apply Hcur.
  - rewrite Z.eqb_refl. now exists balance.
Qed.

(** Updating the snapshot of a meter and appending the reading. *)
Lemma snapshots_current_refreshed (rows : list App.Meter.t)
  (rs : list (Z * float)) (m : App.Meter.t) (balance : float) :
  snapshots_current rows rs ->
  App.Meter.last_balance m = Some balance ->
  snapshots_current
    (map (fun x => if App.Meter.id x =? App.Meter.id m then m else x) rows)
    (rs ++ [(App.Meter.id m, balance)]).
Proof.
  intros Hcur Hm r Hr. apply in_map_iff in Hr as (x & Hr & Hx).
  rewrite last_balance_of_app. cbn [last_balance_of].
  destruct (Z.eqb_spec (App.Meter.id x) (App.Meter.id m)) as [Heq|Hneq];
    subst r.
  - rewrite Z.eqb_refl. now exists balance.
  - replace (App.Meter.id m =? App.Meter.id x) with false
      by (symmetry; apply Z.eqb_neq; congruence).
    now apply Hcur.
Qed.

(** Rewriting a row without touching its snapshot. *)
Lemma snapshots_current_retuned (rows : list App.Meter.t)
  (rs : list (Z * float)) (m m' : App.Meter.t) :
  snapshots_current rows rs ->
  In m rows ->
  App.Meter.id m' = App.Meter.id m ->
  App.Meter.last_balance m' = App.Meter.last_balance m ->
  snapshots_current
    (map (fun x => if App.Meter.id x =? App.Meter.id m' then m' else x) rows)
    rs.
Proof.
  intros Hcur Hin Hid Hlast r Hr. apply in_map_iff in Hr as (x & Hr & Hx).
  destruct (Z.eqb_spec (App.Meter.id x) (App.Meter.id m')); subst r.
  - rewrite Hid, Hlast. now apply Hcur.
  - now apply Hcur.
Qed.

Lemma check_one_snapshots (env : App.Env) (yesterday : Z)
  (meter : App.Meter.t) (s : App.Session) :
  snapshots_current (App.meters (App.db s))
                    (readings (App.db s) ++ App.pending s) ->
  let s' := snd (App.check_one env yesterday meter s) in
  snapshots_current (App.meters (App.db s'))
                    (readings (App.db s') ++ App.pending s').
Proof.
  intros Hcur s'. subst s'.
  pose proof (check_one_readings env yesterday meter s) as Hrs.
  cbv zeta in Hrs. rewrite Hrs. clear Hrs.
  unfold App.check_one, scraped. cbn [flat_map].
  destruct (App.scrape_nesco_balance env (App.Meter.meter_number meter))
    as [balance|error].
  - cbn [App.now snd App.add_history App.with_db App.db App.update_meter
         App.meters].
    rewrite flush_meters. cbn [App.record App.db]. rewrite app_nil_r.
    now apply (snapshots_current_refreshed
                 _ _ (App.Meter.set_snapshot balance _ meter) balance).
  - cbn [snd App.record App.db]. now rewrite !app_nil_r.
Qed.

Lemma check_loop_snapshots (env : App.Env) (yesterday : Z)
  (ms : list App.Meter.t) :
  forall s : App.Session,
    snapshots_current (App.meters (App.db s))
                      (readings (App.db s) ++ App.pending s) ->
    let s' := snd (App.check_loop env yesterday ms s) in
    snapshots_current (App.meters (App.db s'))
                      (readings (App.db s') ++ App.pending s').
Proof.
  induction ms as [|meter ms IH]; intros s Hcur; cbn [App.check_loop];
    [exact Hcur|].
  pose proof (check_one_snapshots env yesterday meter s Hcur) as H1.
  destruct (App.check_one env yesterday meter s) as [r s1].
  specialize (IH s1 H1).
  now destruct (App.check_loop env yesterday ms s1) as [rs s2].
Qed.

Lemma snapshots_after_check_balances (env : App.Env) (telegram_user_id : Z)
  (d : App.DB) :
  snapshots_current (App.meters d) (readings d) ->
  let d' := App.after (App.check_balances env telegram_user_id) d in
  snapshots_current (App.meters d') (readings d').
Proof.
  intros Hcur d'. subst d'.
  unfold App.after, App.check_balances. cbn [App.begin App.db].
  destruct (App.user_by_telegram_id telegram_user_id d) as [user|];
    [|exact Hcur].
  destruct (App.meters_of user d) as [|m ms]; [exact Hcur|].
  cbn [App.now App.begin App.db App.pending App.committed App.clock_reads
       App.log].
  pose proof (check_loop_snapshots env (App.utcnow env 0 - App.one_day)
                (m :: ms) (App.mkSession d [] d 1 [])) as Hloop.
  cbn [App.db App.pending] in Hloop. rewrite app_nil_r in Hloop.
  specialize (Hloop Hcur).
  destruct (App.check_loop env (App.utcnow env 0 - App.one_day) (m :: ms)
                           (App.mkSession d [] d 1 [])) as [results s1].
  cbn [snd] in Hloop. cbn [snd App.commit App.committed].
  rewrite flush_meters, flush_db, flush_rows_readings. exact Hloop.
Qed.

Lemma snapshots_after_add_meter (env : App.Env) (telegram_user_id : Z)
  (meter_number meter_name : string) (d : App.DB) :
  App.wf d ->
  snapshots_current (App.meters d) (readings d) ->
  let d' :=
    App.after (App.add_meter env telegram_user_id meter_number meter_name)
              d in
  snapshots_current (App.meters d') (readings d').
Proof.
  intros Hwf Hcur d'. subst d'.
  assert (Hfresh : forall m, App.Meter.id m = App.meters_seq d ->
             Forall (fun x => App.Meter.id x <> App.Meter.id m)
                    (App.meters d)).
  { intros m Hid. pose proof (App.wf_meters_seq d Hwf) as Hseq.
    eapply Forall_impl; [|exact Hseq]. cbn. intros; lia. }
  unfold App.after, App.add_meter. run.
  destruct (App.truthy_int telegram_user_id && App.truthy_str meter_number
            && App.truthy_str meter_name); run; [|exact Hcur].
  destruct (App.user_by_telegram_id telegram_user_id d); run.
  - destruct (App.meter_by_number _ _ d); run; [exact Hcur|].
    destruct (App.scrape_nesco_balance env meter_number) as [balance|]; run;
      [|exact Hcur].
    unfold readings. run. rewrite map_app.
    now apply (snapshots_current_new_meter _ _ (App.Meter.mk _ _ _ _ _ _ _ _));
      [|apply Hfresh|].
  - destruct (App.meter_by_number _ _ _); run; [exact Hcur|].
    destruct (App.scrape_nesco_balance env meter_number) as [balance|]; run;
      [|exact Hcur].
    unfold readings. run. rewrite map_app.
    now apply (snapshots_current_new_meter _ _ (App.Meter.mk _ _ _ _ _ _ _ _));
      [|apply Hfresh|].
Qed.

Lemma snapshots_after_remove_meter (env : App.Env)
  (telegram_user_id meter_id : Z) (d : App.DB) :
  snapshots_current (App.meters d) (readings d) ->
  let d' := App.after (App.remove_meter env telegram_user_id meter_id) d in
  snapshots_current (App.meters d') (readings d').
Proof.
  intros Hcur d'. subst d'. unfold App.after, App.remove_meter. run.
  destruct (App.user_by_telegram_id telegram_user_id d) as [user|]; run;
    [|exact Hcur].
  destruct (App.meter_by_id meter_id (App.User.id user) d) as [meter|]; run;
    [|exact Hcur].
  unfold App.delete_meter, readings. run.
  intros x Hx. apply filter_In in Hx as [Hx Hkeep].
  apply negb_true_iff, Z.eqb_neq in Hkeep.
  rewrite last_balance_of_other_deleted by exact Hkeep.
  now apply Hcur.
Qed.

Lemma snapshots_after_set_min_balance (float_of_str : string -> option float)
  (env : App.Env) (telegram_user_id meter_id : Z) (min_balance : Py.json)
  (d : App.DB) :
  snapshots_current (App.meters d) (readings d) ->
  let d' :=
    App.after (App.set_min_balance float_of_str env telegram_user_id
                                   meter_id min_balance) d in
  snapshots_current (App.meters d') (readings d').
Proof.
  intros Hcur d'. subst d'. unfold App.after, App.set_min_balance. run.
  destruct (App.user_by_telegram_id telegram_user_id d) as [user|]; run;
    [|exact Hcur].
  destruct (App.meter_by_id meter_id (App.User.id user) d) as [meter|] eqn:Hm;
    run; [|exact Hcur].
  destruct (Py.to_float float_of_str min_balance); run; [|exact Hcur].
  unfold App.update_meter, readings. run.
  apply find_some in Hm as [Hin _].
  now apply snapshots_current_retuned with (m := meter).
Qed.

(** X9: in every database the application reaches, every meter has a
    last balance, and it is the balance of the last reading stored for that
    meter; in particular every meter has at least one reading. *)
Theorem snapshot_is_last_reading :
  forall (float_of_str : string -> option float) (d : App.DB),
    App.reachable float_of_str d ->
    forall m, In m (App.meters d) ->
      exists balance,
        App.Meter.last_balance m = Some balance /\
        last_balance_of (App.Meter.id m) (readings d) = Some balance.
Proof.
  intros fos d Hreach.
  change (snapshots_current (App.meters d) (readings d)).
  induction Hreach as [|env command tid d Hr IH|env tid number name d Hr IH
                       |env tid d Hr IH|env tid mid d Hr IH
                       |env tid mid v d Hr IH|env tid d Hr IH].
  - intros m [].
  - unfold App.after, App.telegram_webhook. run.
    destruct (String.eqb command "start"); run; [|exact IH].
    now destruct (App.user_by_telegram_id tid d).
  - apply snapshots_after_add_meter; [|exact IH].
    now apply reachable_wf with fos.
  - now apply snapshots_after_check_balances.
  - now apply snapshots_after_remove_meter.
  - now apply snapshots_after_set_min_balance.
  - unfold App.after, App.toggle_reminder. run.
    now destruct (App.user_by_telegram_id tid d).
Qed.

Lemma snapshot_is_last_reading_witness :
  let d :=
    App.after (App.check_balances
                 (Scenario.home_only (Scenario.t0 + Scenario.hour)) 42)
              Scenario.two_meters in
  Forall (fun m => exists balance,
              App.Meter.last_balance m = Some balance /\
              last_balance_of (App.Meter.id m) (readings d) = Some balance)
         (App.meters d).
Proof.
  intros d. apply Forall_forall.
  apply (snapshot_is_last_reading Scenario.float_of_str d).
  exact (App.reach_check_balances _ _ _ _
           (App.reach_add_meter _ _ _ _ _ _
              (App.reach_add_meter _ _ _ _ _ _ (App.reach_empty _)))).
Defined.

(** *** The daily reminder *)

Lemma count_loop (d : App.DB) (l : list App.User.t) :
  forall n : nat,
    fold_left (fun sent user => match App.meters_of user d with
                                | [] => sent
                                | _ => S sent
                                end) l n
    = (n + List.length
             (filter (fun u => match App.meters_of u d with
                               | [] => false
                               | _ => true
                               end) l))%nat.
Proof.
  induction l as [|x l IH]; intros n; cbn [fold_left filter].
  - now rewrite Nat.add_0_r.
  - rewrite IH. destruct (App.meters_of x d); cbn [List.length]; lia.
Qed.

Lemma daily_reminder_counts (d : App.DB) :
  App.daily_reminder (App.begin d)
  = (List.length (filter (reminded d) (App.users d)), App.begin d).
Proof.
  unfold App.daily_reminder. cbn [App.begin App.db]. f_equal.
  rewrite count_loop. cbn [Nat.add].
  induction (App.users d) as [|u l IH]; [reflexivity|].
  cbn [filter]. unfold reminded at 1.
  destruct (App.User.daily_reminder_enabled u); cbn [andb].
  - cbn [filter]. destruct (App.meters_of u d); cbn [List.length]; auto.
  - exact IH.
Qed.

(** An UPDATE of the only row with this id rewrites that row alone. *)
Lemma update_one_row {A : Type} (key : A -> Z) (a a' : A) (l : list A) :
  NoDup (map key l) -> In a l -> key a' = key a ->
  exists before behind,
    l = (before ++ a :: behind)%list /\
    map (fun x => if key x =? key a' then a' else x) l
    = (before ++ a' :: behind)%list.
Proof.
  intros Hnd Hin Hkey. apply in_split in Hin as (before & behind & ->).
  exists before, behind. split; [reflexivity|].
  rewrite map_app. cbn [map]. rewrite Hkey, Z.eqb_refl.
  rewrite map_app in Hnd. cbn [map] in Hnd.
  apply NoDup_remove_2 in Hnd.
  assert (Hsame : forall part, (forall x, In x part ->
                                  In (key x) (map key before ++ map key behind))
                  -> map (fun x => if key x =? key a then a' else x) part
                     = part).
  { intros part Hpart. rewrite <- (map_id part) at 2.
    apply map_ext_in. intros x Hx.
    destruct (Z.eqb_spec (key x) (key a)) as [Heq|]; [|reflexivity].
    exfalso. apply Hnd. rewrite <- Heq. now apply Hpart. }
  rewrite !Hsame; [reflexivity| |].
  - intros x Hx. apply in_or_app. right. now apply in_map.
  - intros x Hx. apply in_or_app. left. now apply in_map.
Qed.

(** X10: /api/daily-reminder changes nothing and counts the users with
    reminders enabled and at least one meter.  For a user who has a meter,
    one /api/toggle-reminder moves that count by exactly one: down when the
    reminder was enabled, up when it was disabled; for a user without a
    meter the count stays. *)
Theorem toggle_reminder_moves_reminder_count :
  forall (env : App.Env) (telegram_user_id : Z) (d : App.DB)
         (user : App.User.t),
    NoDup (map App.User.id (App.users d)) ->
    App.user_by_telegram_id telegram_user_id d = Some user ->
    let d' := App.after (App.toggle_reminder env telegram_user_id) d in
    let sent := fst (App.daily_reminder (App.begin d)) in
    let sent' := fst (App.daily_reminder (App.begin d')) in
    snd (App.daily_reminder (App.begin d)) = App.begin d /\
    match App.meters_of user d with
    | [] => sent' = sent
    | _ => if App.User.daily_reminder_enabled user
           then sent = S sent'
           else sent' = S sent
    end.
Proof.
  intros env tid d user Hnd Hu d' sent sent'. subst sent sent'.
  rewrite !daily_reminder_counts. cbn [fst snd]. split; [reflexivity|].
  set (user' := App.User.set_daily_reminder_enabled
                  (negb (App.User.daily_reminder_enabled user)) user).
  assert (Hd' : d' = App.update_user user' d).
  { subst d'. unfold App.after.
    now rewrite (toggle_reminder_known_user env tid d user Hu). }
  assert (Hsame : forall u, reminded d' u = reminded d u).
  { intros u. rewrite Hd'. reflexivity. }
  rewrite (filter_ext _ _ Hsame).
  pose proof Hu as Hin. unfold App.user_by_telegram_id in Hin.
  apply find_some in Hin as [Hin _].
  destruct (update_one_row App.User.id user user' (App.users d) Hnd Hin
                           eq_refl) as (before & behind & Hl & Hl').
  rewrite Hd'. unfold App.update_user. cbn [App.users].
  rewrite Hl', Hl. rewrite !filter_app, !length_app. cbn [filter].
  assert (Hr : reminded d user
               = App.User.daily_reminder_enabled user
                 && match App.meters_of user d with
                    | [] => false
                    | _ => true
                    end) by reflexivity.
  assert (Hr' : reminded d user'
                = negb (App.User.daily_reminder_enabled user)
                  && match App.meters_of user d with
                     | [] => false
                     | _ => true
                     end) by reflexivity.
  rewrite Hr, Hr'.
  destruct (App.meters_of user d);
    destruct (App.User.daily_reminder_enabled user);
    cbn [negb andb List.length]; lia.
Qed.

Lemma toggle_reminder_moves_reminder_count_witness :
  let env := Scenario.answering 95 (Scenario.t0 + Scenario.hour) in
  let d' := App.after (App.toggle_reminder env 42) Scenario.registered in
  fst (App.daily_reminder (App.begin Scenario.registered))
  = S (fst (App.daily_reminder (App.begin d'))).
Proof.
  intros env d'.
  refine (proj2 (toggle_reminder_moves_reminder_count
                   env 42 Scenario.registered
                   (App.User.mk 1 42 true Scenario.t0) _ eq_refl)).
  repeat constructor. intros [].
Defined.

(* ================================================================== *)
(** ** Properties of the dialogue against the backend *)

(** *** The keyboard of the Set-Minimum dialogue *)

Lemma digit_val_of_digit (r : Z) :
  0 <= r < 10 ->
  Py.digit_val (ascii_of_N (Z.to_N (48 + r))) = Some r.
Proof.
  intros Hr.
  assert (H : r = 0 \/ r = 1 \/ r = 2 \/ r = 3 \/ r = 4 \/ r = 5 \/ r = 6
              \/ r = 7 \/ r = 8 \/ r = 9) by lia.
  repeat (destruct H as [->|H]; [reflexivity|]). now subst.
Qed.

(** Reading back the digits written for [n]: [int] continues from the value
    it has so far, shifted by the number of digits. *)
Lemma int_digits_digits (fuel : nat) :
  forall (n : Z) (rest : string),
    0 <= n < 10 ^ Z.of_nat fuel -> (0 < fuel)%nat ->
    exists k, 0 <= k /\
      forall acc prev,
        Py.int_digits acc prev (Keyboard.digits fuel n rest)
        = Py.int_digits (acc * 10 ^ k + n) true rest.
Proof.
  induction fuel as [|fuel IH]; intros n rest Hn Hfuel; [lia|].
  cbn [Keyboard.digits].
  assert (Hmod : 0 <= n mod 10 < 10) by (apply Z.mod_pos_bound; lia).
  destruct (n <? 10) eqn:Hlt.
  - apply Z.ltb_lt in Hlt. exists 1. split; [lia|]. intros acc prev.
    cbn [Py.int_digits]. rewrite (digit_val_of_digit _ Hmod).
    rewrite Z.mod_small by lia. f_equal. lia.
  - apply Z.ltb_ge in Hlt.
    assert (Hpow : 10 ^ Z.of_nat (S fuel) = 10 * 10 ^ Z.of_nat fuel).
    { rewrite Nat2Z.inj_succ, Z.pow_succ_r by lia. reflexivity. }
    assert (Hfuel' : (0 < fuel)%nat).
    { destruct fuel; [|lia]. cbn in Hn. lia. }
    destruct (IH (n / 10)
                 (String (ascii_of_N (Z.to_N (48 + n mod 10))) rest))
      as (k & Hk & Hread); [|exact Hfuel'|].
    { split; [apply Z.div_pos; lia|].
      apply Z.div_lt_upper_bound; lia. }
    exists (k + 1). split; [lia|]. intros acc prev.
    rewrite Hread. cbn [Py.int_digits].
    rewrite (digit_val_of_digit _ Hmod). f_equal.
    rewrite Z.pow_add_r by lia.
    pose proof (Z.div_mod n 10 ltac:(lia)). lia.
Qed.

Lemma digits_decimal (fuel : nat) :
  forall (n : Z) (acc : string),
    0 <= n ->
    Py.all_chars decimal_char acc = true ->
    Py.all_chars decimal_char (Keyboard.digits fuel n acc) = true.
Proof.
  induction fuel as [|fuel IH]; intros n acc Hn Hacc; [exact Hacc|].
  cbn [Keyboard.digits].
  assert (Hmod : 0 <= n mod 10 < 10) by (apply Z.mod_pos_bound; lia).
  assert (Hacc' : Py.all_chars decimal_char
                    (String (ascii_of_N (Z.to_N (48 + n mod 10))) acc) = true).
  { cbn [Py.all_chars]. unfold decimal_char at 1.
    now rewrite (digit_val_of_digit _ Hmod). }
  destruct (n <? 10); [exact Hacc'|].
  apply IH; [apply Z.div_pos; lia|exact Hacc'].
Qed.

Lemma digits_not_empty (fuel : nat) (n : Z) (acc : string) :
  (0 < fuel)%nat -> Keyboard.digits fuel n acc <> "".
Proof.
  revert n acc. induction fuel as [|fuel IH]; intros n acc Hfuel; [lia|].
  cbn [Keyboard.digits]. destruct (n <? 10); [discriminate|].
  destruct fuel; [cbn; discriminate|]. apply IH. lia.
Qed.

Lemma decimal_char_plain (c : ascii) :
  decimal_char c = true ->
  Py.int_space c = false /\ Ascii.eqb c "." = false /\
  Ascii.eqb c "+" = false /\ Ascii.eqb c "-" = false /\
  Ascii.eqb c "C" = false.
Proof.
  destruct c as [[] [] [] [] [] [] [] []]; vm_compute; intros H;
    try discriminate H; repeat split.
Qed.

Lemma rstrip_decimal (s : string) :
  Py.all_chars decimal_char s = true ->
  Py.rstrip_with Py.int_space s = s.
Proof.
  induction s as [|c s IH]; cbn [Py.rstrip_with Py.all_chars];
    [reflexivity|].
  intros H. apply andb_prop in H as [Hc Hs].
  rewrite (IH Hs). destruct s; [|reflexivity].
  now rewrite (proj1 (decimal_char_plain c Hc)).
Qed.

(** [int] of a non-empty string of the digits 0 to 9 reads the digits. *)
Lemma int_of_decimal (s : string) :
  s <> "" -> Py.all_chars decimal_char s = true ->
  Py.int s = match Py.int_digits 0 false s with
             | Some n => Py.Ret n
             | None => Py.Raise Py.ValueError
             end.
Proof.
  intros Hs Hall. destruct s as [|c s]; [congruence|].
  pose proof Hall as Hall'. cbn [Py.all_chars] in Hall'.
  apply andb_prop in Hall' as [Hc _].
  destruct (decimal_char_plain c Hc) as (Hsp & _ & Hplus & Hminus & _).
  unfold Py.int. cbn [Py.lstrip_with]. rewrite Hsp.
  rewrite (rstrip_decimal _ Hall).
  destruct c as [[] [] [] [] [] [] [] []];
    try reflexivity; vm_compute in Hplus, Hminus; discriminate.
Qed.

Lemma log2_bound (n : Z) :
  0 <= n -> n < 10 ^ Z.of_nat (S (Z.to_nat (Z.log2 n))).
Proof.
  intros Hn. pose proof (Z.log2_nonneg n) as Hlog.
  rewrite Nat2Z.inj_succ, Z2Nat.id by lia.
  destruct (Z.eq_dec n 0) as [->|Hnz]; [cbn; lia|].
  pose proof (Z.log2_spec n ltac:(lia)) as [_ Hup].
  apply Z.lt_le_trans with (1 := Hup).
  apply Z.pow_le_mono_l. lia.
Qed.

(** Round trip: [int(f"{i}")] is [i], for [i] not negative. *)
Lemma int_str_of_int (i : Z) :
  0 <= i -> Py.int (Keyboard.str_of_int i) = Py.Ret i.
Proof.
  intros Hi. unfold Keyboard.str_of_int.
  replace (i <? 0) with false by (symmetry; apply Z.ltb_ge; lia).
  rewrite int_of_decimal.
  - destruct (int_digits_digits _ i "" (conj Hi (log2_bound i Hi))
                ltac:(lia)) as (k & _ & Hread).
    rewrite Hread. cbn [Py.int_digits]. now rewrite Z.mul_0_l.
  - apply digits_not_empty. lia.
  - now apply digits_decimal.
Qed.

Lemma split_dot_head_decimal (s rest : string) :
  Py.all_chars decimal_char s = true ->
  Py.split_dot_head (s ++ String "." rest) = s.
Proof.
  induction s as [|c s IH]; cbn [append Py.split_dot_head Py.all_chars];
    [reflexivity|].
  intros H. apply andb_prop in H as [Hc Hs].
  destruct (decimal_char_plain c Hc) as (_ & Hdot & _).
  rewrite Hdot. now rewrite (IH Hs).
Qed.

Lemma nth_error_enumerate_from {A B : Type} (f : Z -> A -> B) (l : list A) :
  forall (start : Z) (k : nat),
    nth_error (Keyboard.enumerate_from f start l) k
    = option_map (f (start + Z.of_nat k)) (nth_error l k).
Proof.
  induction l as [|a l IH]; intros start k.
  - now destruct k.
  - destruct k as [|k]; cbn [Keyboard.enumerate_from nth_error option_map].
    + now rewrite Z.add_0_r.
    + rewrite IH. do 2 f_equal. lia.
Qed.

Lemma length_enumerate_from {A B : Type} (f : Z -> A -> B) (l : list A) :
  forall start, List.length (Keyboard.enumerate_from f start l)
                = List.length l.
Proof.
  induction l as [|a l IH]; intros start; cbn; [reflexivity|].
  now rewrite IH.
Qed.

Lemma index_in_range {A : Type} (l : list A) (k : nat) (a : A) :
  nth_error l k = Some a -> Py.index l (Z.of_nat k) = Py.Ret a.
Proof.
  intros Hk. unfold Py.index.
  assert (Hlen : (k < List.length l)%nat).
  { apply nth_error_Some. congruence. }
  replace (Z.of_nat k <? 0) with false by (symmetry; apply Z.ltb_ge; lia).
  replace (Z.of_nat k <? 0) with false by (symmetry; apply Z.ltb_ge; lia).
  replace (Z.of_nat (List.length l) <=? Z.of_nat k) with false
    by (symmetry; apply Z.leb_gt; lia).
  cbn [orb]. now rewrite Nat2Z.id, Hk.
Qed.

(** A button of a numbered keyboard, read back by the handler of the
    answer: the label of button [k] (from 0) selects entry [k]. *)
Lemma numbered_label_selects (meters : list App.meter_info) (k : nat)
  (meter : App.meter_info) (rest : string) (ud : Bot.user_data) :
  Bot.minbalance_meters ud = Some meters ->
  nth_error meters k = Some meter ->
  Bot.chosen_meter (Keyboard.str_of_int (1 + Z.of_nat k) ++ String "." rest)
                   ud
  = Py.Ret meter.
Proof.
  intros Hud Hk. unfold Bot.chosen_meter.
  assert (Hdec : Py.all_chars decimal_char
                   (Keyboard.str_of_int (1 + Z.of_nat k)) = true).
  { unfold Keyboard.str_of_int.
    replace (1 + Z.of_nat k <? 0) with false
      by (symmetry; apply Z.ltb_ge; lia).
    apply digits_decimal; [lia|reflexivity]. }
  rewrite (split_dot_head_decimal _ rest Hdec).
  rewrite int_str_of_int by lia. rewrite Hud.
  replace (1 + Z.of_nat k - 1) with (Z.of_nat k) by lia.
  now apply index_in_range.
Qed.

Lemma numbered_label_is_not_cancel (i : Z) (rest : string) :
  0 <= i -> String.eqb (Keyboard.str_of_int i ++ rest) "Cancel" = false.
Proof.
  intros Hi. unfold Keyboard.str_of_int.
  replace (i <? 0) with false by (symmetry; apply Z.ltb_ge; lia).
  pose proof (digits_not_empty (S (Z.to_nat (Z.log2 i))) i "" ltac:(lia))
    as Hne.
  pose proof (digits_decimal (S (Z.to_nat (Z.log2 i))) i "" Hi eq_refl)
    as Hdec.
  destruct (Keyboard.digits _ _ _) as [|c s]; [congruence|].
  cbn [Py.all_chars] in Hdec. apply andb_prop in Hdec as [Hc _].
  destruct (decimal_char_plain c Hc) as (_ & _ & _ & _ & HC).
  cbn [append String.eqb]. now rewrite HC.
Qed.

(** The handler of the answer, on the label of button [k] (from 0). *)
Lemma minbalance_label_selects (meters : list App.meter_info) (k : nat)
  (meter : App.meter_info) (ud : Bot.user_data) :
  Bot.minbalance_meters ud = Some meters ->
  nth_error meters k = Some meter ->
  nth_error (Keyboard.minbalance_keyboard meters) k
  = Some (Keyboard.str_of_int (1 + Z.of_nat k) ++ ". "
          ++ App.info_name meter) /\
  Bot.minbalance_meter_selected
    (Keyboard.str_of_int (1 + Z.of_nat k) ++ ". " ++ App.info_name meter) ud
  = (Bot.Next Bot.SET_MIN_AMOUNT, [Bot.AskAmount (App.info_name meter)],
     Bot.set_selected_meter meter ud).
Proof.
  intros Hud Hk. split.
  - unfold Keyboard.minbalance_keyboard.
    rewrite nth_error_app1
      by (rewrite length_enumerate_from; apply nth_error_Some; congruence).
    rewrite nth_error_enumerate_from, Hk. reflexivity.
  - unfold Bot.minbalance_meter_selected.
    rewrite numbered_label_is_not_cancel by lia.
    change (". " ++ App.info_name meter)
      with (String "." (" " ++ App.info_name meter)).
    now rewrite (numbered_label_selects meters k meter _ ud Hud Hk).
Qed.



(** *** The Set-Minimum dialogue, from the command to the database *)

(** X12: the Set-Minimum dialogue against the backend.  For a user with
    meters, /minbalance shows the keyboard and changes nothing; pressing
    the button of the user's meter number [k] and then sending a text that
    [float] reads as a finite [amount] ends the conversation with the
    backend's confirmation, clears the dialogue's data, and leaves the
    database with that meter's threshold set to [amount]: the row found
    for the meter afterwards has [amount] as [min_balance] and its other
    columns as before, and the other meters, the users, the readings and
    the sequences are as before. *)
Theorem minbalance_dialogue_sets_threshold :
  forall (float_of_str : string -> option float) (env1 env2 : App.Env)
         (user_id : Z) (text : string) (ud : Bot.user_data) (d : App.DB)
         (user : App.User.t) (k : nat) (meter : App.Meter.t)
         (amount : float),
    App.wf d ->
    App.user_by_telegram_id user_id d = Some user ->
    nth_error (App.meters_of user d) k = Some meter ->
    float_of_str text = Some amount ->
    PrimFloat.is_finite amount = true ->
    let stored :=
      App.Meter.mk (App.Meter.id meter) (App.Meter.user_id meter)
                   (App.Meter.meter_number meter) (App.Meter.meter_name meter)
                   amount (App.Meter.last_balance meter)
                   (App.Meter.last_checked meter)
                   (App.Meter.created_at meter) in
    exists infos label ud2 d3,
      Bot.minbalance_start (Bot.http_backend float_of_str env1) user_id ud d
      = (Bot.Next Bot.SET_MIN_METER,
         [Bot.SelectMeter (map App.info_name infos)],
         Bot.set_minbalance_meters infos ud, d) /\
      nth_error (Keyboard.minbalance_keyboard infos) k = Some label /\
      Bot.minbalance_meter_selected label
                                    (Bot.set_minbalance_meters infos ud)
      = (Bot.Next Bot.SET_MIN_AMOUNT,
         [Bot.AskAmount (App.Meter.meter_name meter)], ud2) /\
      Bot.minbalance_amount (Bot.http_backend float_of_str env2)
                            float_of_str user_id text ud2 d
      = (Bot.Next Bot.END,
         [Bot.BackendMessage
            (App.MinBalanceSet (Py.JFloat amount)
                               (App.Meter.meter_name meter))],
         Bot.cleared, d3) /\
      App.meter_by_id (App.Meter.id meter) (App.User.id user) d3
      = Some stored /\
      option_map App.Meter.min_balance
                 (App.meter_by_id (App.Meter.id meter) (App.User.id user) d3)
      = Some amount /\
      App.meters d3
      = map (fun m => if App.Meter.id m =? App.Meter.id meter
                      then stored else m)
            (App.meters d) /\
      App.users d3 = App.users d /\
      App.balance_history d3 = App.balance_history d /\
      (App.users_seq d3, App.meters_seq d3, App.balance_history_seq d3)
      = (App.users_seq d, App.meters_seq d, App.balance_history_seq d).
Proof.
  intros float_of_str env1 env2 user_id text ud d user k meter amount
         Hwf Huser Hk Hamount _ stored.
  set (info_of := fun m : App.Meter.t =>
         App.mkInfo (App.Meter.id m) (App.Meter.meter_name m)
                    (App.Meter.meter_number m) (App.Meter.min_balance m)
                    (App.Meter.last_balance m) (App.Meter.last_checked m)).
  set (infos := map info_of (App.meters_of user d)).
  assert (Hinfo : nth_error infos k = Some (info_of meter)).
  { unfold infos. now rewrite nth_error_map, Hk. }
  assert (Hown : App.meter_by_id (App.Meter.id meter) (App.User.id user) d
                 = Some meter).
  { apply own_meter_found; [exact Hwf|]. now apply nth_error_In with k. }
  destruct (minbalance_label_selects infos k (info_of meter)
              (Bot.set_minbalance_meters infos ud) eq_refl Hinfo)
    as [Hlabel Hselected].
  assert (Hstored : App.meter_by_id (App.Meter.id meter) (App.User.id user)
                      (App.update_meter stored d) = Some stored)
    by now apply meter_found_after_update with (m := meter).
  exists infos. eexists. eexists. exists (App.update_meter stored d).
  split; [|split; [exact Hlabel|split; [exact Hselected|split]]].
  - unfold Bot.minbalance_start, Bot.http_backend, App.serve,
      App.list_meters.
    cbn [App.begin App.db]. rewrite Huser.
    cbn [App.committed App.log Bot.success Bot.meters_of_result].
    fold info_of. fold infos.
    destruct infos as [|i0 infos']; [now destruct k|reflexivity].
  - unfold Bot.minbalance_amount. rewrite Hamount.
    cbn [Bot.set_selected_meter Bot.selected_meter].
    unfold Bot.http_backend, App.serve, App.set_min_balance.
    cbn [App.begin App.db App.info_id info_of]. rewrite Huser, Hown.
    cbn [Py.to_float]. run. reflexivity.
  - rewrite Hstored. repeat split.
Qed.

Lemma minbalance_dialogue_sets_threshold_witness :
  let env := Scenario.answering 95 (Scenario.t0 + Scenario.hour) in
  let call := Bot.http_backend Scenario.float_of_str env in
  let shop :=
    App.Meter.mk 2 1 "31041051784" "Shop" 50 (Some 80%float)
                 (Some (Scenario.t0 + 10)) (Scenario.t0 + 11) in
  App.wf Scenario.two_meters /\
  nth_error (App.meters_of (App.User.mk 1 42 true Scenario.t0)
                           Scenario.two_meters) 1 = Some shop /\
  exists infos label ud2 d3,
    Bot.minbalance_start call 42 Bot.cleared Scenario.two_meters
    = (Bot.Next Bot.SET_MIN_METER,
       [Bot.SelectMeter (map App.info_name infos)],
       Bot.set_minbalance_meters infos Bot.cleared, Scenario.two_meters) /\
    nth_error (Keyboard.minbalance_keyboard infos) 1 = Some label /\
    Bot.minbalance_meter_selected label
      (Bot.set_minbalance_meters infos Bot.cleared)
    = (Bot.Next Bot.SET_MIN_AMOUNT, [Bot.AskAmount "Shop"], ud2) /\
    Bot.minbalance_amount call Scenario.float_of_str 42 "75.5" ud2
                          Scenario.two_meters
    = (Bot.Next Bot.END,
       [Bot.BackendMessage (App.MinBalanceSet (Py.JFloat 75.5) "Shop")],
       Bot.cleared, d3) /\
    option_map App.Meter.min_balance (App.meter_by_id 2 1 d3)
    = Some 75.5%float /\
    map App.Meter.min_balance (App.meters d3) = [50%float; 75.5%float].
Proof.
  intros env call shop.
  split; [exact wf_two_meters|]. split; [vm_compute; reflexivity|].
  destruct (minbalance_dialogue_sets_threshold
              Scenario.float_of_str env env 42 "75.5" Bot.cleared
              Scenario.two_meters (App.User.mk 1 42 true Scenario.t0) 1%nat
              shop 75.5 wf_two_meters eq_refl eq_refl eq_refl eq_refl)
    as (infos & label & ud2 & d3 & Hstart & Hlabel & Hselected & Hamount
        & _ & Hmin & Hmeters & _).
  exists infos, label, ud2, d3.
  split; [exact Hstart|]. split; [exact Hlabel|]. split; [exact Hselected|].
  split; [exact Hamount|]. split; [exact Hmin|].
  rewrite Hmeters. vm_compute. reflexivity.
Defined.

(** *** The Add-Meter dialogue, from the texts to the database *)

(** /api/add-meter answers with a message or with an error, and commits at
    most one new meter, which carries the number and the name of the
    request. *)
Lemma add_meter_commits_at_most_one_meter (env : App.Env)
  (telegram_user_id : Z) (meter_number meter_name : string) (d : App.DB) :
  let request := App.add_meter env telegram_user_id meter_number meter_name in
  ((exists m, App.answer request d = App.Success m) \/
   (exists status error, App.answer request d = App.Failure status error)) /\
  forall m, In m (App.meters (App.after request d)) ->
            In m (App.meters d) \/
            (App.Meter.meter_number m = meter_number /\
             App.Meter.meter_name m = meter_name).
Proof.
  cbv zeta. unfold App.answer, App.after, App.add_meter.
  destruct (negb _).
  { split; [right; do 2 eexists; reflexivity|]. intros m Hm. now left. }
  destruct (App.user_by_telegram_id telegram_user_id
              (App.db (App.begin d))) as [user|]; run.
  - destruct (App.meter_by_number _ _ _).
    { split; [right; do 2 eexists; reflexivity|]. intros m Hm. now left. }
    destruct (App.scrape_nesco_balance env meter_number); run.
    + split; [left; eexists; reflexivity|]. intros m Hm.
      apply in_app_or in Hm as [Hm|[<-|[]]]; [now left|right].
      split; reflexivity.
    + split; [right; do 2 eexists; reflexivity|]. intros m Hm. now left.
  - destruct (App.meter_by_number _ _ _).
    { split; [right; do 2 eexists; reflexivity|]. intros m Hm. now left. }
    destruct (App.scrape_nesco_balance env meter_number); run.
    + split; [left; eexists; reflexivity|]. intros m Hm.
      apply in_app_or in Hm as [Hm|[<-|[]]]; [now left|right].
      split; reflexivity.
    + split; [right; do 2 eexists; reflexivity|]. intros m Hm. now left.
Qed.

(** X13: the Add-Meter dialogue against the backend.  When the first text,
    stripped, is all digits, the dialogue asks for the name, sends the
    stripped number and the stripped second text to /api/add-meter, and,
    whatever the backend answers, replies with its message or its error,
    clears the dialogue's data and ends.  Every meter of the database
    afterwards was there before or has that all-digit number and that
    name. *)
Theorem add_dialogue_registers_what_was_typed :
  forall (float_of_str : string -> option float) (env : App.Env)
         (user_id : Z) (text1 text2 : string) (ud : Bot.user_data)
         (d : App.DB),
    Py.isdigit (Py.strip text1) = true ->
    let number := Py.strip text1 in
    let name := Py.strip text2 in
    let request := App.add_meter env user_id number name in
    exists reply,
      Bot.add_meter_number text1 ud
      = (Bot.Next Bot.ADD_METER_NAME, [Bot.AskMeterName],
         Bot.set_meter_number number ud) /\
      Bot.add_meter_name (Bot.http_backend float_of_str env) user_id text2
                         (Bot.set_meter_number number ud) d
      = (Bot.Next Bot.END, [Bot.Verifying; reply], Bot.cleared,
         App.after request d) /\
      (reply = match App.answer request d with
               | App.Success m => Bot.BackendMessage m
               | App.Failure _ error => Bot.BackendError (Some error)
               | _ => Bot.BackendError None
               end) /\
      forall m, In m (App.meters (App.after request d)) ->
                In m (App.meters d) \/
                (Py.isdigit (App.Meter.meter_number m) = true /\
                 App.Meter.meter_number m = number /\
                 App.Meter.meter_name m = name).
Proof.
  intros float_of_str env user_id text1 text2 ud d Hdigits number name
         request.
  destruct (add_meter_commits_at_most_one_meter env user_id number name d)
    as [Hanswer Hmeters].
  fold request in Hanswer, Hmeters.
  eexists. split; [|split; [|split; [reflexivity|]]].
  - unfold Bot.add_meter_number, number. now rewrite Hdigits.
  - unfold Bot.add_meter_name. cbn [Bot.set_meter_number Bot.meter_number].
    fold name. unfold Bot.http_backend, App.serve.
    fold request. clear Hmeters. unfold App.answer in *. unfold App.after.
    destruct (request (App.begin d)) as [r s]. cbn [fst snd] in *.
    destruct Hanswer as [[m ->]|(status & error & ->)]; reflexivity.
  - intros m Hm. destruct (Hmeters m Hm) as [Hold|[Hnumber Hname]].
    + now left.
    + right. split; [rewrite Hnumber; exact Hdigits|]. now split.
Qed.

Lemma add_dialogue_registers_what_was_typed_witness :
  let env := Scenario.answering 95 (Scenario.t0 + Scenario.hour) in
  Py.isdigit (Py.strip " 31041051784 ") = true /\
  exists reply,
    Bot.add_meter_name (Bot.http_backend Scenario.float_of_str env) 42
                       " Shop " (Bot.set_meter_number "31041051784"
                                                      Bot.cleared)
                       Scenario.registered
    = (Bot.Next Bot.END, [Bot.Verifying; reply], Bot.cleared,
       App.after (App.add_meter env 42 "31041051784" "Shop")
                 Scenario.registered).
Proof.
  intros env. split; [reflexivity|].
  destruct (add_dialogue_registers_what_was_typed
              Scenario.float_of_str env 42 " 31041051784 " " Shop "
              Bot.cleared Scenario.registered eq_refl)
    as (reply & _ & Hname & _).
  exists reply. exact Hname.
Defined.

(** *** The Remove dialogue, from the command to the database *)

(** X14: the Remove dialogue against the backend.  For a user with meters,
    /remove shows one button per meter and then [Cancel], and changes
    nothing; the handler of the answer, given the label of the button of
    the user's meter number [k], whatever the names and numbers of the
    meters, has the backend delete exactly that meter and its readings, and
    replies with the backend's confirmation: the meters left are those with
    another id, the readings left are those of other meters, the users are
    as before and the meter can no longer be looked up; given [Cancel] it
    deletes nothing. *)
Theorem remove_dialogue_deletes_chosen_meter :
  forall (env : App.Env) (user_id : Z) (ud : Bot.user_data) (d : App.DB)
         (user : App.User.t) (k : nat) (meter : App.Meter.t),
    App.wf d ->
    App.user_by_telegram_id user_id d = Some user ->
    nth_error (App.meters_of user d) k = Some meter ->
    exists infos label d',
      Removal.remove_meter_start Removal.http_list_meters user_id ud d
      = ([Removal.SelectMeterToRemove (Removal.remove_keyboard infos)],
         Removal.set_remove_meters infos ud, d) /\
      List.length (Removal.remove_keyboard infos)
      = S (List.length (App.meters_of user d)) /\
      nth_error (Removal.remove_keyboard infos) k = Some label /\
      Removal.remove_meter_confirm (Removal.http_remove_meter env) user_id
                                   label (Removal.set_remove_meters infos ud)
                                   d
      = ([Removal.Said
            (Bot.BackendMessage
               (App.MeterRemoved (App.Meter.meter_name meter)))],
         Removal.set_remove_meters infos ud, d') /\
      App.users d' = App.users d /\
      (forall x, In x (App.meters d') <->
                 In x (App.meters d)
                 /\ App.Meter.id x <> App.Meter.id meter) /\
      (forall h, In h (App.balance_history d') <->
                 In h (App.balance_history d)
                 /\ App.BalanceHistory.meter_id h <> App.Meter.id meter) /\
      App.meter_by_id (App.Meter.id meter) (App.User.id user) d' = None /\
      Removal.remove_meter_confirm (Removal.http_remove_meter env) user_id
                                   "Cancel"
                                   (Removal.set_remove_meters infos ud) d
      = ([Removal.Said Bot.Cancelled], Removal.set_remove_meters infos ud,
         d).
Proof.
  intros env user_id ud d user k meter Hwf Huser Hk.
  set (info_of := fun m : App.Meter.t =>
         App.mkInfo (App.Meter.id m) (App.Meter.meter_name m)
                    (App.Meter.meter_number m) (App.Meter.min_balance m)
                    (App.Meter.last_balance m) (App.Meter.last_checked m)).
  set (infos := map info_of (App.meters_of user d)).
  assert (Hinfo : nth_error infos k = Some (info_of meter)).
  { unfold infos. now rewrite nth_error_map, Hk. }
  assert (Hown : App.meter_by_id (App.Meter.id meter) (App.User.id user) d
                 = Some meter).
  { apply own_meter_found; [exact Hwf|]. now apply nth_error_In with k. }
  set (rest := " " ++ App.Meter.meter_name meter ++ " ("
               ++ App.Meter.meter_number meter ++ ")").
  exists infos, (Keyboard.str_of_int (1 + Z.of_nat k) ++ String "." rest),
    (App.delete_meter meter d).
  split; [|split; [|split; [|split; [|split; [reflexivity|]]]]].
  - unfold Removal.remove_meter_start, Removal.http_list_meters, App.serve,
      App.list_meters.
    cbn [App.begin App.db]. rewrite Huser.
    cbn [App.committed App.log Bot.success Bot.meters_of_result].
    fold info_of. fold infos.
    destruct infos as [|i0 infos']; [now destruct k|reflexivity].
  - unfold Removal.remove_keyboard.
    rewrite length_app, length_enumerate_from. unfold infos.
    rewrite length_map. cbn. lia.
  - unfold Removal.remove_keyboard.
    rewrite nth_error_app1
      by (rewrite length_enumerate_from; apply nth_error_Some; congruence).
    rewrite nth_error_enumerate_from, Hinfo. reflexivity.
  - unfold Removal.remove_meter_confirm.
    rewrite numbered_label_is_not_cancel by lia.
    rewrite split_dot_head_decimal.
    2:{ unfold Keyboard.str_of_int.
        replace (1 + Z.of_nat k <? 0) with false
          by (symmetry; apply Z.ltb_ge; lia).
        apply digits_decimal; [lia|reflexivity]. }
    rewrite int_str_of_int by lia.
    cbn [Removal.set_remove_meters Bot.remove_meters].
    replace (1 + Z.of_nat k - 1) with (Z.of_nat k) by lia.
    rewrite (index_in_range infos k _ Hinfo).
    unfold Removal.http_remove_meter, App.serve, App.remove_meter.
    cbn [App.begin App.db App.info_id info_of]. rewrite Huser, Hown.
    run. reflexivity.
  - unfold App.delete_meter. run. split; [|split; [|split; [|reflexivity]]].
    + intros x. rewrite filter_In, negb_true_iff, Z.eqb_neq. reflexivity.
    + intros h. rewrite filter_In, negb_true_iff, Z.eqb_neq. reflexivity.
    + unfold App.meter_by_id. run. apply find_none_forall.
      apply Forall_forall. intros x Hx.
      apply filter_In in Hx as [_ Hx]. apply negb_true_iff in Hx.
      now rewrite Hx.
Qed.

Lemma remove_dialogue_deletes_chosen_meter_witness :
  let env := Scenario.answering 95 (Scenario.t0 + Scenario.hour) in
  let shop :=
    App.Meter.mk 2 1 "31041051784" "Shop" 50 (Some 80%float)
                 (Some (Scenario.t0 + 10)) (Scenario.t0 + 11) in
  exists infos label d',
    Removal.remove_meter_start Removal.http_list_meters 42 Bot.cleared
                               Scenario.two_meters
    = ([Removal.SelectMeterToRemove (Removal.remove_keyboard infos)],
       Removal.set_remove_meters infos Bot.cleared, Scenario.two_meters) /\
    nth_error (Removal.remove_keyboard infos) 1 = Some label /\
    Removal.remove_meter_confirm (Removal.http_remove_meter env) 42 label
      (Removal.set_remove_meters infos Bot.cleared) Scenario.two_meters
    = ([Removal.Said (Bot.BackendMessage (App.MeterRemoved "Shop"))],
       Removal.set_remove_meters infos Bot.cleared, d') /\
    ~ In shop (App.meters d') /\
    App.meter_by_id 2 1 d' = None.
Proof.
  intros env shop.
  destruct (remove_dialogue_deletes_chosen_meter
              env 42 Bot.cleared Scenario.two_meters
              (App.User.mk 1 42 true Scenario.t0) 1%nat shop
              wf_two_meters eq_refl eq_refl)
    as (infos & label & d' & Hstart & _ & Hlabel & Hconfirm & _ & Hmeters
        & _ & Hgone & _).
  exists infos, label, d'.
  split; [exact Hstart|]. split; [exact Hlabel|]. split; [exact Hconfirm|].
  split; [|exact Hgone].
  intros Hin. apply Hmeters in Hin as [_ Hid]. now apply Hid.
Defined.

(* ================================================================== *)
(** ** Properties of the reply parser of ai_agent.py *)

(** *** The JSON block of a reply *)

Lemma find_found (c : ascii) (text : string) :
  forall i, Agent.find c text = Some i ->
    exists pre rest,
      text = pre ++ String c rest /\ String.length pre = i /\
      without c pre = true.
Proof.
  induction text as [|x text IH]; cbn [Agent.find]; intros i Hi;
    [discriminate|].
  destruct (Ascii.eqb x c) eqn:Hx.
  - apply Ascii.eqb_eq in Hx. subst x. injection Hi as <-.
    exists "", text. repeat split.
  - destruct (Agent.find c text) as [j|]; [|discriminate].
    injection Hi as <-.
    destruct (IH j eq_refl) as (pre & rest & -> & Hlen & Hpre).
    exists (String x pre), rest. cbn [append String.length].
    split; [reflexivity|]. split; [now rewrite Hlen|].
    unfold without in *. cbn [Py.all_chars]. now rewrite Hx, Hpre.
Qed.

Lemma find_first (c : ascii) (pre rest : string) :
  without c pre = true ->
  Agent.find c (pre ++ String c rest) = Some (String.length pre).
Proof.
  unfold without.
  induction pre as [|x pre IH]; cbn [append Agent.find Py.all_chars
                                     String.length]; intros Hpre.
  - now rewrite Ascii.eqb_refl.
  - apply andb_prop in Hpre as [Hx Hpre].
    apply negb_true_iff in Hx. rewrite Hx, (IH Hpre). reflexivity.
Qed.

Lemma rfind_without (c : ascii) (text : string) :
  Agent.rfind c text = None <-> without c text = true.
Proof.
  unfold without.
  induction text as [|x text IH]; cbn [Agent.rfind Py.all_chars];
    [tauto|].
  destruct (Agent.rfind c text) as [i|].
  - split; [discriminate|]. intros H.
    apply andb_prop in H as [_ H]. apply IH in H. discriminate.
  - destruct (Ascii.eqb x c); cbn [negb andb].
    + split; discriminate.
    + split; [intros _; now apply IH|reflexivity].
Qed.

Lemma rfind_found (c : ascii) (text : string) :
  forall i, Agent.rfind c text = Some i ->
    exists front post,
      text = front ++ String c post /\ String.length front = i /\
      without c post = true.
Proof.
  induction text as [|x text IH]; cbn [Agent.rfind]; intros i Hi;
    [discriminate|].
  destruct (Agent.rfind c text) as [j|] eqn:Hj.
  - injection Hi as <-.
    destruct (IH j eq_refl) as (front & post & -> & Hlen & Hpost).
    exists (String x front), post. cbn [append String.length].
    split; [reflexivity|]. split; [now rewrite Hlen|exact Hpost].
  - destruct (Ascii.eqb x c) eqn:Hx; [|discriminate].
    apply Ascii.eqb_eq in Hx. subst x. injection Hi as <-.
    exists "", text. split; [reflexivity|]. split; [reflexivity|].
    now apply rfind_without.
Qed.

Lemma rfind_last (c : ascii) (front post : string) :
  without c post = true ->
  Agent.rfind c (front ++ String c post) = Some (String.length front).
Proof.
  intros Hpost. apply rfind_without in Hpost.
  induction front as [|x front IH]; cbn [append Agent.rfind String.length].
  - now rewrite Hpost, Ascii.eqb_refl.
  - now rewrite IH.
Qed.

Lemma substring_skip (pre rest : string) (n : nat) :
  String.substring (String.length pre) n (pre ++ rest)
  = String.substring 0 n rest.
Proof.
  induction pre as [|x pre IH]; cbn [append String.length String.substring];
    [reflexivity|exact IH].
Qed.

Lemma substring_take (block post : string) :
  String.substring 0 (String.length block) (block ++ post) = block.
Proof.
  induction block as [|x block IH];
    cbn [append String.length String.substring].
  - now destruct post.
  - now rewrite IH.
Qed.

Lemma length_append (a b : string) :
  String.length (a ++ b) = (String.length a + String.length b)%nat.
Proof.
  induction a as [|x a IH]; cbn [append String.length]; [reflexivity|].
  now rewrite IH.
Qed.

Lemma append_assoc (a b c : string) : (a ++ b) ++ c = a ++ (b ++ c).
Proof.
  induction a as [|x a IH]; cbn [append]; [reflexivity|]. now rewrite IH.
Qed.

(** Two ways of cutting the same text, one at a character that the other
    has later: the text between the two cuts. *)
Lemma cut_twice (a b : ascii) (pre rest front post : string) :
  pre ++ String a rest = front ++ String b post ->
  (String.length pre < String.length front)%nat ->
  exists body, front = pre ++ String a body /\ rest = body ++ String b post.
Proof.
  revert front. induction pre as [|x pre IH]; intros front Heq Hlt.
  - destruct front as [|y front]; [cbn in Hlt; lia|].
    cbn [append] in Heq. injection Heq as <- ->. now exists front.
  - destruct front as [|y front]; [cbn in Hlt; lia|].
    cbn [append String.length] in *. injection Heq as <- Heq.
    destruct (IH front Heq ltac:(lia)) as (body & -> & ->).
    now exists body.
Qed.

(** X15: [_parse_json_block] hands to [json.loads] the text from the first
    opening brace to the last closing brace and nothing else: it returns a
    value exactly when the text is some [pre { body } post] with no opening
    brace in [pre] and no closing brace in [post], and [json.loads] accepts
    [{ body }]; the value is then the one [json.loads] gives. *)
Theorem parse_json_block_reads_first_to_last_brace :
  forall (J : Type) (json_loads : string -> Py.result J) (text : string)
         (parsed : J),
    Agent._parse_json_block json_loads text = Py.Ret (Some parsed) <->
    exists pre body post,
      text = pre ++ String "{" (body ++ String "}" post) /\
      without "{" pre = true /\ without "}" post = true /\
      json_loads (String "{" (body ++ "}")) = Py.Ret parsed.
Proof.
  intros J json_loads text parsed.
  assert (Hblock : forall pre body post,
             Agent.slice (String.length pre)
                         (String.length (pre ++ String "{" body) + 1)
                         (pre ++ String "{" (body ++ String "}" post))
             = String "{" (body ++ "}")).
  { intros pre body post. unfold Agent.slice.
    rewrite substring_skip, length_append. cbn [String.length].
    replace (String.length pre + S (String.length body) + 1
             - String.length pre)%nat
      with (String.length (String "{" (body ++ "}")))
      by (cbn [String.length]; rewrite length_append; cbn; lia).
    change (String "{" (body ++ String "}" post))
      with (String "{" (body ++ (String "}" "" ++ post))).
    rewrite <- append_assoc.
    exact (substring_take (String "{" (body ++ "}")) post). }
  unfold Agent._parse_json_block. split.
  - destruct (Agent.find "{" text) as [start|] eqn:Hstart; [|discriminate].
    destruct (Agent.rfind "}" text) as [end_|] eqn:Hend; [|discriminate].
    destruct (end_ <=? start)%nat eqn:Hle; [discriminate|].
    apply Nat.leb_gt in Hle.
    destruct (find_found _ _ _ Hstart) as (pre & rest & Htext & Hlen & Hpre).
    destruct (rfind_found _ _ _ Hend)
      as (front & post & Htext' & Hlen' & Hpost).
    destruct (cut_twice "{" "}" pre rest front post) as (body & -> & ->);
      [congruence|lia|].
    subst text start end_. rewrite Hblock.
    intros Hloads. exists pre, body, post.
    split; [reflexivity|]. split; [exact Hpre|]. split; [exact Hpost|].
    destruct (json_loads _) as [v|[]]; congruence.
  - intros (pre & body & post & -> & Hpre & Hpost & Hloads).
    rewrite (find_first "{" pre _ Hpre).
    change (pre ++ String "{" (body ++ String "}" post))
      with (pre ++ (String "{" body ++ String "}" post)).
    rewrite <- append_assoc, (rfind_last "}" _ post Hpost).
    rewrite append_assoc. cbn [append].
    rewrite Hblock, Hloads.
    replace (_ <=? _)%nat with false; [reflexivity|].
    symmetry. apply Nat.leb_gt. rewrite length_append. cbn. lia.
Qed.

(* ================================================================== *)
(** ** More properties of the backend *)

(** *** What the scraper reads from the balance cell *)

Lemma numeric_part_app (a b : string) :
  App.numeric_part (a ++ b) = App.numeric_part a ++ App.numeric_part b.
Proof.
  induction a as [|c a IH]; cbn [append App.numeric_part]; [reflexivity|].
  rewrite IH. now destruct (Py.isdigit_char c || Ascii.eqb c ".").
Qed.

Lemma space_is_not_numeric (c : ascii) :
  Py.isspace_char c = true -> Py.isdigit_char c || Ascii.eqb c "." = false.
Proof.
  destruct c as [[] [] [] [] [] [] [] []]; vm_compute; congruence.
Qed.

Lemma numeric_part_lstrip (s : string) :
  App.numeric_part (Py.lstrip_with Py.isspace_char s) = App.numeric_part s.
Proof.
  induction s as [|c s IH]; cbn [Py.lstrip_with]; [reflexivity|].
  destruct (Py.isspace_char c) eqn:Hc; [|reflexivity].
  cbn [App.numeric_part]. now rewrite (space_is_not_numeric c Hc).
Qed.

Lemma numeric_part_rstrip (s : string) :
  App.numeric_part (Py.rstrip_with Py.isspace_char s) = App.numeric_part s.
Proof.
  induction s as [|c s IH]; cbn [Py.rstrip_with]; [reflexivity|].
  destruct (Py.rstrip_with Py.isspace_char s) as [|c' r] eqn:Hr.
  - cbn [App.numeric_part] in IH |- *. rewrite <- IH.
    destruct (Py.isspace_char c) eqn:Hc; cbn [App.numeric_part].
    + now rewrite (space_is_not_numeric c Hc).
    + reflexivity.
  - cbn [App.numeric_part] in IH |- *. now rewrite IH.
Qed.

Lemma numeric_part_only_digits_and_dots (s : string) :
  Py.all_chars (fun c => Py.isdigit_char c || Ascii.eqb c ".")
               (App.numeric_part s) = true.
Proof.
  induction s as [|c s IH]; cbn [App.numeric_part]; [reflexivity|].
  destruct (Py.isdigit_char c || Ascii.eqb c ".") eqn:Hc; [|exact IH].
  cbn [Py.all_chars]. now rewrite Hc.
Qed.

(** X16: the balance is read from the digits and dots of the cell alone:
    the text given to [float] holds nothing else, and a character that is
    neither a digit nor a dot (a minus sign, a thousands separator, a
    currency label, a blank) changes nothing wherever it stands.  A cell
    showing a negative balance is read as the positive one. *)
Theorem balance_of_cell_reads_digits_and_dots_only :
  forall (float_of_str : string -> option float) (before after : string)
         (c : ascii),
    Py.isdigit_char c || Ascii.eqb c "." = false ->
    App.balance_of_cell float_of_str (before ++ String c after)
    = App.balance_of_cell float_of_str (before ++ after) /\
    App.balance_of_cell float_of_str (before ++ after)
    = float_of_str (App.numeric_part before ++ App.numeric_part after) /\
    Py.all_chars (fun x => Py.isdigit_char x || Ascii.eqb x ".")
                 (App.numeric_part before ++ App.numeric_part after) = true.
Proof.
  intros float_of_str before after c Hc.
  assert (Hstrip : forall s, App.numeric_part (Py.strip s)
                             = App.numeric_part s).
  { intros s. unfold Py.strip.
    now rewrite numeric_part_rstrip, numeric_part_lstrip. }
  unfold App.balance_of_cell. rewrite !Hstrip, !numeric_part_app.
  cbn [App.numeric_part]. rewrite Hc.
  split; [reflexivity|]. split; [reflexivity|].
  rewrite <- numeric_part_app. apply numeric_part_only_digits_and_dots.
Qed.

Lemma balance_of_cell_reads_digits_and_dots_only_witness :
  App.balance_of_cell Scenario.float_of_str " -120.5 BDT"
  = App.balance_of_cell Scenario.float_of_str " 120.5 BDT".
Proof.
  exact (proj1 (balance_of_cell_reads_digits_and_dots_only
                  Scenario.float_of_str " " "120.5 BDT" "-" eq_refl)).
Defined.

(** *** The first contact *)

(** X17: /webhook/telegram with the command [start] registers the Telegram
    identity once: when it is unknown, one user row with reminders enabled
    is appended and committed, and nothing else changes; it is then known,
    and a second [start] changes nothing.  When it is known already nothing
    changes.  Any other command is answered with [Unknown command] and
    changes nothing. *)
Theorem telegram_webhook_start_registers_once :
  forall (env env' : App.Env) (command : string) (telegram_user_id : Z)
         (d : App.DB),
    let request := App.telegram_webhook env command telegram_user_id in
    let d' := App.after request d in
    (command <> "start" ->
     App.answer request d = App.Failure 200 "Unknown command" /\
     d' = d /\ App.trace request d = []) /\
    (command = "start" ->
     App.answer request d = App.Success App.Welcome /\
     (forall user, App.user_by_telegram_id telegram_user_id d = Some user ->
                   d' = d /\ App.trace request d = []) /\
     (App.user_by_telegram_id telegram_user_id d = None ->
      let user := App.User.mk (App.users_seq d) telegram_user_id true
                              (App.utcnow env 0) in
      d' = App.insert_user user d /\
      App.trace request d = [App.Commit d'] /\
      App.user_by_telegram_id telegram_user_id d' = Some user) /\
     App.after (App.telegram_webhook env' command telegram_user_id) d' = d').
Proof.
  intros env env' command telegram_user_id d request d'.
  subst d' request. unfold App.answer, App.after, App.trace.
  split.
  - intros Hcommand. unfold App.telegram_webhook.
    apply String.eqb_neq in Hcommand. rewrite Hcommand.
    repeat split.
  - intros ->. unfold App.telegram_webhook.
    cbn [String.eqb Ascii.eqb Bool.eqb]. cbn [App.begin App.db].
    assert (Hnew : App.user_by_telegram_id telegram_user_id d = None ->
              App.user_by_telegram_id telegram_user_id
                (App.insert_user
                   (App.User.mk (App.users_seq d) telegram_user_id true
                                (App.utcnow env 0)) d)
              = Some (App.User.mk (App.users_seq d) telegram_user_id true
                                  (App.utcnow env 0))).
    { intros Hnone. unfold App.user_by_telegram_id in *.
      cbn [App.insert_user App.users].
      apply find_app_missing; [exact Hnone|].
      cbn. apply Z.eqb_refl. }
    destruct (App.user_by_telegram_id telegram_user_id d) as [user|] eqn:Hu.
    + cbn [fst snd App.committed App.log App.begin App.db].
      split; [reflexivity|]. split; [now intros|].
      split; [discriminate|]. now rewrite Hu.
    + run. specialize (Hnew eq_refl).
      split; [reflexivity|]. split; [discriminate|].
      split; [now intros|]. now rewrite Hnew.
Qed.

Lemma telegram_webhook_start_registers_once_witness :
  let env := Scenario.answering 95 Scenario.t0 in
  let d' := App.after (App.telegram_webhook env "start" 42) App.empty_db in
  App.users d' = [App.User.mk 1 42 true Scenario.t0] /\
  App.after (App.telegram_webhook env "start" 42) d' = d'.
Proof.
  intros env d'.
  destruct (proj2 (telegram_webhook_start_registers_once
                     env env "start" 42 App.empty_db) eq_refl)
    as (_ & _ & Hnew & Hagain).
  destruct (Hnew eq_refl) as (Hd & _).
  split; [|exact Hagain].
  subst d'. rewrite Hd. vm_compute. reflexivity.
Defined.

(** *** A sweep is one transaction *)

Lemma flush_log (env : App.Env) (s : App.Session) :
  App.log (App.flush env s) = App.log s.
Proof.
  unfold App.flush.
  now destruct (App.flush_rows env (App.pending s) (App.db s)
                               (App.clock_reads s)).
Qed.

Lemma check_one_log (env : App.Env) (yesterday : Z) (meter : App.Meter.t)
  (s : App.Session) :
  App.log (snd (App.check_one env yesterday meter s))
  = (App.log s ++ [App.Scrape (App.Meter.meter_number meter)])%list.
Proof.
  unfold App.check_one.
  destruct (App.scrape_nesco_balance env (App.Meter.meter_number meter));
    [|reflexivity].
  cbn [App.now App.with_db App.add_history snd App.log].
  rewrite flush_log. reflexivity.
Qed.

Lemma check_loop_log (env : App.Env) (yesterday : Z) (ms : list App.Meter.t) :
  forall s,
    App.log (snd (App.check_loop env yesterday ms s))
    = (App.log s ++ map (fun m => App.Scrape (App.Meter.meter_number m)) ms)%list.
Proof.
  induction ms as [|meter ms IH]; intros s; cbn [App.check_loop map].
  - cbn. now rewrite app_nil_r.
  - pose proof (check_one_log env yesterday meter s) as Hone.
    destruct (App.check_one env yesterday meter s) as [r s1].
    specialize (IH s1).
    destruct (App.check_loop env yesterday ms s1) as [rs s2].
    cbn [snd] in *. rewrite IH, Hone, <- app_assoc. reflexivity.
Qed.

(** X18: /api/check-balances scrapes each meter of the user exactly once,
    in the order of the meters, and commits once, after the last scrape:
    the readings and snapshots of one sweep reach the database together.
    For an unknown user, or a user without meters, it answers 404, scrapes
    nothing and commits nothing. *)
Theorem check_balances_scrapes_each_meter_then_commits_once :
  forall (env : App.Env) (telegram_user_id : Z) (d : App.DB),
    let request := App.check_balances env telegram_user_id in
    let ms := match App.user_by_telegram_id telegram_user_id d with
              | Some user => App.meters_of user d
              | None => []
              end in
    match ms with
    | [] => App.answer request d = App.Failure 404 "No meters found" /\
            App.after request d = d /\ App.trace request d = []
    | _ => App.trace request d
           = (map (fun m => App.Scrape (App.Meter.meter_number m)) ms
              ++ [App.Commit (App.after request d)])%list
    end.
Proof.
  intros env telegram_user_id d request ms. subst request ms.
  unfold App.answer, App.after, App.trace, App.check_balances.
  cbn [App.begin App.db].
  destruct (App.user_by_telegram_id telegram_user_id d) as [user|];
    [|repeat split].
  destruct (App.meters_of user d) as [|m ms] eqn:Hms; [repeat split|].
  cbn [App.now App.clock_reads App.db App.pending App.committed App.log].
  match goal with
  | |- context [App.check_loop ?e ?y ?l ?s] =>
      pose proof (check_loop_log e y l s) as Hlog;
      destruct (App.check_loop e y l s) as [results s1]
  end.
  cbn [snd App.log] in Hlog. cbn [app] in Hlog.
  cbn [App.commit App.now snd App.log App.committed App.db].
  rewrite flush_log, Hlog. reflexivity.
Qed.

(** *** What belongs to another user *)

Lemma filter_update_elsewhere {A : Type} (key : A -> Z) (p : A -> bool)
  (a' : A) (l : list A) :
  p a' = false ->
  (forall x, In x l -> key x = key a' -> p x = false) ->
  filter p (map (fun x => if key x =? key a' then a' else x) l) = filter p l.
Proof.
  intros Hnew Hold. induction l as [|x l IH]; cbn [map filter]; [reflexivity|].
  rewrite IH by (intros y Hy; apply Hold; now right).
  destruct (Z.eqb_spec (key x) (key a')) as [Heq|]; [|reflexivity].
  now rewrite Hnew, (Hold x (or_introl eq_refl) Heq).
Qed.

Lemma filter_delete_elsewhere {A : Type} (p keep : A -> bool) (l : list A) :
  (forall x, In x l -> p x = true -> keep x = true) ->
  filter p (filter keep l) = filter p l.
Proof.
  intros Hkeep. induction l as [|x l IH]; cbn [filter]; [reflexivity|].
  rewrite <- IH by (intros y Hy; apply Hkeep; now right).
  destruct (keep x) eqn:Hx; [reflexivity|].
  destruct (p x) eqn:Hp; [|reflexivity].
  rewrite (Hkeep x (or_introl eq_refl) Hp) in Hx. discriminate.
Qed.

Lemma find_update_elsewhere {A : Type} (key : A -> Z) (p : A -> bool)
  (a a' : A) (l : list A) :
  find p l = Some a -> p a' = false -> key a <> key a' ->
  find p (map (fun x => if key x =? key a' then a' else x) l) = Some a.
Proof.
  intros Hfind Hnew Hkey.
  induction l as [|x l IH]; cbn [map find] in *; [discriminate|].
  destruct (p x) eqn:Hp.
  - injection Hfind as ->.
    replace (key a =? key a') with false by (symmetry; now apply Z.eqb_neq).
    now rewrite Hp.
  - destruct (key x =? key a'); [rewrite Hnew|rewrite Hp]; now apply IH.
Qed.

Lemma find_app_found {A : Type} (p : A -> bool) (l l' : list A) (a : A) :
  find p l = Some a -> find p (l ++ l') = Some a.
Proof.
  induction l as [|x l IH]; cbn [app find]; [discriminate|].
  destruct (p x); [trivial|exact IH].
Qed.

(** Two users found under different Telegram identities have different
    ids. *)
Lemma other_user_other_id (d : App.DB) (caller tid : Z)
  (user other : App.User.t) :
  NoDup (map App.User.id (App.users d)) ->
  App.user_by_telegram_id caller d = Some user ->
  App.user_by_telegram_id tid d = Some other ->
  tid <> caller ->
  App.User.id user <> App.User.id other.
Proof.
  unfold App.user_by_telegram_id. intros Hnd Hu Ho Hne Hid.
  apply find_some in Hu as [Hu Hcaller]. apply find_some in Ho as [Ho Htid].
  apply Z.eqb_eq in Hcaller, Htid.
  assert (user = other)
    by exact (same_key_same_row App.User.id _ _ _ Hnd Hu Ho Hid).
  subst other. congruence.
Qed.

(** A new user gets an id that no user has. *)
Lemma new_user_other_id (d : App.DB) (tid : Z) (other : App.User.t) :
  App.wf d ->
  App.user_by_telegram_id tid d = Some other ->
  App.users_seq d <> App.User.id other.
Proof.
  intros Hwf Ho. apply find_some in Ho as [Ho _].
  pose proof (proj1 (Forall_forall _ _) (App.wf_users_seq d Hwf) other Ho).
  cbn beta in *. lia.
Qed.

(** The rows with the id of a meter of someone else are not [owner]'s. *)
Lemma rows_of_someone_else (d : App.DB) (meter : App.Meter.t) (owner : Z) :
  App.wf d -> In meter (App.meters d) ->
  App.Meter.user_id meter <> owner ->
  forall x, In x (App.meters d) -> App.Meter.id x = App.Meter.id meter ->
            (App.Meter.user_id x =? owner) = false.
Proof.
  intros Hwf Hin Hown x Hx Hid.
  assert (x = meter)
    by exact (same_key_same_row App.Meter.id _ _ _ (App.wf_meters_pk d Hwf)
                Hx Hin Hid).
  subst x. now apply Z.eqb_neq.
Qed.

(** A meter of someone else is none of the meters of [other]. *)
Lemma not_among_meters_of (d : App.DB) (meter : App.Meter.t)
  (other : App.User.t) :
  App.wf d -> In meter (App.meters d) ->
  App.Meter.user_id meter <> App.User.id other ->
  existsb (fun m => App.Meter.id m =? App.Meter.id meter)
          (App.meters_of other d) = false.
Proof.
  intros Hwf Hin Hown.
  destruct (existsb _ _) eqn:Hex; [|reflexivity].
  apply existsb_exists in Hex as (m & Hm & Hid).
  apply filter_In in Hm as [Hm Hother]. apply Z.eqb_eq in Hid, Hother.
  assert (m = meter)
    by exact (same_key_same_row App.Meter.id _ _ _ (App.wf_meters_pk d Hwf)
                Hm Hin Hid).
  subst m. contradiction.
Qed.

(** A meter id that the sequence has not given yet is the id of no
    meter. *)
Lemma next_meter_id_is_new (d : App.DB) (other : App.User.t) :
  App.wf d ->
  existsb (fun m => App.Meter.id m =? App.meters_seq d)
          (App.meters_of other d) = false.
Proof.
  intros Hwf.
  destruct (existsb _ _) eqn:Hex; [|reflexivity].
  apply existsb_exists in Hex as (m & Hm & Hid).
  apply filter_In in Hm as [Hm _]. apply Z.eqb_eq in Hid.
  pose proof (proj1 (Forall_forall _ _) (App.wf_meters_seq d Hwf) m Hm).
  cbn beta in *. lia.
Qed.

Lemma flush_rows_apart (env : App.Env) (ms : list App.Meter.t)
  (rows : list (Z * float)) :
  Forall (fun r => existsb (fun m => App.Meter.id m =? fst r) ms = false)
         rows ->
  forall (d : App.DB) (n : nat),
    readings_of ms (fst (App.flush_rows env rows d n)) = readings_of ms d.
Proof.
  induction 1 as [|[meter_id balance] rows Hrow _ IH]; intros d n;
    cbn [App.flush_rows]; [reflexivity|].
  rewrite IH. unfold readings_of.
  cbn [App.insert_history App.balance_history].
  rewrite filter_app. cbn [filter App.BalanceHistory.meter_id].
  cbn [fst] in Hrow. rewrite Hrow. apply app_nil_r.
Qed.

Lemma flush_apart (env : App.Env) (owner : Z) (ms : list App.Meter.t)
  (d : App.DB) (s : App.Session) :
  apart owner ms d s -> apart owner ms d (App.flush env s).
Proof.
  intros (Hcols & Hmeters & Hreadings & Hpending & Husers).
  unfold apart. rewrite flush_meters, flush_users, flush_pending.
  repeat split; auto.
  rewrite flush_db. now rewrite flush_rows_apart.
Qed.

Lemma check_one_apart (env : App.Env) (yesterday owner : Z)
  (ms : list App.Meter.t) (d : App.DB) (meter : App.Meter.t)
  (s : App.Session) :
  App.wf d -> In meter (App.meters d) ->
  App.Meter.user_id meter <> owner ->
  existsb (fun m => App.Meter.id m =? App.Meter.id meter) ms = false ->
  apart owner ms d s ->
  apart owner ms d (snd (App.check_one env yesterday meter s)).
Proof.
  intros Hwf Hin Hown Hms Hs.
  pose proof (check_one_fixed_columns env yesterday d meter s Hwf Hin
                (proj1 Hs)) as [Hcols' Husers'].
  destruct Hs as (Hcols & Hmeters & Hreadings & Hpending & Husers).
  split; [exact Hcols'|]. unfold App.check_one in *.
  destruct (App.scrape_nesco_balance env (App.Meter.meter_number meter)).
  - assert (Hf : apart owner ms d
                   (App.flush env
                      (App.record (App.Scrape (App.Meter.meter_number meter))
                                  s)))
      by (apply flush_apart; repeat split; assumption).
    destruct Hf as (Hcolsf & Hmetersf & Hreadingsf & Hpendingf & Husersf).
    cbn [App.now snd App.add_history App.with_db App.db App.pending
         App.update_meter App.meters App.users App.balance_history] in *.
    split; [|split; [exact Hreadingsf|split; [|exact Husersf]]].
    + rewrite <- Hmetersf.
      apply (filter_update_elsewhere App.Meter.id).
      * cbn. now apply Z.eqb_neq.
      * intros x Hx Hid. cbn [App.Meter.set_snapshot App.Meter.id] in Hid.
        assert (Hcol : In (fixed_columns x)
                          (map fixed_columns (App.meters d)))
          by (rewrite <- Hcolsf; now apply in_map).
        apply in_map_iff in Hcol as (y & Hy & Hyin).
        unfold fixed_columns, owner_and_number in Hy.
        injection Hy as Hyid Hyown _.
        rewrite <- Hyown.
        apply (rows_of_someone_else d meter owner Hwf Hin Hown y Hyin).
        congruence.
    + apply Forall_app. split; [exact Hpendingf|].
      constructor; [exact Hms|constructor].
  - cbn [snd App.record App.db App.pending]. repeat split; assumption.
Qed.

Lemma check_loop_apart (env : App.Env) (yesterday owner : Z)
  (ms : list App.Meter.t) (d : App.DB) (swept_meters : list App.Meter.t) :
  App.wf d ->
  Forall (fun meter =>
            In meter (App.meters d) /\ App.Meter.user_id meter <> owner /\
            existsb (fun m => App.Meter.id m =? App.Meter.id meter) ms
            = false) swept_meters ->
  forall s, apart owner ms d s ->
            apart owner ms d
                  (snd (App.check_loop env yesterday swept_meters s)).
Proof.
  intros Hwf Hall.
  induction Hall as [|meter rest (Hin & Hown & Hms) _ IH]; intros s Hs;
    cbn [App.check_loop]; [exact Hs|].
  pose proof (check_one_apart env yesterday owner ms d meter s Hwf Hin Hown
                Hms Hs) as Hone.
  destruct (App.check_one env yesterday meter s) as [r s1].
  specialize (IH s1 Hone).
  now destruct (App.check_loop env yesterday rest s1) as [rs s2].
Qed.

(** X19: a request made for one Telegram identity leaves what belongs to a
    user with another identity as it is: whatever the request and whatever
    the scraper and the clock do, that user's account row (with its
    reminder setting), that user's meters (with their thresholds and
    snapshots) and the readings of these meters are the same afterwards. *)
Theorem request_leaves_other_users_alone :
  forall (float_of_str : string -> option float) (env : App.Env)
         (caller : Z) (call : api_call) (d : App.DB) (tid : Z)
         (other : App.User.t),
    App.wf d ->
    NoDup (map App.User.id (App.users d)) ->
    App.user_by_telegram_id tid d = Some other ->
    tid <> caller ->
    let d' := App.after (handler_of float_of_str env caller call) d in
    App.user_by_telegram_id tid d' = Some other /\
    App.meters_of other d' = App.meters_of other d /\
    readings_of (App.meters_of other d) d'
    = readings_of (App.meters_of other d) d.
Proof.
  intros fos env caller call d tid other Hwf Hids Hother Hne d'. subst d'.
  assert (Hnew : forall created,
             let u := App.User.mk (App.users_seq d) caller true created in
             App.user_by_telegram_id tid (App.insert_user u d) = Some other
             /\ App.meters_of other (App.insert_user u d)
                = App.meters_of other d
             /\ readings_of (App.meters_of other d) (App.insert_user u d)
                = readings_of (App.meters_of other d) d).
  { intros created u. split; [|split; reflexivity].
    unfold App.user_by_telegram_id. cbn [App.insert_user App.users].
    now apply find_app_found. }
  assert (Hadded : forall d0 meter h,
             App.meters_of other d0 = App.meters_of other d ->
             readings_of (App.meters_of other d) d0
             = readings_of (App.meters_of other d) d ->
             App.Meter.user_id meter <> App.User.id other ->
             existsb (fun m => App.Meter.id m =? App.BalanceHistory.meter_id h)
                     (App.meters_of other d) = false ->
             let d1 := App.insert_history h (App.insert_meter meter d0) in
             App.meters_of other d1 = App.meters_of other d /\
             readings_of (App.meters_of other d) d1
             = readings_of (App.meters_of other d) d).
  { intros d0 meter h Hm0 Hr0 Hown Hh d1. subst d1.
    unfold App.meters_of, readings_of in *.
    cbn [App.insert_history App.insert_meter App.meters App.balance_history].
    rewrite !filter_app. cbn [filter]. rewrite Hh, Hm0, Hr0.
    replace (App.Meter.user_id meter =? App.User.id other) with false
      by (symmetry; now apply Z.eqb_neq).
    now rewrite !app_nil_r. }
  destruct call as [command|meter_number meter_name| | |meter_id
                   |meter_id min_balance|];
    cbn [handler_of].
  - (* /webhook/telegram *)
    unfold App.after, App.telegram_webhook. run.
    destruct (String.eqb command "start"); run; [|now repeat split].
    destruct (App.user_by_telegram_id caller d); run; [now repeat split|].
    apply Hnew.
  - (* /api/add-meter *)
    unfold App.after, App.add_meter. run.
    destruct (App.truthy_int caller && App.truthy_str meter_number
              && App.truthy_str meter_name); run; [|now repeat split].
    destruct (App.user_by_telegram_id caller d) as [user|] eqn:Hu; run.
    + destruct (App.meter_by_number _ _ d); run; [now repeat split|].
      destruct (App.scrape_nesco_balance env meter_number); run;
        [|now repeat split].
      split; [exact Hother|].
      apply (Hadded d); try reflexivity.
      * cbn. exact (other_user_other_id d caller tid user other Hids Hu
                      Hother Hne).
      * cbn. now apply next_meter_id_is_new.
    + destruct (Hnew (App.utcnow env 0)) as (Hfound & Hm1 & Hr1).
      destruct (App.meter_by_number _ _ _); run;
        [now repeat split|].
      destruct (App.scrape_nesco_balance env meter_number); run;
        [|now repeat split].
      split; [exact Hfound|].
      apply (Hadded (App.insert_user _ d)); try assumption.
      * cbn. exact (new_user_other_id d tid other Hwf Hother).
      * cbn. now apply next_meter_id_is_new.
  - (* /api/list-meters *)
    unfold App.after, App.list_meters. run.
    destruct (App.user_by_telegram_id caller d); now repeat split.
  - (* /api/check-balances *)
    unfold App.after, App.check_balances. run.
    destruct (App.user_by_telegram_id caller d) as [user|] eqn:Hu; run;
      [|now repeat split].
    destruct (App.meters_of user d) as [|m ms] eqn:Hms; run;
      [now repeat split|].
    pose proof (other_user_other_id d caller tid user other Hids Hu Hother
                  Hne) as Hid.
    assert (Hall : Forall (fun meter =>
                     In meter (App.meters d)
                     /\ App.Meter.user_id meter <> App.User.id other
                     /\ existsb (fun x => App.Meter.id x
                                          =? App.Meter.id meter)
                                (App.meters_of other d) = false)
                     (m :: ms)).
    { rewrite <- Hms. apply Forall_forall. intros meter Hmeter.
      apply filter_In in Hmeter as [Hin Hown]. apply Z.eqb_eq in Hown.
      assert (Hforeign : App.Meter.user_id meter <> App.User.id other)
        by congruence.
      split; [exact Hin|]. split; [exact Hforeign|].
      now apply not_among_meters_of. }
    match goal with
    | |- context [App.check_loop ?e ?y ?l ?s] =>
        pose proof (check_loop_apart e y (App.User.id other)
                      (App.meters_of other d) d l Hwf Hall s) as Hloop;
        destruct (App.check_loop e y l s) as [results s1]
    end.
    cbn [snd] in Hloop.
    assert (Hstart : apart (App.User.id other) (App.meters_of other d) d
                       (App.mkSession d [] d 1 []))
      by (repeat split; constructor).
    apply Hloop in Hstart. apply (flush_apart env) in Hstart.
    destruct Hstart as (_ & Hmeters & Hreadings & _ & Husers).
    cbn [App.commit App.now snd App.committed App.db].
    unfold App.user_by_telegram_id, App.meters_of in *.
    now rewrite Husers, Hmeters.
  - (* /api/remove-meter *)
    unfold App.after, App.remove_meter. run.
    destruct (App.user_by_telegram_id caller d) as [user|] eqn:Hu; run;
      [|now repeat split].
    destruct (App.meter_by_id meter_id (App.User.id user) d) as [meter|]
      eqn:Hm; run; [|now repeat split].
    pose proof (other_user_other_id d caller tid user other Hids Hu Hother
                  Hne) as Hid.
    apply find_some in Hm as [Hin Hmeter].
    apply andb_prop in Hmeter as [_ Hown]. apply Z.eqb_eq in Hown.
    assert (Hforeign : App.Meter.user_id meter <> App.User.id other)
      by congruence.
    split; [exact Hother|].
    unfold App.meters_of, readings_of.
    cbn [App.delete_meter App.meters App.balance_history]. split.
    + apply filter_delete_elsewhere. intros x Hx Hp.
      apply negb_true_iff.
      destruct (Z.eqb_spec (App.Meter.id x) (App.Meter.id meter)) as [Heq|];
        [|reflexivity].
      rewrite (rows_of_someone_else d meter _ Hwf Hin Hforeign x Hx Heq)
        in Hp.
      discriminate.
    + apply filter_delete_elsewhere. intros h Hh Hq.
      apply negb_true_iff.
      destruct (Z.eqb_spec (App.BalanceHistory.meter_id h)
                           (App.Meter.id meter)) as [Heq|]; [|reflexivity].
      rewrite Heq in Hq.
      change (filter (fun m => App.Meter.user_id m =? App.User.id other)
                     (App.meters d)) with (App.meters_of other d) in Hq.
      rewrite (not_among_meters_of d meter other Hwf Hin Hforeign) in Hq.
      discriminate.
  - (* /api/set-min-balance *)
    unfold App.after, App.set_min_balance. run.
    destruct (App.user_by_telegram_id caller d) as [user|] eqn:Hu; run;
      [|now repeat split].
    destruct (App.meter_by_id meter_id (App.User.id user) d) as [meter|]
      eqn:Hm; run; [|now repeat split].
    destruct (Py.to_float fos min_balance); run; [|now repeat split].
    pose proof (other_user_other_id d caller tid user other Hids Hu Hother
                  Hne) as Hid.
    apply find_some in Hm as [Hin Hmeter].
    apply andb_prop in Hmeter as [_ Hown]. apply Z.eqb_eq in Hown.
    assert (Hforeign : App.Meter.user_id meter <> App.User.id other)
      by congruence.
    split; [exact Hother|]. split; [|reflexivity].
    unfold App.meters_of. cbn [App.update_meter App.meters].
    apply (filter_update_elsewhere App.Meter.id).
    + cbn. now apply Z.eqb_neq.
    + intros x Hx Heq. cbn [App.Meter.set_min_balance App.Meter.id] in Heq.
      exact (rows_of_someone_else d meter _ Hwf Hin Hforeign x Hx Heq).
  - (* /api/toggle-reminder *)
    unfold App.after, App.toggle_reminder. run.
    destruct (App.user_by_telegram_id caller d) as [user|] eqn:Hu; run;
      [|apply Hnew].
    split; [|split; reflexivity].
    pose proof (other_user_other_id d caller tid user other Hids Hu Hother
                  Hne) as Hid.
    unfold App.user_by_telegram_id in *. cbn [App.update_user App.users].
    apply (find_update_elsewhere App.User.id); [exact Hother| |].
    + apply find_some in Hu as [_ Hcaller]. apply Z.eqb_eq in Hcaller.
      cbn. apply Z.eqb_neq. congruence.
    + cbn. congruence.
Qed.

Lemma request_leaves_other_users_alone_witness :
  let env := Scenario.answering 95 (Scenario.t0 + Scenario.hour) in
  let d := App.after (App.telegram_webhook env "start" 77)
                     Scenario.two_meters in
  let owner := App.User.mk 1 42 true Scenario.t0 in
  let d' :=
    App.after (handler_of Scenario.float_of_str env 77
                          (PostAddMeter "31041051999" "Flat")) d in
  App.user_by_telegram_id 42 d' = Some owner /\
  App.meters_of owner d' = App.meters_of owner d /\
  readings_of (App.meters_of owner d) d'
  = readings_of (App.meters_of owner d) d.
Proof.
  intros env d owner.
  apply (request_leaves_other_users_alone
           Scenario.float_of_str env 77 (PostAddMeter "31041051999" "Flat")
           d 42 owner).
  - apply wf_after_telegram_webhook. exact wf_two_meters.
  - vm_compute.
    apply NoDup_cons; [intros [H|[]]; discriminate H|].
    apply NoDup_cons; [intros []|apply NoDup_nil].
  - vm_compute. reflexivity.
  - discriminate.
Defined.
